(** * FlareMonitor: the Oura collection script [collect.py]

    A shallow embedding of [OuraDataCollector] and [main], and the
    properties of the specification established on it.

    The script is glue between three libraries: [requests] (one GET per
    endpoint), [pandas] (tables built from JSON records, projected,
    renamed and left-joined) and the operating system (files, the
    console).  The embedding follows that shape:

    - decoded JSON is the inductive [json]; the Python operators applied
      to it ([if data], ['data' in data], [data['data']]) are written out
      with the exceptions they raise;
    - a [DataFrame] is a list of column labels with a list of rows of
      cells; the pandas operations the script calls are functions on it;
    - everything effectful runs in the monad [M] over a [World]: the
      remote service, the clock, the object store holding the tables
      (tables are Python objects, handed around by reference), the
      files written, the console and the requests sent.

    What the embedding takes from the libraries:

    - [requests] as of 2.27: [raise_for_status] raises for the statuses
      400 to 599 only, and [Response.json] reports a body that is not
      JSON with an exception that is a [RequestException];
    - [pandas] as of 2.0: a left join keeps the order of the left table,
      matches missing keys with missing keys, and refuses suffixes that
      create duplicate labels.  Cells are untyped JSON values, so the
      checks pandas makes on the dtypes of the join keys have no
      counterpart here, and neither has the conversion of numbers: a
      column of integers that gets a missing cell, or a floating-point
      number, is a column of floating-point numbers in pandas, while
      here an integer stays the integer it was.  The properties that
      speak about the cells built from records or brought in by a join
      are therefore stated for the values that are not integers
      ([stores]), and for the integers only where pandas has no reason
      to convert them: in a column built from records that all have a
      value which is neither missing nor a floating-point number
      ([plain_column]), and in a join in which every row of the left
      table finds a row of the right one.  The cells of the left table
      are never converted by a left join.  What [pd.DataFrame] makes of
      a value that is not a list of dicts is a parameter of the
      development;
    - [datetime.date] with its range, years 1 to 9999;
    - the file system as far as the script depends on it: [os.makedirs]
      refuses the empty path, and a file can only be written into a
      directory that exists ([to_csv] raises [OSError] otherwise, the
      script never creates the directory of the summary on its own).
      Directories are told apart by the names on their paths: links and
      [..] are not resolved, and a relative path is not compared with
      an absolute one.  Failures of the environment (permissions, a
      full disk, a file in the place of a directory) are left out; a
      file is the table written to it. *)

From stdpp Require Import gmap strings list.
From Stdlib Require Import ZArith Ascii.

Local Open Scope string_scope.
Local Open Scope list_scope.
Local Open Scope Z_scope.
Local Set Warnings "-register-all".

(** ** Decoded JSON and the Python operators used on it *)

Inductive json : Type :=
  | JNull
  | JBool (b : bool)
  | JInt (n : Z)
  | JReal (mantissa exponent : Z)
  | JStr (s : string)
  | JArr (items : list json)
  | JObj (members : list (string * json)).

(** Structural comparison of two decoded values. *)
Fixpoint json_eqb (a b : json) : bool :=
  match a, b with
  | JNull, JNull => true
  | JBool x, JBool y => Bool.eqb x y
  | JInt x, JInt y => Z.eqb x y
  | JReal m e, JReal m' e' => Z.eqb m m' && Z.eqb e e'
  | JStr s, JStr t => String.eqb s t
  | JArr l, JArr l' =>
      (fix items (l l' : list json) : bool :=
         match l, l' with
         | [], [] => true
         | x :: xs, y :: ys => json_eqb x y && items xs ys
         | _, _ => false
         end) l l'
  | JObj l, JObj l' =>
      (fix members (l l' : list (string * json)) : bool :=
         match l, l' with
         | [], [] => true
         | (k, x) :: xs, (k', y) :: ys =>
             String.eqb k k' && json_eqb x y && members xs ys
         | _, _ => false
         end) l l'
  | _, _ => false
  end.

(** Exceptions that can travel through the script.  The first group are
    the subclasses of [requests.exceptions.RequestException]. *)
Inductive exn : Type :=
  | ConnectionError
  | Timeout
  | TooManyRedirects
  | HTTPError (status : Z)
  | JSONDecodeError
  | TypeError
  | KeyError (labels : list string)
  | ValueError
  | MergeError
  | OverflowError
  | EOFError
  | FileNotFoundError
  | OSError
  | SystemError.

Definition is_RequestException (e : exn) : bool :=
  match e with
  | ConnectionError | Timeout | TooManyRedirects
  | HTTPError _ | JSONDecodeError => true
  | _ => false
  end.

Inductive outcome (A : Type) : Type :=
  | Ok (a : A)
  | Raised (e : exn).
Arguments Ok {A} a.
Arguments Raised {A} e.

(** [bool(v)]: Python truth value of a decoded JSON value. *)
Definition truthy (v : json) : bool :=
  match v with
  | JNull => false
  | JBool b => b
  | JInt n => negb (Z.eqb n 0)
  | JReal m _ => negb (Z.eqb m 0)
  | JStr s => negb (String.eqb s "")
  | JArr l => negb (Nat.eqb (length l) 0)
  | JObj l => negb (Nat.eqb (length l) 0)
  end.

Fixpoint is_substring (s t : string) : bool :=
  String.prefix s t ||
  match t with
  | EmptyString => false
  | String _ t' => is_substring s t'
  end.

Fixpoint assoc {A : Type} (k : string) (l : list (string * A)) : option A :=
  match l with
  | [] => None
  | (k', v) :: l' => if String.eqb k k' then Some v else assoc k l'
  end.

(** [key in v] for a string [key]. *)
Definition py_contains (key : string) (v : json) : outcome bool :=
  match v with
  | JObj l => Ok (match assoc key l with Some _ => true | None => false end)
  | JArr l => Ok (existsb (json_eqb (JStr key)) l)
  | JStr s => Ok (is_substring key s)
  | JNull | JBool _ | JInt _ | JReal _ _ => Raised TypeError
  end.

(** [v[key]] for a string [key]. *)
Definition py_getitem (v : json) (key : string) : outcome json :=
  match v with
  | JObj l =>
      match assoc key l with
      | Some x => Ok x
      | None => Raised (KeyError [key])
      end
  | _ => Raised TypeError
  end.

(** ** Tables *)

Record DataFrame : Type := mkDataFrame {
  columns : list string;
  rows : list (list json)
}.

(** [pd.DataFrame()] *)
Definition DataFrame_empty : DataFrame := mkDataFrame [] [].

(** [df.empty]: some axis has length zero. *)
Definition empty (df : DataFrame) : bool :=
  Nat.eqb (length (columns df)) 0 || Nat.eqb (length (rows df)) 0.

(** [len(df)] *)
Definition len (df : DataFrame) : Z := Z.of_nat (length (rows df)).

Definition has_label (c : string) (cols : list string) : bool :=
  existsb (String.eqb c) cols.

(** Labels in order of first appearance. *)
Fixpoint first_seen (seen : list string) (ks : list string) : list string :=
  match ks with
  | [] => []
  | k :: ks' =>
      if has_label k seen then first_seen seen ks'
      else k :: first_seen (seen ++ [k])%list ks'
  end.

Definition cell (r : list (string * json)) (c : string) : json :=
  match assoc c r with
  | Some v => v
  | None => JNull
  end.

(** [pd.DataFrame(records)] for a list of dicts: the columns are the
    keys in order of first appearance, a key a record lacks is a missing
    cell.  The cells are the values as they came; the conversion pandas
    makes of the integers of a column that has a missing cell or a
    floating-point number is not followed. *)
Definition DataFrame_of_records (records : list (list (string * json))) : DataFrame :=
  let cols := first_seen [] (concat (map (map fst) records)) in
  mkDataFrame cols (map (fun r => map (cell r) cols) records).

Definition as_record (v : json) : option (list (string * json)) :=
  match v with
  | JObj l => Some l
  | _ => None
  end.

Fixpoint as_records (l : list json) : option (list (list (string * json))) :=
  match l with
  | [] => Some []
  | v :: l' =>
      match as_record v, as_records l' with
      | Some r, Some rs => Some (r :: rs)
      | _, _ => None
      end
  end.

(** Positions of label [c] among [cols], counted from [i]. *)
Fixpoint positions_from (i : nat) (c : string) (cols : list string) : list nat :=
  match cols with
  | [] => []
  | c' :: cols' =>
      if String.eqb c c' then i :: positions_from (S i) c cols'
      else positions_from (S i) c cols'
  end.

Definition positions (c : string) (cols : list string) : list nat :=
  positions_from 0 c cols.

Definition at_position (r : list json) (i : nat) : json := nth i r JNull.

(** [df[labels]] for a list of labels: every column carrying a requested
    label, in the order requested; [KeyError] names the labels that are
    not columns. *)
Definition getitem_columns (df : DataFrame) (labels : list string) : outcome DataFrame :=
  match List.filter (fun l => negb (has_label l (columns df))) labels with
  | [] =>
      let picked := concat (map (fun l => positions l (columns df)) labels) in
      Ok (mkDataFrame
            (map (fun i => nth i (columns df) "") picked)
            (map (fun r => map (at_position r) picked) (rows df)))
  | missing => Raised (KeyError missing)
  end.

(** [df.rename(columns={old: new})] *)
Definition rename (df : DataFrame) (old new : string) : DataFrame :=
  mkDataFrame
    (map (fun c => if String.eqb c old then new else c) (columns df))
    (rows df).

(** *** [left.merge(right, on=key, how='left', suffixes=(ls, rs))] *)

Definition drop_position {A : Type} (i : nat) (l : list A) : list A :=
  (take i l ++ drop (S i) l)%list.

(** pandas' [renamer]: a label carried by both sides gets the suffix. *)
Definition renamer (to_rename : list string) (suffix : string) (x : string) : string :=
  if has_label x to_rename then x +:+ suffix else x.

(** Labels that became duplicates through the suffix, and were not
    duplicates before it (pandas refuses these with [MergeError]). *)
Fixpoint suffix_duplicates (before_old before_new old new : list string) : list string :=
  match old, new with
  | o :: old', n :: new' =>
      ((if has_label n before_new && negb (has_label o before_old) then [n] else [])
       ++ suffix_duplicates (before_old ++ [o]) (before_new ++ [n]) old' new')%list
  | _, _ => []
  end.

(** The rows a left join produces for one row of the left table: one per
    matching row of the right table, in the right table's order, or the
    left row padded with missing cells when nothing matches.  The cells
    taken from the right table are as they were there; the conversion
    pandas makes of its integers once some row of the left table finds
    no match is not followed. *)
Definition joined_rows (kl kr width : nat) (right_rows : list (list json))
    (l : list json) : list (list json) :=
  match List.filter (fun r => json_eqb (at_position l kl) (at_position r kr)) right_rows with
  | [] => [(l ++ repeat JNull width)%list]
  | matches => map (fun r => (l ++ drop_position kr r)%list) matches
  end.

(** The join itself.  The key must label exactly one column on each
    side; the result has the columns of the left table, then those of
    the right table without the key, each side renamed by [renamer]. *)
Definition merge_left (left right : DataFrame) (key : string)
    (suffixes : string * string) : outcome DataFrame :=
  match positions key (columns right), positions key (columns left) with
  | [], _ | _, [] => Raised (KeyError [key])
  | [kr], [kl] =>
      let lcols := columns left in
      let rcols := drop_position kr (columns right) in
      let to_rename := List.filter (fun c => has_label c rcols) lcols in
      let '(lsuffix, rsuffix) := suffixes in
      if negb (Nat.eqb (length to_rename) 0) && String.eqb lsuffix "" && String.eqb rsuffix ""
      then Raised ValueError
      else
        let llabels := map (renamer to_rename lsuffix) lcols in
        let rlabels := map (renamer to_rename rsuffix) rcols in
        match (suffix_duplicates [] [] lcols llabels
               ++ suffix_duplicates [] [] rcols rlabels)%list with
        | [] =>
            Ok (mkDataFrame (llabels ++ rlabels)%list
                  (flat_map (joined_rows kl kr (length rcols) (rows right)) (rows left)))
        | _ => Raised MergeError
        end
  | _, _ => Raised ValueError
  end.

(** ** Calendar dates ([datetime.date])

    A date is its proleptic Gregorian ordinal, as [date.toordinal] gives
    it: day 1 is 0001-01-01 and [MAXORDINAL] is 9999-12-31. *)

Definition MAXORDINAL : Z := 3652059.

Definition valid_ordinal (o : Z) : bool := (0 <? o) && (o <=? MAXORDINAL).

Definition days_before_month (month : Z) : Z :=
  nth (Z.to_nat month) [-1; 0; 31; 59; 90; 120; 151; 181; 212; 243; 273; 304; 334] 0.

Definition days_in_month (month : Z) : Z :=
  nth (Z.to_nat month) [-1; 31; 28; 31; 30; 31; 30; 31; 31; 30; 31; 30; 31] 0.

Definition Z_of_bool (b : bool) : Z := if b then 1 else 0.

(** CPython's [_ord2ymd]. *)
Definition ord2ymd (ordinal : Z) : Z * Z * Z :=
  let n := ordinal - 1 in
  let n400 := n / 146097 in
  let n := n mod 146097 in
  let year := n400 * 400 + 1 in
  let n100 := n / 36524 in
  let n := n mod 36524 in
  let n4 := n / 1461 in
  let n := n mod 1461 in
  let n1 := n / 365 in
  let n := n mod 365 in
  let year := year + n100 * 100 + n4 * 4 + n1 in
  if Z.eqb n1 4 || Z.eqb n100 4 then (year - 1, 12, 31)
  else
    let leapyear := Z.eqb n1 3 && (negb (Z.eqb n4 24) || Z.eqb n100 3) in
    let month := Z.shiftr (n + 50) 5 in
    let preceding := days_before_month month + Z_of_bool ((2 <? month) && leapyear) in
    if n <? preceding then
      let month := month - 1 in
      let preceding :=
        preceding - (days_in_month month + Z_of_bool (Z.eqb month 2 && leapyear)) in
      (year, month, n - preceding + 1)
    else (year, month, n - preceding + 1).

Definition digit (n : Z) : ascii := ascii_of_nat (48 + Z.to_nat (n mod 10))%nat.

Definition digits2 (n : Z) : string :=
  String (digit (n / 10)) (String (digit n) "").

Definition digits4 (n : Z) : string :=
  String (digit (n / 1000)) (String (digit (n / 100)) (digits2 n)).

(** [date.isoformat()]: YYYY-MM-DD. *)
Definition isoformat (ordinal : Z) : string :=
  let '(y, m, d) := ord2ymd ordinal in
  digits4 y +:+ "-" +:+ digits2 m +:+ "-" +:+ digits2 d.

(** [date - timedelta(days=days)]: the constructor of [timedelta] and the
    subtraction both refuse values out of range with [OverflowError]. *)
Definition date_minus_days (ordinal days : Z) : outcome Z :=
  if 999999999 <? Z.abs days then Raised OverflowError
  else
    let o := ordinal - days in
    if valid_ordinal o then Ok o else Raised OverflowError.

(** ** The world the script runs in *)

(** Text typed by the operator: a sequence of Unicode code points. *)
Definition text : Type := list N.

Definition text_of_string (s : string) : text :=
  map N_of_ascii (String.list_ascii_of_string s).

(** A GET request as [requests.get(url, headers=..., params=...)] sends it. *)
Record Request : Type := mkRequest {
  url : string;
  authorization : text;
  params : list (string * string)
}.

(** A [requests.Response]: the status code and the body, which is the
    decoded JSON document, or [None] when the body is not JSON. *)
Record Response : Type := mkResponse {
  status_code : Z;
  body : option json
}.

(** What becomes of a request: [requests.get] raises, or it returns a
    response with this status and body. *)
Inductive Reply : Type :=
  | Fails (e : exn)
  | Responds (status : Z) (content : option json).

(** Lines the script shows the operator; [NextSteps] stands for the four
    closing lines of advice. *)
Inductive Notice : Type :=
  | Prompt (message : string)
  | ErrorFetching (endpoint : string) (e : exn)
  | FetchingRange (start_date end_date : string)
  | FetchingDataset (name : string)
  | Saved (records : Z) (filepath : string)
  | NoData (name : string)
  | MissingRequired
  | CreatedSummary (days : Z) (filepath : string)
  | NoTokenProvided
  | Collecting
  | Complete
  | NextSteps.

(** References to table objects. *)
Definition ref : Type := nat.

Record World : Type := mkWorld {
  network : Request -> Reply;
  today : Z;
  stdin : list text;
  heap : list DataFrame;
  files : gmap string DataFrame;
  dirs : gset string;
  stdout : list Notice;
  sent : list Request
}.

Definition M (A : Type) : Type := World -> outcome A * World.

#[global] Instance M_ret : MRet M := fun A a w => (Ok a, w).

#[global] Instance M_bind : MBind M := fun A B f m w =>
  match m w with
  | (Ok a, w') => f a w'
  | (Raised e, w') => (Raised e, w')
  end.

Definition raise {A : Type} (e : exn) : M A := fun w => (Raised e, w).

Definition lift {A : Type} (o : outcome A) : M A := fun w => (o, w).

(** [try: body except requests.exceptions.RequestException as e: handler] *)
Definition try_except_RequestException {A : Type} (body : M A) (handler : exn -> M A) : M A :=
  fun w =>
    match body w with
    | (Raised e, w') =>
        if is_RequestException e then handler e w' else (Raised e, w')
    | r => r
    end.

Definition print (n : Notice) : M unit := fun w =>
  (Ok tt,
   mkWorld (network w) (today w) (stdin w) (heap w) (files w) (dirs w)
     (stdout w ++ [n])%list (sent w)).

(** A new table object. *)
Definition new (df : DataFrame) : M ref := fun w =>
  (Ok (length (heap w)),
   mkWorld (network w) (today w) (stdin w) (heap w ++ [df])%list (files w) (dirs w)
     (stdout w) (sent w)).

(** The table a reference denotes.  Python has no reference without its
    object; the model raises [SystemError] for one. *)
Definition table (r : ref) : M DataFrame := fun w =>
  match heap w !! r with
  | Some df => (Ok df, w)
  | None => (Raised SystemError, w)
  end.

(** [requests.get(url, headers=..., params=...)] *)
Definition requests_get (rq : Request) : M Response := fun w =>
  let w' := mkWorld (network w) (today w) (stdin w) (heap w) (files w) (dirs w)
              (stdout w) (sent w ++ [rq])%list in
  match network w rq with
  | Fails e => (Raised e, w')
  | Responds status content => (Ok (mkResponse status content), w')
  end.

(** [datetime.now().date()] *)
Definition datetime_now_date : M Z := fun w => (Ok (today w), w).

(** *** Paths and directories

    [dirs] holds the directories known to exist, each under the path it
    was created or found with.  With a directory the directories above
    it exist, and so do the current directory and the root. *)

Definition is_absolute (path : string) : bool :=
  match path with
  | String c _ => Ascii.eqb c "/"
  | EmptyString => false
  end.

(** The name between two slashes counts unless it is empty or [.]. *)
Definition component (name : string) : list string :=
  if String.eqb name "" || String.eqb name "." then [] else [name].

Fixpoint components_from (current : string) (path : string) : list string :=
  match path with
  | EmptyString => component current
  | String c path' =>
      if Ascii.eqb c "/" then (component current ++ components_from "" path')%list
      else components_from (current +:+ String c "") path'
  end.

(** The names on a path, as [pathlib.PurePosixPath(path).parts] gives
    them after the root. *)
Definition components (path : string) : list string := components_from "" path.

Fixpoint is_prefix (a b : list string) : bool :=
  match a, b with
  | [], _ => true
  | x :: a', y :: b' => String.eqb x y && is_prefix a' b'
  | _ :: _, [] => false
  end.

(** The directory with these names, below the root or below the current
    directory, exists. *)
Definition is_dir (w : World) (absolute : bool) (names : list string) : bool :=
  match names with
  | [] => true
  | _ =>
      existsb (fun d => Bool.eqb (is_absolute d) absolute && is_prefix names (components d))
        (elements (dirs w))
  end.

(** [path] names a directory that exists; the empty path stands for the
    current directory, as it does in [os.path.join]. *)
Definition path_is_dir (w : World) (path : string) : bool :=
  is_dir w (is_absolute path) (components path).

(** A file can be written at [filepath]: the path has a last name, and
    the directory before it exists (pandas checks
    [Path(filepath).parent.is_dir()]). *)
Definition writable (w : World) (filepath : string) : bool :=
  match components filepath with
  | [] => false
  | names => is_dir w (is_absolute filepath) (removelast names)
  end.

(** [os.makedirs(path, exist_ok=True)]: the empty path is refused with
    [FileNotFoundError]. *)
Definition os_makedirs (path : string) : M unit := fun w =>
  if String.eqb path "" then (Raised FileNotFoundError, w)
  else
    (Ok tt,
     mkWorld (network w) (today w) (stdin w) (heap w) (files w) ({[path]} ∪ dirs w)
       (stdout w) (sent w)).

(** [os.path.join(a, b)] for a relative [b]. *)
Definition os_path_join (a b : string) : string :=
  if String.eqb a "" then b
  else if String.eqb (String.substring (String.length a - 1)%nat 1 a) "/" then a +:+ b
  else a +:+ "/" +:+ b.

(** [input(prompt)] *)
Definition input (prompt : string) : M text := fun w =>
  let w' := mkWorld (network w) (today w) (tail (stdin w)) (heap w) (files w) (dirs w)
              (stdout w ++ [Prompt prompt])%list (sent w) in
  match stdin w with
  | line :: _ => (Ok line, w')
  | [] => (Raised EOFError, w')
  end.

(** *** Methods of table objects *)

(** [df.empty] *)
Definition df_empty (r : ref) : M bool :=
  df ← table r; mret (empty df).

(** [df.copy()] *)
Definition df_copy (r : ref) : M ref :=
  df ← table r; new df.

(** [df[labels]] *)
Definition df_getitem (r : ref) (labels : list string) : M ref :=
  df ← table r; picked ← lift (getitem_columns df labels); new picked.

(** [df.rename(columns={old: new})] *)
Definition df_rename (r : ref) (old new_label : string) : M ref :=
  df ← table r; new (rename df old new_label).

(** [left.merge(right, on=key, how='left', suffixes=suffixes)] *)
Definition df_merge (left right : ref) (key : string) (suffixes : string * string) : M ref :=
  l ← table left; r ← table right;
  merged ← lift (merge_left l r key suffixes); new merged.

(** A file is modelled by the table written to it.  Writing into a
    directory that does not exist raises [OSError]. *)
Definition write_file (filepath : string) (df : DataFrame) : M unit := fun w =>
  if writable w filepath then
    (Ok tt,
     mkWorld (network w) (today w) (stdin w) (heap w) (<[filepath := df]> (files w))
       (dirs w) (stdout w) (sent w))
  else (Raised OSError, w).

(** [df.to_csv(filepath, index=False)] *)
Definition df_to_csv (r : ref) (filepath : string) : M unit :=
  df ← table r; write_file filepath df.

(** [len(df)] *)
Definition df_len (r : ref) : M Z :=
  df ← table r; mret (len df).

(** [d[name]] on a Python dict. *)
Definition dict_getitem (d : gmap string ref) (name : string) : M ref :=
  match d !! name with
  | Some r => mret r
  | None => raise (KeyError [name])
  end.

(** [name in d] on a Python dict. *)
Definition dict_contains (name : string) (d : gmap string ref) : bool :=
  match d !! name with
  | Some _ => true
  | None => false
  end.

(** *** [requests] *)

(** [response.raise_for_status()]: [HTTPError] for the client and server
    error classes, 400 to 599, and nothing for any other status. *)
Definition raise_for_status (response : Response) : M unit :=
  if (400 <=? status_code response) && (status_code response <? 600)
  then raise (HTTPError (status_code response))
  else mret tt.

(** [response.json()]: a body that is not JSON raises
    [requests.exceptions.JSONDecodeError], a [RequestException]. *)
Definition response_json (response : Response) : M json :=
  match body response with
  | Some v => mret v
  | None => raise JSONDecodeError
  end.

(** ** The collector *)

Record OuraDataCollector : Type := mkCollector {
  base_url : string;
  headers : text
}.

Definition __init__ (personal_access_token : text) : OuraDataCollector :=
  mkCollector "https://api.ouraring.com/v2/usercollection"
    (text_of_string "Bearer " ++ personal_access_token).

(** The result is the decoded body; Python's [None] is [JNull]. *)
Definition _make_request (self : OuraDataCollector) (endpoint : string)
    (params : list (string * string)) : M json :=
  let url := base_url self +:+ "/" +:+ endpoint in
  try_except_RequestException
    (response ← requests_get (mkRequest url (headers self) params);
     raise_for_status response;;
     response_json response)
    (fun e => print (ErrorFetching endpoint e);; mret JNull).

Definition get_date_range (self : OuraDataCollector) (days_back : Z) : M (string * string) :=
  end_date ← datetime_now_date;
  start_date ← lift (date_minus_days end_date days_back);
  mret (isoformat start_date, isoformat end_date).

Section Collector.

(** [pd.DataFrame(v)] for a value that is not a list of dicts.  The
    service answers with a list of dicts; what pandas makes of other
    shapes is left open. *)
Variable DataFrame_of_irregular : json -> outcome DataFrame.

(** [pd.DataFrame(v)] *)
Definition pd_DataFrame (v : json) : M ref :=
  match v with
  | JArr items =>
      match as_records items with
      | Some records => new (DataFrame_of_records records)
      | None => df ← lift (DataFrame_of_irregular v); new df
      end
  | _ => df ← lift (DataFrame_of_irregular v); new df
  end.

(** The body the six fetch methods share; they differ in the endpoint. *)
Definition fetch (self : OuraDataCollector) (endpoint : string)
    (start_date end_date : string) : M ref :=
  let params := [("start_date", start_date); ("end_date", end_date)] in
  data ← _make_request self endpoint params;
  if truthy data then
    has_data ← lift (py_contains "data" data);
    if has_data : bool then
      items ← lift (py_getitem data "data");
      pd_DataFrame items
    else new DataFrame_empty
  else new DataFrame_empty.

Definition fetch_daily_sleep (self : OuraDataCollector) := fetch self "daily_sleep".
Definition fetch_daily_readiness (self : OuraDataCollector) := fetch self "daily_readiness".
Definition fetch_daily_activity (self : OuraDataCollector) := fetch self "daily_activity".
Definition fetch_heart_rate (self : OuraDataCollector) := fetch self "heartrate".
Definition fetch_daily_stress (self : OuraDataCollector) := fetch self "daily_stress".
Definition fetch_sleep_time_series (self : OuraDataCollector) := fetch self "sleep".

Definition datasets (self : OuraDataCollector) : list (string * (string -> string -> M ref)) :=
  [ ("daily_sleep", fetch_daily_sleep self);
    ("daily_readiness", fetch_daily_readiness self);
    ("daily_activity", fetch_daily_activity self);
    ("heart_rate", fetch_heart_rate self);
    ("daily_stress", fetch_daily_stress self);
    ("sleep_time_series", fetch_sleep_time_series self) ].

(** The [for name, fetch_func in datasets.items()] loop. *)
Fixpoint collect_loop (start_date end_date output_dir : string)
    (todo : list (string * (string -> string -> M ref)))
    (results : gmap string ref) : M (gmap string ref) :=
  match todo with
  | [] => mret results
  | (name, fetch_func) :: todo' =>
      print (FetchingDataset name);;
      df ← fetch_func start_date end_date;
      is_empty ← df_empty df;
      if negb is_empty then
        let filepath := os_path_join output_dir (name +:+ ".csv") in
        df_to_csv df filepath;;
        n ← df_len df;
        print (Saved n filepath);;
        collect_loop start_date end_date output_dir todo' (<[name := df]> results)
      else
        print (NoData name);;
        collect_loop start_date end_date output_dir todo' results
  end.

Definition collect_all_data (self : OuraDataCollector) (days_back : Z)
    (output_dir : string) : M (gmap string ref) :=
  os_makedirs output_dir;;
  '(start_date, end_date) ← get_date_range self days_back;
  print (FetchingRange start_date end_date);;
  collect_loop start_date end_date output_dir (datasets self) ∅.

Definition create_feature_summary (self : OuraDataCollector)
    (data_dict : gmap string ref) (output_dir : string) : M (option ref) :=
  if negb (dict_contains "daily_sleep" data_dict)
     || negb (dict_contains "daily_readiness" data_dict)
  then
    print MissingRequired;;
    mret None
  else
    (* Start with readiness *)
    readiness ← dict_getitem data_dict "daily_readiness";
    df ← df_copy readiness;
    (* Merge sleep data *)
    sleep ← dict_getitem data_dict "daily_sleep";
    sleep_is_empty ← df_empty sleep;
    df ← (if negb sleep_is_empty then
            let sleep_cols := ["day"; "score"; "contributors"] in
            sleep_df ← df_getitem sleep sleep_cols;
            sleep_df ← df_copy sleep_df;
            sleep_df ← df_rename sleep_df "score" "sleep_score";
            df_merge df sleep_df "day" ("", "_sleep")
          else mret df);
    (* Merge activity data *)
    df ← (if dict_contains "daily_activity" data_dict then
            activity ← dict_getitem data_dict "daily_activity";
            activity_is_empty ← df_empty activity;
            if negb activity_is_empty then
              let activity_cols := ["day"; "score"; "contributors"] in
              activity_df ← df_getitem activity activity_cols;
              activity_df ← df_copy activity_df;
              activity_df ← df_rename activity_df "score" "activity_score";
              df_merge df activity_df "day" ("", "_activity")
            else mret df
          else mret df);
    (* Merge stress data *)
    df ← (if dict_contains "daily_stress" data_dict then
            stress ← dict_getitem data_dict "daily_stress";
            stress_is_empty ← df_empty stress;
            if negb stress_is_empty then
              let stress_cols := ["day"; "stress_high"; "recovery_high"] in
              stress_df ← df_getitem stress stress_cols;
              stress_df ← df_copy stress_df;
              df_merge df stress_df "day" ("_x", "_y")
            else mret df
          else mret df);
    (* Save merged summary *)
    let filepath := os_path_join output_dir "daily_features.csv" in
    df_to_csv df filepath;;
    n ← df_len df;
    print (CreatedSummary n filepath);;
    mret (Some df).

(** [str.isspace] on one code point. *)
Definition isspace (c : N) : bool :=
  ((9 <=? c) && (c <=? 13) || (28 <=? c) && (c <=? 32)
   || (c =? 133) || (c =? 160) || (c =? 5760)
   || (8192 <=? c) && (c <=? 8202)
   || (c =? 8232) || (c =? 8233) || (c =? 8239) || (c =? 8287) || (c =? 12288))%N.

Fixpoint lstrip (s : text) : text :=
  match s with
  | c :: s' => if isspace c then lstrip s' else s
  | [] => []
  end.

(** [s.strip()] *)
Definition strip (s : text) : text := rev (lstrip (rev (lstrip s))).

Definition main : M unit :=
  token ← input "Enter your Oura Personal Access Token: ";
  let token := strip token in
  if Nat.eqb (length token) 0 then
    print NoTokenProvided;;
    mret tt
  else
    let collector := __init__ token in
    print Collecting;;
    data ← collect_all_data collector 300 "oura_data";
    if negb (Nat.eqb (size data) 0) then
      create_feature_summary collector data "oura_data";;
      print Complete;;
      print NextSteps;;
      mret tt
    else mret tt.

End Collector.

(** * Notions used to state the properties *)

(** ** Tables *)

(** A table is rectangular: every row has one cell per column. *)
Definition aligned (df : DataFrame) : Prop :=
  Forall (fun r => length r = length (columns df)) (rows df).

(** The cells of the (first) column labelled [label], row by row. *)
Definition column (df : DataFrame) (label : string) : list json :=
  match positions label (columns df) with
  | k :: _ => map (fun r => at_position r k) (rows df)
  | [] => []
  end.

(** ** Computations and what they may change *)

(** A computation never touches a table object that already exists: the
    store only grows at its end. *)
Definition keeps_tables {A : Type} (m : M A) : Prop :=
  forall w, heap w `prefix_of` heap (snd (m w)).

(** Between two worlds nothing happened but the creation of tables. *)
Definition only_allocates (w w' : World) : Prop :=
  heap w `prefix_of` heap w'
  /\ network w' = network w /\ today w' = today w /\ stdin w' = stdin w
  /\ files w' = files w /\ dirs w' = dirs w
  /\ stdout w' = stdout w /\ sent w' = sent w.

(** A computation that works on tables only. *)
Definition table_op {A : Type} (m : M A) : Prop :=
  forall w, only_allocates w (snd (m w)).

(** A computation raises without having shown, written or sent anything. *)
Definition raises_quietly {A : Type} (m : M A) (w : World) : Prop :=
  exists e w', m w = (Raised e, w') /\ only_allocates w w'.

(** Between two worlds a request was sent and possibly an error shown;
    tables, files and directories are the same. *)
Definition only_asks (w w' : World) : Prop :=
  network w' = network w /\ today w' = today w /\ stdin w' = stdin w
  /\ heap w' = heap w /\ files w' = files w /\ dirs w' = dirs w.

(** ** The client and the fetchers *)

(** The request a call of [_make_request] sends. *)
Definition request_of (self : OuraDataCollector) (endpoint : string)
    (params : list (string * string)) : Request :=
  mkRequest (base_url self +:+ "/" +:+ endpoint) (headers self) params.

(** The parameters every fetcher passes. *)
Definition window_params (start_date end_date : string) : list (string * string) :=
  [("start_date", start_date); ("end_date", end_date)].

(** What the client hands a fetcher when there is nothing to tabulate:
    no payload, a payload without the [data] key, or one whose [data]
    array is empty. *)
Definition no_usable_data (data : json) : Prop :=
  data = JNull
  \/ (exists members, data = JObj members /\ assoc "data" members = None)
  \/ (exists members, data = JObj members /\ assoc "data" members = Some (JArr [])).

(** The next three functions describe, without the world, the result of
    [_make_request] and the table a fetcher builds from it; lemmas
    [_make_request_result] and [fetch_result] show that the embedded
    methods compute exactly these. *)

Definition client_result (reply : Reply) : outcome json :=
  match reply with
  | Fails e => if is_RequestException e then Ok JNull else Raised e
  | Responds status body =>
      if (400 <=? status) && (status <? 600) then Ok JNull
      else match body with
           | Some v => Ok v
           | None => Ok JNull
           end
  end.

Definition table_of_payload (irregular : json -> outcome DataFrame) (data : json)
    : outcome DataFrame :=
  if truthy data then
    match py_contains "data" data with
    | Ok true =>
        match py_getitem data "data" with
        | Ok (JArr items) =>
            match as_records items with
            | Some records => Ok (DataFrame_of_records records)
            | None => irregular (JArr items)
            end
        | Ok v => irregular v
        | Raised e => Raised e
        end
    | Ok false => Ok DataFrame_empty
    | Raised e => Raised e
    end
  else Ok DataFrame_empty.

Definition fetched_table (irregular : json -> outcome DataFrame) (reply : Reply)
    : outcome DataFrame :=
  match client_result reply with
  | Ok data => table_of_payload irregular data
  | Raised e => Raised e
  end.

(** ** The orchestrator *)

(** The file of dataset [name]. *)
Definition dataset_file (output_dir name : string) : string :=
  os_path_join output_dir (name +:+ ".csv").

(** The six datasets with the endpoint each fetcher asks. *)
Definition dataset_endpoints : list (string * string) :=
  [ ("daily_sleep", "daily_sleep");
    ("daily_readiness", "daily_readiness");
    ("daily_activity", "daily_activity");
    ("heart_rate", "heartrate");
    ("daily_stress", "daily_stress");
    ("sleep_time_series", "sleep") ].

Definition fetcher_of (irregular : json -> outcome DataFrame) (self : OuraDataCollector)
    (entry : string * string) : string * (string -> string -> M ref) :=
  (fst entry, fetch irregular self (snd entry)).

(** What the loop has done for dataset [name], whose fetcher built the
    table [df]: an empty table leaves the collection and the file as
    they were, another one is recorded and written. *)
Definition recorded (output_dir name : string) (df : DataFrame)
    (acc results : gmap string ref) (w w' : World) : Prop :=
  if empty df then
    results !! name = acc !! name
    /\ files w' !! dataset_file output_dir name = files w !! dataset_file output_dir name
  else
    exists r, results !! name = Some r
              /\ heap w' !! r = Some df
              /\ files w' !! dataset_file output_dir name = Some df.

(** The collection a run returned, the empty one if it raised. *)
Definition result_or_empty (o : outcome (gmap string ref)) : gmap string ref :=
  match o with
  | Ok results => results
  | Raised _ => ∅
  end.

(** ** The merger *)

(** The projection of dataset [name] to [labels] cannot succeed: the
    dataset is in the collection, its table is not empty and it has no
    column for one of the labels. *)
Definition unprojectable (w : World) (data_dict : gmap string ref)
    (name : string) (labels : list string) : Prop :=
  exists (r : ref) (df : DataFrame),
    data_dict !! name = Some r /\ heap w !! r = Some df /\ empty df = false
    /\ exists l, In l labels /\ has_label l (columns df) = false.

(** The state of the merger while it accumulates: every table object is
    rectangular, and the accumulator [df] has as [day] values exactly
    the values of [reference]. *)
Definition accumulates (reference : list json) (w : World) (df : ref) : Prop :=
  Forall aligned (heap w)
  /\ exists acc, heap w !! df = Some acc
                 /\ forall v, In v (column acc "day") <-> In v reference.

(** The same with the rows counted: the accumulator has the [day]
    column of [reference], cell for cell, and as many rows; [w0] is the
    world the merger started in. *)
Definition accumulates_rows (w0 : World) (reference : DataFrame) (w : World) (df : ref)
    : Prop :=
  heap w0 `prefix_of` heap w
  /\ Forall aligned (heap w)
  /\ exists acc, heap w !! df = Some acc
                 /\ column acc "day" = column reference "day"
                 /\ length (rows acc) = length (rows reference).

(** Dataset [name], when it is in the collection, has at most one row
    per day. *)
Definition one_row_per_day (w : World) (data_dict : gmap string ref) (name : string)
    : Prop :=
  forall r, data_dict !! name = Some r ->
    exists df, heap w !! r = Some df /\ NoDup (column df "day").

(** ** Dates read back from their ISO form *)

(** CPython's [_is_leap]. *)
Definition is_leap (year : Z) : bool :=
  Z.eqb (year mod 4) 0 && (negb (Z.eqb (year mod 100) 0) || Z.eqb (year mod 400) 0).

(** CPython's [_days_before_year]. *)
Definition days_before_year (year : Z) : Z :=
  let y := year - 1 in y * 365 + y / 4 - y / 100 + y / 400.

(** CPython's [_ymd2ord]. *)
Definition ymd2ord (year month day : Z) : Z :=
  days_before_year year
  + (days_before_month month + Z_of_bool ((2 <? month) && is_leap year)) + day.

(** CPython's [_days_in_month]. *)
Definition month_length (year month : Z) : Z :=
  if Z.eqb month 2 && is_leap year then 29 else days_in_month month.

Definition digit_value (c : ascii) : option Z :=
  let n := Z.of_nat (nat_of_ascii c) in
  if (48 <=? n) && (n <=? 57) then Some (n - 48) else None.

Definition number_of_digits (ds : list ascii) : option Z :=
  fold_left
    (fun acc c =>
       match acc, digit_value c with
       | Some a, Some v => Some (a * 10 + v)
       | _, _ => None
       end)
    ds (Some 0).

(** The date a string YYYY-MM-DD denotes, as an ordinal
    ([date.fromisoformat] followed by [toordinal]). *)
Definition date_of_iso (s : string) : option Z :=
  match String.list_ascii_of_string s with
  | [y1; y2; y3; y4; s1; m1; m2; s2; d1; d2] =>
      match number_of_digits [y1; y2; y3; y4],
            number_of_digits [m1; m2], number_of_digits [d1; d2] with
      | Some y, Some m, Some d =>
          if Ascii.eqb s1 "-" && Ascii.eqb s2 "-"
             && (1 <=? y) && (1 <=? m) && (m <=? 12) && (1 <=? d)
             && (d <=? month_length y m)
          then Some (ymd2ord y m d)
          else None
      | _, _, _ => None
      end
  | _ => None
  end.

(** The last part of [ord2ymd]: month and day from the day [n] of the
    year, counted from 0. *)
Definition month_day (n : Z) (leapyear : bool) : Z * Z :=
  let month := Z.shiftr (n + 50) 5 in
  let preceding := days_before_month month + Z_of_bool ((2 <? month) && leapyear) in
  if n <? preceding then
    let month := month - 1 in
    let preceding :=
      preceding - (days_in_month month + Z_of_bool (Z.eqb month 2 && leapyear)) in
    (month, n - preceding + 1)
  else (month, n - preceding + 1).

(** [f] holds on the [n] integers from [lo] on. *)
Fixpoint check_range (f : Z -> bool) (lo : Z) (n : nat) : bool :=
  match n with
  | O => true
  | S n' => f lo && check_range f (lo + 1) n'
  end.

Definition month_day_ok (leapyear : bool) (k : Z) : bool :=
  let '(m, d) := month_day k leapyear in
  (1 <=? m) && (m <=? 12) && (1 <=? d)
  && (d <=? (if Z.eqb m 2 && leapyear then 29 else days_in_month m))
  && Z.eqb (days_before_month m + Z_of_bool ((2 <? m) && leapyear) + d) (k + 1).

Definition digit_ok (x : Z) : bool :=
  match digit_value (digit x) with
  | Some v => Z.eqb v x
  | None => false
  end.

(** ** Sample data *)

(** The tables of the specification's naming example, for a day [d] and
    a contributors value [c]. *)
Definition example_readiness (d : string) : DataFrame :=
  DataFrame_of_records [[("day", JStr d); ("score", JInt 80)]].

Definition example_sleep (d : string) (c : json) : DataFrame :=
  DataFrame_of_records [[("day", JStr d); ("score", JInt 70); ("contributors", c)]].

Definition example_dict (readiness sleep : ref) : gmap string ref :=
  <["daily_readiness" := readiness]> (<["daily_sleep" := sleep]> ∅).

Definition sample_day : json := JStr "2024-01-01".

Definition sample_readiness : DataFrame := example_readiness "2024-01-01".

Definition sample_sleep : DataFrame :=
  example_sleep "2024-01-01" (JObj [("deep_sleep", JInt 65)]).

(** A stress table without the [stress_high] and [recovery_high] columns. *)
Definition sample_stress : DataFrame :=
  DataFrame_of_records [[("day", sample_day); ("day_summary", JStr "normal")]].

(** The collection of the two sample tables. *)
Definition sample_dict : gmap string ref := example_dict 0%nat 1%nat.

(** A world whose service cannot be reached, holding the sample tables
    at references 0, 1 and 2 and, in the directory [oura_data], the
    sleep table's file; the operator types a line of blanks. *)
Definition sample_world : World :=
  mkWorld (fun _ => Fails ConnectionError) 739924 [[32%N; 9%N; 160%N]]
    [sample_readiness; sample_sleep; sample_stress]
    (<["oura_data/daily_sleep.csv" := sample_sleep]> ∅) {["oura_data"]} [] [].

(** A service that has sleep data and nothing else. *)
Definition sample_service (rq : Request) : Reply :=
  if String.eqb (url rq) "https://api.ouraring.com/v2/usercollection/daily_sleep"
  then Responds 200
         (Some (JObj [("data",
                       JArr [JObj [("day", sample_day); ("score", JInt 70);
                                   ("contributors", JObj [("deep_sleep", JInt 65)])]])]))
  else Responds 404 None.

(** A world with that service on 2026-11-04, nothing stored yet. *)
Definition sample_online : World :=
  mkWorld sample_service 739924 [] [] ∅ ∅ [] [].

(** ** What a call of the client leaves behind *)

(** The line [_make_request] shows for a reply, if any. *)
Definition error_notices (endpoint : string) (reply : Reply) : list Notice :=
  match reply with
  | Fails e => if is_RequestException e then [ErrorFetching endpoint e] else []
  | Responds status content =>
      if (400 <=? status) && (status <? 600) then [ErrorFetching endpoint (HTTPError status)]
      else match content with
           | Some _ => []
           | None => [ErrorFetching endpoint JSONDecodeError]
           end
  end.

(** The world after a call of [_make_request]. *)
Definition after_request (self : OuraDataCollector) (endpoint : string)
    (params : list (string * string)) (w : World) : World :=
  let rq := request_of self endpoint params in
  mkWorld (network w) (today w) (stdin w) (heap w) (files w) (dirs w)
    (stdout w ++ error_notices endpoint (network w rq)) (sent w ++ [rq]).

(** The world after one round of the loop of [collect_all_data] whose
    fetcher built the table [df]. *)
Definition after_round (self : OuraDataCollector) (start_date end_date output_dir : string)
    (name endpoint : string) (df : DataFrame) (w : World) : World :=
  let rq := request_of self endpoint (window_params start_date end_date) in
  mkWorld (network w) (today w) (stdin w) (heap w ++ [df])
    (if empty df then files w else <[dataset_file output_dir name := df]> (files w))
    (dirs w)
    (stdout w ++ FetchingDataset name :: error_notices endpoint (network w rq)
       ++ [if empty df then NoData name else Saved (len df) (dataset_file output_dir name)])
    (sent w ++ [rq]).

(** The world in which a round stops when the file of its dataset cannot
    be written. *)
Definition after_unwritable_round (self : OuraDataCollector) (start_date end_date : string)
    (name endpoint : string) (df : DataFrame) (w : World) : World :=
  let rq := request_of self endpoint (window_params start_date end_date) in
  mkWorld (network w) (today w) (stdin w) (heap w ++ [df]) (files w) (dirs w)
    (stdout w ++ FetchingDataset name :: error_notices endpoint (network w rq))
    (sent w ++ [rq]).

(** The world in which a round stops when its fetcher raises. *)
Definition after_failed_round (self : OuraDataCollector) (start_date end_date : string)
    (name endpoint : string) (w : World) : World :=
  let rq := request_of self endpoint (window_params start_date end_date) in
  mkWorld (network w) (today w) (stdin w) (heap w) (files w) (dirs w)
    (stdout w ++ FetchingDataset name :: error_notices endpoint (network w rq))
    (sent w ++ [rq]).

(** The requests a run over the window [start_date] to [end_date] sends
    for [entries], in their order. *)
Definition requests_for (self : OuraDataCollector) (start_date end_date : string)
    (entries : list (string * string)) : list Request :=
  map (fun entry => request_of self (snd entry) (window_params start_date end_date)) entries.

(** The lines of a round that found nothing to save. *)
Definition idle_round (self : OuraDataCollector) (start_date end_date : string)
    (w : World) (entry : string * string) : list Notice :=
  FetchingDataset (fst entry)
  :: error_notices (snd entry)
       (network w (request_of self (snd entry) (window_params start_date end_date)))
  ++ [NoData (fst entry)].

(** The world in which [main] starts the collection, once the operator
    has typed a line that is not blank. *)
Definition after_prompt (w : World) : World :=
  mkWorld (network w) (today w) (tail (stdin w)) (heap w) (files w) (dirs w)
    (stdout w ++ [Prompt "Enter your Oura Personal Access Token: "; Collecting])
    (sent w).

(** ** Replies *)

(** A reply the script is written for: a failure of the [requests]
    library, a response with an error status or a body that is not JSON,
    or a JSON object that has no [data] member or has a list of records
    there. *)
Definition expected_reply (reply : Reply) : Prop :=
  match reply with
  | Fails e => is_RequestException e = true
  | Responds status content =>
      400 <= status < 600
      \/ match content with
         | None => True
         | Some (JObj members) =>
             assoc "data" members = None
             \/ exists records, assoc "data" members = Some (JArr (map JObj records))
         | Some _ => False
         end
  end.

(** A reply that leaves a fetcher nothing to tabulate. *)
Definition no_data_reply (reply : Reply) : Prop :=
  match reply with
  | Fails e => is_RequestException e = true
  | Responds status content =>
      400 <= status < 600
      \/ match content with
         | None => True
         | Some data => no_usable_data data
         end
  end.

(** ** The merger, step by step *)

(** The last step of [create_feature_summary]: the accumulated table is
    written to the summary file and reported. *)
Definition save_summary (output_dir : string) (df : ref) : M (option ref) :=
  let filepath := os_path_join output_dir "daily_features.csv" in
  df_to_csv df filepath;;
  n ← df_len df;
  print (CreatedSummary n filepath);;
  mret (Some df).

(** A computation works on tables only and then, unless it has raised,
    goes on as [k]. *)
Definition allocates_then {A B : Type} (m : M B) (k : A -> M B) (w : World) : Prop :=
  (exists e w1, m w = (Raised e, w1) /\ only_allocates w w1)
  \/ (exists a w1, only_allocates w w1 /\ m w = k a w1).

(** The accumulator holds the cells of [reference]: its columns keep
    their place and, unless they clash with the labels taken from the
    stress table, their label; each row begins with a row of
    [reference], and each row of [reference] begins some row. *)
Definition keeps_cells (reference acc : DataFrame) : Prop :=
  (forall k c, columns reference !! k = Some c ->
     c <> "stress_high" -> c <> "recovery_high" -> columns acc !! k = Some c)
  /\ (forall x, In x (rows acc) -> exists l, In l (rows reference) /\ l `prefix_of` x)
  /\ (forall l, In l (rows reference) -> exists x, In x (rows acc) /\ l `prefix_of` x).

Definition extends (reference : DataFrame) (w : World) (df : ref) : Prop :=
  exists acc, heap w !! df = Some acc /\ keeps_cells reference acc.

(** Dataset [name] takes no part in the merge: it is not in the
    collection, or its table is empty. *)
Definition skipped (w : World) (data_dict : gmap string ref) (name : string) : Prop :=
  forall r, data_dict !! name = Some r ->
    exists df, heap w !! r = Some df /\ empty df = true.

(** The joins of the merger: a dataset is projected, copied, for sleep
    and activity renamed, and joined to the accumulator [df]. *)
Definition join_renamed (df src : ref) (new_label rsuffix : string) : M ref :=
  x ← df_getitem src ["day"; "score"; "contributors"];
  y ← df_copy x;
  z ← df_rename y "score" new_label;
  df_merge df z "day" ("", rsuffix).

Definition join_stress (df src : ref) : M ref :=
  x ← df_getitem src ["day"; "stress_high"; "recovery_high"];
  y ← df_copy x;
  df_merge df y "day" ("_x", "_y").

(** The step for an optional dataset. *)
Definition optional_join (data_dict : gmap string ref) (name : string)
    (join : ref -> M ref) (df : ref) : M ref :=
  if dict_contains name data_dict then
    x ← dict_getitem data_dict name;
    x_is_empty ← df_empty x;
    if negb x_is_empty then join x else mret df
  else mret df.

(** The cell of [row] in the (first) column of [df] labelled [key]. *)
Definition key_of (df : DataFrame) (key : string) (row : list json) : json :=
  match positions key (columns df) with
  | k :: _ => at_position row k
  | [] => JNull
  end.

(** ** More sample data *)

(** A service whose activity endpoint answers with a number. *)
Definition sample_scalar_service (rq : Request) : Reply :=
  if String.eqb (url rq) "https://api.ouraring.com/v2/usercollection/daily_activity"
  then Responds 200 (Some (JInt 5))
  else sample_service rq.

(** The operator types a token between blanks. *)
Definition sample_token_line : text := [32; 116; 111; 107; 9]%N.

(** Sessions in which the operator types that line: with the service that
    has sleep data only, and with a service that cannot be reached. *)
Definition sample_session : World :=
  mkWorld sample_service 739924 [sample_token_line] [] ∅ ∅ [] [].

Definition sample_offline_session : World :=
  mkWorld (fun _ => Fails Timeout) 739924 [sample_token_line] [] ∅ ∅ [] [].

(** ** Cells and the numbers pandas converts *)

(** What a cell of a column that may have a missing cell, or hold a
    floating-point number, tells of the value [v] put into it: the cell
    is [v], unless [v] is an integer, which pandas stores in such a
    column as the floating-point number of the same value. *)
Definition stores (c v : json) : Prop := (forall n, v <> JInt n) -> c = v.

(** Every record has under [key] a value that is neither missing nor a
    floating-point number: pandas then has no reason to convert the
    integers of the column. *)
Definition plain_column (key : string) (records : list (list (string * json))) : Prop :=
  forall record, In record records ->
    exists v, assoc key record = Some v /\ v <> JNull /\ forall m e, v <> JReal m e.

(** ** The two scores of a day *)











(** A world whose sleep table is the empty table, which has no columns. *)
Definition sample_world_no_sleep : World :=
  mkWorld (fun _ => Fails ConnectionError) 739924 []
    [sample_readiness; DataFrame_empty] ∅ {["oura_data"]} [] [].

(** * Properties *)

(** ** Running computations *)

Lemma bind_run {A B : Type} (m : M A) (f : A -> M B) (w : World) :
  (m ≫= f) w =
  match m w with
  | (Ok a, w') => f a w'
  | (Raised e, w') => (Raised e, w')
  end.
Proof. reflexivity. Qed.

Lemma bind_Ok_inv {A B : Type} (m : M A) (f : A -> M B) (w w2 : World) (b : B) :
  (m ≫= f) w = (Ok b, w2) ->
  exists a w1, m w = (Ok a, w1) /\ f a w1 = (Ok b, w2).
Proof.
  rewrite bind_run. destruct (m w) as [[a|e] w1]; intros H.
  - exists a, w1. split; [reflexivity | exact H].
  - discriminate H.
Qed.

Lemma table_Ok_inv (r : ref) (w w' : World) (df : DataFrame) :
  table r w = (Ok df, w') -> w' = w /\ heap w !! r = Some df.
Proof.
  unfold table. destruct (heap w !! r) as [df'|]; intros H; inversion H; auto.
Qed.

Lemma table_run (r : ref) (w : World) (df : DataFrame) :
  heap w !! r = Some df -> table r w = (Ok df, w).
Proof. intros H. unfold table. rewrite H. reflexivity. Qed.

(** ** The entry point and the token *)

Lemma lstrip_spaces (s : text) :
  Forall (fun c => isspace c = true) s -> lstrip s = [].
Proof.
  induction 1 as [|c s Hc _ IH]; simpl; [reflexivity|].
  rewrite Hc. exact IH.
Qed.

Lemma strip_spaces (s : text) :
  Forall (fun c => isspace c = true) s -> strip s = [].
Proof.
  intros H. unfold strip. rewrite (lstrip_spaces s H). reflexivity.
Qed.

(** C9. A line made of whitespace only is treated as the empty line: the
    run ends after the prompt and the error notice, with no request
    sent, no table built, no directory and no file created. *)
Theorem main_whitespace_token (irregular : json -> outcome DataFrame)
    (w : World) (line : text) (rest : list text) :
  stdin w = line :: rest ->
  Forall (fun c => isspace c = true) line ->
  main irregular w =
    (Ok tt,
     mkWorld (network w) (today w) rest (heap w) (files w) (dirs w)
       (stdout w ++ [Prompt "Enter your Oura Personal Access Token: "; NoTokenProvided])
       (sent w))
  /\ main irregular w =
     main irregular
       (mkWorld (network w) (today w) ([] :: rest) (heap w) (files w) (dirs w)
          (stdout w) (sent w)).
Proof.
  intros Hin Hsp.
  assert (Hrun : forall l, Forall (fun c => isspace c = true) l ->
            forall w0, stdin w0 = l :: rest ->
            main irregular w0 =
              (Ok tt,
               mkWorld (network w0) (today w0) rest (heap w0) (files w0) (dirs w0)
                 (stdout w0 ++ [Prompt "Enter your Oura Personal Access Token: ";
                                NoTokenProvided])
                 (sent w0))).
  { intros l Hl w0 Hw0. unfold main. rewrite bind_run. unfold input. rewrite Hw0.
    rewrite (strip_spaces l Hl). simpl.
    rewrite bind_run. unfold print. simpl. rewrite <- app_assoc. reflexivity. }
  split.
  - apply (Hrun line Hsp w Hin).
  - rewrite (Hrun line Hsp w Hin).
    rewrite (Hrun [] ltac:(constructor)); reflexivity.
Qed.

Lemma main_whitespace_token_witness :
  main (fun _ => Raised ValueError) sample_world
  = (Ok tt,
     mkWorld (network sample_world) (today sample_world) [] (heap sample_world)
       (files sample_world) (dirs sample_world)
       [Prompt "Enter your Oura Personal Access Token: "; NoTokenProvided]
       (sent sample_world)).
Proof.
  refine (proj1 (main_whitespace_token (fun _ => Raised ValueError) sample_world
                   [32%N; 9%N; 160%N] [] _ _)).
  - reflexivity.
  - repeat constructor.
Defined.

(** ** The merger without its mandatory inputs *)

(** C3. Without [daily_sleep] or without [daily_readiness] the merger
    returns [None]; it shows the notice and changes nothing else: no file
    is written, the files already there stay as they are. *)
Theorem create_feature_summary_missing_input (self : OuraDataCollector)
    (data_dict : gmap string ref) (output_dir : string) (w : World) :
  data_dict !! "daily_sleep" = None \/ data_dict !! "daily_readiness" = None ->
  create_feature_summary self data_dict output_dir w =
    (Ok None,
     mkWorld (network w) (today w) (stdin w) (heap w) (files w) (dirs w)
       (stdout w ++ [MissingRequired]) (sent w)).
Proof.
  intros H. unfold create_feature_summary, dict_contains.
  destruct H as [H|H]; rewrite H; simpl.
  - reflexivity.
  - rewrite orb_true_r. reflexivity.
Qed.

Lemma create_feature_summary_missing_input_witness :
  create_feature_summary (__init__ []) (<["daily_sleep" := 1%nat]> ∅) "oura_data" sample_world
  = (Ok None,
     mkWorld (network sample_world) (today sample_world) (stdin sample_world)
       (heap sample_world) (files sample_world) (dirs sample_world)
       [MissingRequired] (sent sample_world)).
Proof.
  refine (create_feature_summary_missing_input _ _ _ _ _).
  right. reflexivity.
Defined.

(** ** The API client *)

Lemma _make_request_run (self : OuraDataCollector) (endpoint : string)
    (params : list (string * string)) (w : World) :
  _make_request self endpoint params w =
  let rq := request_of self endpoint params in
  let asked := mkWorld (network w) (today w) (stdin w) (heap w) (files w) (dirs w)
                 (stdout w) (sent w ++ [rq]) in
  let failed e := mkWorld (network w) (today w) (stdin w) (heap w) (files w) (dirs w)
                    (stdout w ++ [ErrorFetching endpoint e]) (sent w ++ [rq]) in
  match network w rq with
  | Fails e =>
      if is_RequestException e then (Ok JNull, failed e) else (Raised e, asked)
  | Responds status body =>
      if (400 <=? status) && (status <? 600)
      then (Ok JNull, failed (HTTPError status))
      else match body with
           | Some v => (Ok v, asked)
           | None => (Ok JNull, failed JSONDecodeError)
           end
  end.
Proof.
  unfold _make_request, try_except_RequestException, request_of.
  rewrite bind_run. unfold requests_get. cbv zeta.
  destruct (network w _) as [e|status content].
  - destruct (is_RequestException e); reflexivity.
  - rewrite bind_run. unfold raise_for_status, response_json.
    cbn [status_code body].
    destruct ((400 <=? status) && (status <? 600)).
    + reflexivity.
    + destruct content; reflexivity.
Qed.

(** C4, as amended.  When the GET fails with an exception of the
    [requests] library, or the response has a status from 400 to 599, or
    its body is not JSON, [_make_request] shows the error and returns
    [None]; and whatever response arrives, it does not raise. *)
Theorem make_request_soft_failure (self : OuraDataCollector) (endpoint : string)
    (params : list (string * string)) (w : World) :
  let rq := request_of self endpoint params in
  ((forall e, network w rq = Fails e -> is_RequestException e = true ->
      _make_request self endpoint params w =
        (Ok JNull,
         mkWorld (network w) (today w) (stdin w) (heap w) (files w) (dirs w)
           (stdout w ++ [ErrorFetching endpoint e]) (sent w ++ [rq])))
   /\ (forall status body, network w rq = Responds status body ->
         400 <= status < 600 ->
         _make_request self endpoint params w =
           (Ok JNull,
            mkWorld (network w) (today w) (stdin w) (heap w) (files w) (dirs w)
              (stdout w ++ [ErrorFetching endpoint (HTTPError status)]) (sent w ++ [rq])))
   /\ (forall status, network w rq = Responds status None ->
         exists e,
         _make_request self endpoint params w =
           (Ok JNull,
            mkWorld (network w) (today w) (stdin w) (heap w) (files w) (dirs w)
              (stdout w ++ [ErrorFetching endpoint e]) (sent w ++ [rq])))
   /\ (forall status body, network w rq = Responds status body ->
         exists v, fst (_make_request self endpoint params w) = Ok v)).
Proof.
  intros rq. rewrite _make_request_run. fold rq. cbv zeta.
  repeat split.
  - intros e -> ->. reflexivity.
  - intros status body -> [Hlo Hhi].
    apply Z.leb_le in Hlo. apply Z.ltb_lt in Hhi. rewrite Hlo, Hhi. reflexivity.
  - intros status ->.
    destruct ((400 <=? status) && (status <? 600)); eexists; reflexivity.
  - intros status body ->.
    destruct ((400 <=? status) && (status <? 600)); [|destruct body];
      eexists; reflexivity.
Qed.

(** C4 as stated fails: a response whose status is outside 200-299 but
    also outside 400-599 (here 300, with a JSON body) is decoded and
    returned like a successful one. *)
Lemma make_request_non_2xx_counterexample :
  ~ (forall (self : OuraDataCollector) (endpoint : string)
       (params : list (string * string)) (w : World) (status : Z) (body : option json),
       network w (request_of self endpoint params) = Responds status body ->
       ~ (200 <= status < 300) ->
       fst (_make_request self endpoint params w) = Ok JNull).
Proof.
  intros H.
  specialize (H (__init__ []) "daily_sleep" []
                (mkWorld (fun _ => Responds 300 (Some (JObj [("data", JArr [])])))
                   739924 [] [] ∅ ∅ [] [])
                300 (Some (JObj [("data", JArr [])])) eq_refl ltac:(lia)).
  discriminate H.
Qed.

Lemma make_request_soft_failure_witness :
  _make_request (__init__ []) "daily_sleep" []
    (mkWorld (fun _ => Responds 404 None) 739924 [] [] ∅ ∅ [] [])
  = (Ok JNull,
     mkWorld (fun _ => Responds 404 None) 739924 [] [] ∅ ∅
       [ErrorFetching "daily_sleep" (HTTPError 404)]
       [request_of (__init__ []) "daily_sleep" []]).
Proof.
  refine (proj1 (proj2 (make_request_soft_failure (__init__ []) "daily_sleep" []
            (mkWorld (fun _ => Responds 404 None) 739924 [] [] ∅ ∅ [] []))) 404 None _ _).
  - reflexivity.
  - lia.
Defined.

(** ** The fetchers *)

Lemma new_run (df : DataFrame) (w : World) :
  new df w =
  (Ok (length (heap w)),
   mkWorld (network w) (today w) (stdin w) (heap w ++ [df]) (files w) (dirs w)
     (stdout w) (sent w)).
Proof. reflexivity. Qed.

Lemma assoc_Some_nonempty {A : Type} (k : string) (l : list (string * A)) (v : A) :
  assoc k l = Some v -> Nat.eqb (length l) 0 = false.
Proof. destruct l; [discriminate | reflexivity]. Qed.

Lemma fetch_no_usable_data (irregular : json -> outcome DataFrame)
    (self : OuraDataCollector) (endpoint start_date end_date : string)
    (w w1 : World) (data : json) :
  _make_request self endpoint (window_params start_date end_date) w = (Ok data, w1) ->
  no_usable_data data ->
  fetch irregular self endpoint start_date end_date w = new DataFrame_empty w1.
Proof.
  intros Hreq Hdata. unfold fetch. rewrite bind_run.
  unfold window_params in Hreq. rewrite Hreq.
  destruct Hdata as [-> | [(l & -> & Hl) | (l & -> & Hl)]].
  - reflexivity.
  - destruct (truthy (JObj l)); [|reflexivity].
    rewrite bind_run. unfold lift, py_contains. rewrite Hl. reflexivity.
  - assert (Ht : truthy (JObj l) = true).
    { unfold truthy. rewrite (assoc_Some_nonempty _ _ _ Hl). reflexivity. }
    rewrite Ht. rewrite bind_run. unfold lift at 1, py_contains. rewrite Hl.
    rewrite bind_run. unfold lift, py_getitem. rewrite Hl. reflexivity.
Qed.

(** C5. Each of the six fetchers, when the client hands it no payload, a
    payload without the [data] key or a payload whose [data] array is
    empty, returns a new table with no rows; it does not raise. *)
Theorem fetchers_no_usable_data (irregular : json -> outcome DataFrame)
    (self : OuraDataCollector) (fetcher : string -> string -> M ref)
    (endpoint start_date end_date : string) (w w1 : World) (data : json) :
  In (fetcher, endpoint)
     [ (fetch_daily_sleep irregular self, "daily_sleep");
       (fetch_daily_readiness irregular self, "daily_readiness");
       (fetch_daily_activity irregular self, "daily_activity");
       (fetch_heart_rate irregular self, "heartrate");
       (fetch_daily_stress irregular self, "daily_stress");
       (fetch_sleep_time_series irregular self, "sleep") ] ->
  _make_request self endpoint (window_params start_date end_date) w = (Ok data, w1) ->
  no_usable_data data ->
  exists (r : ref) (w2 : World) (df : DataFrame),
    fetcher start_date end_date w = (Ok r, w2)
    /\ heap w2 !! r = Some df
    /\ rows df = [] /\ len df = 0 /\ empty df = true.
Proof.
  intros Hin Hreq Hdata.
  assert (Hf : fetcher = fetch irregular self endpoint).
  { simpl in Hin.
    repeat (destruct Hin as [Hin|Hin]; [inversion Hin; reflexivity|]).
    destruct Hin. }
  subst fetcher.
  rewrite (fetch_no_usable_data irregular self endpoint start_date end_date w w1 data Hreq Hdata).
  rewrite new_run.
  eexists _, _, DataFrame_empty. split; [reflexivity|].
  split; [|repeat split].
  simpl. apply list_lookup_middle. reflexivity.
Qed.

Lemma fetchers_no_usable_data_witness :
  exists (r : ref) (w2 : World) (df : DataFrame),
    fetch_heart_rate (fun _ => Raised ValueError) (__init__ []) "2024-01-01" "2024-01-31"
      (mkWorld (fun _ => Responds 200 (Some (JObj [("data", JArr [])])))
         739924 [] [] ∅ ∅ [] [])
    = (Ok r, w2)
    /\ heap w2 !! r = Some df
    /\ rows df = [] /\ len df = 0 /\ empty df = true.
Proof.
  refine (fetchers_no_usable_data (fun _ => Raised ValueError) (__init__ []) _
            "heartrate" "2024-01-01" "2024-01-31"
            (mkWorld (fun _ => Responds 200 (Some (JObj [("data", JArr [])])))
               739924 [] [] ∅ ∅ [] [])
            _ (JObj [("data", JArr [])]) _ _ _).
  - simpl. right. right. right. left. reflexivity.
  - reflexivity.
  - right. right. exists [("data", JArr [])]. split; reflexivity.
Defined.

(** ** Computations on tables leave the existing tables alone *)

Lemma only_allocates_refl (w : World) : only_allocates w w.
Proof. unfold only_allocates. repeat split; reflexivity. Qed.

Lemma only_allocates_trans (w1 w2 w3 : World) :
  only_allocates w1 w2 -> only_allocates w2 w3 -> only_allocates w1 w3.
Proof.
  unfold only_allocates.
  intros (H1 & H2 & H3 & H4 & H5 & H6 & H7 & H8) (G1 & G2 & G3 & G4 & G5 & G6 & G7 & G8).
  repeat split; try congruence. by trans (heap w2).
Qed.

Lemma only_allocates_lookup (w w' : World) (r : ref) (df : DataFrame) :
  only_allocates w w' -> heap w !! r = Some df -> heap w' !! r = Some df.
Proof. intros [H _] Hr. exact (prefix_lookup_Some _ _ _ _ Hr H). Qed.

Lemma table_op_ret {A : Type} (a : A) : table_op (mret a : M A).
Proof. intros w. apply only_allocates_refl. Qed.

Lemma table_op_raise {A : Type} (e : exn) : table_op (raise e : M A).
Proof. intros w. apply only_allocates_refl. Qed.

Lemma table_op_lift {A : Type} (o : outcome A) : table_op (lift o).
Proof. intros w. apply only_allocates_refl. Qed.

Lemma table_op_table (r : ref) : table_op (table r).
Proof. intros w. unfold table. destruct (heap w !! r); apply only_allocates_refl. Qed.

Lemma table_op_new (df : DataFrame) : table_op (new df).
Proof.
  intros w. unfold new, only_allocates. simpl.
  repeat split. by apply prefix_app_r.
Qed.

Lemma table_op_bind {A B : Type} (m : M A) (f : A -> M B) :
  table_op m -> (forall a, table_op (f a)) -> table_op (m ≫= f).
Proof.
  intros Hm Hf w. rewrite bind_run. specialize (Hm w).
  destruct (m w) as [[a|e] w1]; simpl in *.
  - eapply only_allocates_trans; [exact Hm | apply Hf].
  - exact Hm.
Qed.

Lemma table_op_dict_getitem (d : gmap string ref) (name : string) :
  table_op (dict_getitem d name).
Proof.
  unfold dict_getitem. destruct (d !! name); [apply table_op_ret | apply table_op_raise].
Qed.

Ltac table_op_steps :=
  repeat first
    [ apply table_op_ret | apply table_op_raise | apply table_op_lift
    | apply table_op_table | apply table_op_new | apply table_op_dict_getitem
    | match goal with
      | |- table_op (_ ≫= _) => apply table_op_bind; [| intros ?]
      | |- table_op (if ?b then _ else _) => destruct b
      end ].

Lemma table_op_df_empty (r : ref) : table_op (df_empty r).
Proof. unfold df_empty. table_op_steps. Qed.

Lemma table_op_df_copy (r : ref) : table_op (df_copy r).
Proof. unfold df_copy. table_op_steps. Qed.

Lemma table_op_df_getitem (r : ref) (labels : list string) : table_op (df_getitem r labels).
Proof. unfold df_getitem. table_op_steps. Qed.

Lemma table_op_df_rename (r : ref) (old new_label : string) :
  table_op (df_rename r old new_label).
Proof. unfold df_rename. table_op_steps. Qed.

Lemma table_op_df_merge (left right : ref) (key : string) (suffixes : string * string) :
  table_op (df_merge left right key suffixes).
Proof. unfold df_merge. table_op_steps. Qed.

Lemma table_op_df_len (r : ref) : table_op (df_len r).
Proof. unfold df_len. table_op_steps. Qed.

Ltac table_ops :=
  repeat first
    [ apply table_op_df_empty | apply table_op_df_copy | apply table_op_df_getitem
    | apply table_op_df_rename | apply table_op_df_merge | apply table_op_df_len
    | apply table_op_ret | apply table_op_raise | apply table_op_lift
    | apply table_op_dict_getitem
    | match goal with
      | |- table_op (_ ≫= _) => apply table_op_bind; [| intros ?]
      | |- table_op (if ?b then _ else _) => destruct b
      end ].

Lemma keeps_tables_table_op {A : Type} (m : M A) : table_op m -> keeps_tables m.
Proof. intros H w. apply (H w). Qed.

Lemma keeps_tables_bind {A B : Type} (m : M A) (f : A -> M B) :
  keeps_tables m -> (forall a, keeps_tables (f a)) -> keeps_tables (m ≫= f).
Proof.
  intros Hm Hf w. rewrite bind_run. specialize (Hm w).
  destruct (m w) as [[a|e] w1]; simpl in *.
  - by trans (heap w1); [| apply Hf].
  - exact Hm.
Qed.

Lemma keeps_tables_print (n : Notice) : keeps_tables (print n).
Proof. intros w. reflexivity. Qed.

Lemma keeps_tables_write_file (filepath : string) (df : DataFrame) :
  keeps_tables (write_file filepath df).
Proof. intros w. unfold write_file. destruct (writable w filepath); reflexivity. Qed.

Lemma keeps_tables_df_to_csv (r : ref) (filepath : string) :
  keeps_tables (df_to_csv r filepath).
Proof.
  unfold df_to_csv. apply keeps_tables_bind.
  - apply keeps_tables_table_op, table_op_table.
  - intros df. apply keeps_tables_write_file.
Qed.

Lemma keeps_tables_create_feature_summary (self : OuraDataCollector)
    (data_dict : gmap string ref) (output_dir : string) :
  keeps_tables (create_feature_summary self data_dict output_dir).
Proof.
  unfold create_feature_summary.
  destruct (negb (dict_contains "daily_sleep" data_dict)
            || negb (dict_contains "daily_readiness" data_dict)).
  - apply keeps_tables_bind; [apply keeps_tables_print|].
    intros _. apply keeps_tables_table_op, table_op_ret.
  - repeat (apply keeps_tables_bind;
            [ solve [apply keeps_tables_table_op; table_ops] | intros ? ]).
    apply keeps_tables_bind; [apply keeps_tables_df_to_csv | intros _].
    apply keeps_tables_bind; [apply keeps_tables_table_op; table_ops | intros ?].
    apply keeps_tables_bind; [apply keeps_tables_print | intros _].
    apply keeps_tables_table_op, table_op_ret.
Qed.

(** C8. The merger leaves every table that exists when it is called as
    it is, whether it returns or raises: the tables of the collection,
    [daily_readiness], [daily_sleep], [daily_activity] and [daily_stress]
    among them, are the same after the call as before. *)
Theorem create_feature_summary_keeps_inputs (self : OuraDataCollector)
    (data_dict : gmap string ref) (output_dir : string) (w : World)
    (r : ref) (df : DataFrame) :
  heap w !! r = Some df ->
  heap (snd (create_feature_summary self data_dict output_dir w)) !! r = Some df.
Proof.
  intros Hr.
  exact (prefix_lookup_Some _ _ _ _ Hr
           (keeps_tables_create_feature_summary self data_dict output_dir w)).
Qed.

Lemma create_feature_summary_keeps_inputs_witness :
  heap (snd (create_feature_summary (__init__ []) sample_dict "oura_data" sample_world)) !! 1%nat
  = Some sample_sleep.
Proof.
  refine (create_feature_summary_keeps_inputs (__init__ []) sample_dict "oura_data"
            sample_world 1%nat sample_sleep _).
  reflexivity.
Defined.

(** ** Projections that cannot succeed *)

Lemma raises_bind_now {A B : Type} (m : M A) (f : A -> M B) (w : World) :
  raises_quietly m w -> raises_quietly (m ≫= f) w.
Proof.
  intros (e & w' & Hm & Hw). exists e, w'. rewrite bind_run, Hm. auto.
Qed.

Lemma raises_bind_later {A B : Type} (m : M A) (f : A -> M B) (w : World) :
  table_op m ->
  (forall a w1, m w = (Ok a, w1) -> only_allocates w w1 -> raises_quietly (f a) w1) ->
  raises_quietly (m ≫= f) w.
Proof.
  intros Hm Hf. unfold raises_quietly. rewrite bind_run.
  specialize (Hm w). destruct (m w) as [[a|e] w1] eqn:E; simpl in Hm.
  - destruct (Hf a w1 eq_refl Hm) as (e & w' & Hfa & Hw).
    exists e, w'. split; [exact Hfa|]. eapply only_allocates_trans; eassumption.
  - exists e, w1. auto.
Qed.

Lemma raises_after {A B : Type} (m : M A) (f : A -> M B) (w : World) (a : A) :
  m w = (Ok a, w) -> raises_quietly (f a) w -> raises_quietly (m ≫= f) w.
Proof.
  intros Hm (e & w' & Hf & Hw). exists e, w'. rewrite bind_run, Hm. auto.
Qed.

Lemma dict_getitem_run (d : gmap string ref) (name : string) (r : ref) (w : World) :
  d !! name = Some r -> dict_getitem d name w = (Ok r, w).
Proof. intros H. unfold dict_getitem. rewrite H. reflexivity. Qed.

Lemma dict_contains_Some (d : gmap string ref) (name : string) (r : ref) :
  d !! name = Some r -> dict_contains name d = true.
Proof. intros H. unfold dict_contains. rewrite H. reflexivity. Qed.

Lemma df_copy_run (r : ref) (w : World) (df : DataFrame) :
  heap w !! r = Some df -> df_copy r w = new df w.
Proof. intros H. unfold df_copy. rewrite bind_run, (table_run _ _ _ H). reflexivity. Qed.

Lemma df_empty_run (r : ref) (w : World) (df : DataFrame) :
  heap w !! r = Some df -> df_empty r w = (Ok (empty df), w).
Proof. intros H. unfold df_empty. rewrite bind_run, (table_run _ _ _ H). reflexivity. Qed.

Lemma getitem_columns_missing (df : DataFrame) (labels : list string) (l : string) :
  In l labels -> has_label l (columns df) = false ->
  exists missing, getitem_columns df labels = Raised (KeyError missing) /\ In l missing.
Proof.
  intros Hin Hl. unfold getitem_columns.
  assert (Hf : In l (List.filter (fun l => negb (has_label l (columns df))) labels)).
  { apply filter_In. split; [exact Hin|]. rewrite Hl. reflexivity. }
  destruct (List.filter _ labels) as [|m ms].
  - destruct Hf.
  - eexists. split; [reflexivity | exact Hf].
Qed.

Lemma df_getitem_raises (r : ref) (labels : list string) (w : World) (df : DataFrame)
    (l : string) :
  heap w !! r = Some df -> In l labels -> has_label l (columns df) = false ->
  raises_quietly (df_getitem r labels) w.
Proof.
  intros Hr Hin Hl.
  destruct (getitem_columns_missing df labels l Hin Hl) as (missing & Hm & _).
  exists (KeyError missing), w. split; [|apply only_allocates_refl].
  unfold df_getitem. rewrite bind_run, (table_run _ _ _ Hr).
  rewrite bind_run. unfold lift. rewrite Hm. reflexivity.
Qed.

Lemma unprojectable_later (w w1 : World) (d : gmap string ref) (name : string)
    (labels : list string) :
  only_allocates w w1 -> unprojectable w d name labels -> unprojectable w1 d name labels.
Proof.
  intros Hw (r & df & Hd & Hr & He & Hl). exists r, df.
  repeat split; try assumption. eapply only_allocates_lookup; eassumption.
Qed.

Lemma optional_projection_raises (w : World) (d : gmap string ref) (name : string)
    (labels : list string) (df : ref) (k : ref -> M ref) :
  unprojectable w d name labels ->
  raises_quietly
    (if dict_contains name d then
       x ← dict_getitem d name;
       x_is_empty ← df_empty x;
       if negb x_is_empty then y ← df_getitem x labels; k y else mret df
     else mret df) w.
Proof.
  intros (r & T & Hd & Hr & He & l & Hin & Hl).
  rewrite (dict_contains_Some _ _ _ Hd).
  eapply raises_after; [apply dict_getitem_run, Hd|].
  eapply raises_after; [apply df_empty_run, Hr|].
  rewrite He. simpl negb. cbv iota.
  apply raises_bind_now. eapply df_getitem_raises; eassumption.
Qed.

(** C10. With both mandatory datasets in the collection, when
    [daily_sleep], [daily_activity] or [daily_stress] is present and not
    empty but lacks one of the columns its projection asks for, the
    merger raises to its caller: it does not return, shows no notice and
    writes no file. *)
Theorem create_feature_summary_missing_column (self : OuraDataCollector)
    (data_dict : gmap string ref) (output_dir : string) (w : World) :
  is_Some (data_dict !! "daily_sleep") ->
  is_Some (data_dict !! "daily_readiness") ->
  unprojectable w data_dict "daily_sleep" ["day"; "score"; "contributors"]
  \/ unprojectable w data_dict "daily_activity" ["day"; "score"; "contributors"]
  \/ unprojectable w data_dict "daily_stress" ["day"; "stress_high"; "recovery_high"] ->
  exists (e : exn) (w' : World),
    create_feature_summary self data_dict output_dir w = (Raised e, w')
    /\ stdout w' = stdout w /\ files w' = files w.
Proof.
  intros [rs Hs] [rr Hrr] Hcase.
  cut (raises_quietly (create_feature_summary self data_dict output_dir) w).
  { intros (e & w' & Hrun & Hw). exists e, w'. unfold only_allocates in Hw. tauto. }
  unfold create_feature_summary.
  rewrite (dict_contains_Some _ _ _ Hs), (dict_contains_Some _ _ _ Hrr).
  simpl orb. cbv iota.
  apply raises_bind_later; [table_ops|]. intros readiness w1 _ H1.
  apply raises_bind_later; [table_ops|]. intros df0 w2 _ H2.
  pose proof (only_allocates_trans _ _ _ H1 H2) as H02.
  eapply raises_after; [apply dict_getitem_run, Hs|].
  destruct Hcase as [Hsleep | Hlater].
  - (* the sleep projection *)
    apply (unprojectable_later _ _ _ _ _ H02) in Hsleep.
    destruct Hsleep as (r & T & Hd & Hr & He & l & Hin & Hl).
    assert (r = rs) by congruence. subst r.
    eapply raises_after; [apply df_empty_run, Hr|].
    rewrite He. simpl negb. cbv iota.
    apply raises_bind_now, raises_bind_now.
    eapply df_getitem_raises; eassumption.
  - apply raises_bind_later; [table_ops|]. intros sleep_is_empty w3 _ H3.
    pose proof (only_allocates_trans _ _ _ H02 H3) as H03.
    apply raises_bind_later; [table_ops|]. intros df1 w4 _ H4.
    pose proof (only_allocates_trans _ _ _ H03 H4) as H04.
    destruct Hlater as [Hactivity | Hstress].
    + (* the activity projection *)
      apply raises_bind_now, optional_projection_raises.
      eapply unprojectable_later; eassumption.
    + apply raises_bind_later; [table_ops|]. intros df2 w5 _ H5.
      pose proof (only_allocates_trans _ _ _ H04 H5) as H05.
      (* the stress projection *)
      apply raises_bind_now, optional_projection_raises.
      eapply unprojectable_later; eassumption.
Qed.

(** X21.  When the sleep table is not empty and lacks one of the columns
    [day], [score] and [contributors], the exception the merger raises
    is the [KeyError] of the projection, naming the missing columns. *)
Lemma create_feature_summary_sleep_KeyError (self : OuraDataCollector)
    (data_dict : gmap string ref) (output_dir : string) (w : World)
    (rr rs : ref) (readiness sleep : DataFrame) (l : string) :
  data_dict !! "daily_readiness" = Some rr -> heap w !! rr = Some readiness ->
  data_dict !! "daily_sleep" = Some rs -> heap w !! rs = Some sleep ->
  empty sleep = false ->
  In l ["day"; "score"; "contributors"] -> has_label l (columns sleep) = false ->
  exists missing,
    fst (create_feature_summary self data_dict output_dir w) = Raised (KeyError missing)
    /\ In l missing.
Proof.
  intros Dr Hrr Ds Hrs He Hin Hl.
  destruct (getitem_columns_missing sleep _ l Hin Hl) as (missing & Hm & Hlm).
  exists missing. split; [|exact Hlm].
  unfold create_feature_summary.
  rewrite (dict_contains_Some _ _ _ Dr), (dict_contains_Some _ _ _ Ds).
  change (negb true || negb true) with false. cbv iota.
  rewrite bind_run, (dict_getitem_run _ _ _ _ Dr); cbv beta iota.
  rewrite bind_run, (df_copy_run _ _ _ Hrr), new_run; cbv beta iota.
  rewrite bind_run, (dict_getitem_run _ _ _ _ Ds); cbv beta iota.
  rewrite bind_run. erewrite df_empty_run by (simpl; apply lookup_app_l_Some; exact Hrs).
  cbv beta iota. rewrite He. simpl negb. cbv iota.
  rewrite bind_run, bind_run. unfold df_getitem at 1.
  rewrite bind_run. erewrite table_run by (simpl; apply lookup_app_l_Some; exact Hrs).
  cbv beta iota. rewrite bind_run. unfold lift. rewrite Hm. reflexivity.
Qed.

Lemma create_feature_summary_missing_column_witness :
  exists (e : exn) (w' : World),
    create_feature_summary (__init__ []) (<["daily_stress" := 2%nat]> sample_dict)
      "oura_data" sample_world = (Raised e, w')
    /\ stdout w' = stdout sample_world /\ files w' = files sample_world.
Proof.
  refine (create_feature_summary_missing_column (__init__ [])
            (<["daily_stress" := 2%nat]> sample_dict) "oura_data" sample_world _ _ _).
  - exists 1%nat. reflexivity.
  - exists 0%nat. reflexivity.
  - right. right. exists 2%nat, sample_stress.
    split; [reflexivity|]. split; [reflexivity|]. split; [reflexivity|].
    exists "stress_high". split; [simpl; tauto | reflexivity].
Defined.

(** C10 as stated fails for a table that is empty: the merger does not
    project an empty sleep table (nor an empty activity or stress
    table), so that the columns it lacks raise nothing.  Here the sleep
    table is the empty table, without any column, and the merger
    returns the readiness table. *)
Lemma create_feature_summary_missing_column_counterexample :
  ~ (forall (self : OuraDataCollector) (data_dict : gmap string ref) (output_dir : string)
       (w : World) (rs : ref) (sleep : DataFrame) (label : string),
       is_Some (data_dict !! "daily_readiness") ->
       data_dict !! "daily_sleep" = Some rs -> heap w !! rs = Some sleep ->
       In label ["day"; "score"; "contributors"] ->
       has_label label (columns sleep) = false ->
       exists (e : exn) (w' : World),
         create_feature_summary self data_dict output_dir w = (Raised e, w')).
Proof.
  intros H.
  destruct (H (__init__ []) sample_dict "oura_data" sample_world_no_sleep 1%nat
              DataFrame_empty "day") as (e & w' & Hrun).
  - exists 0%nat. reflexivity.
  - reflexivity.
  - reflexivity.
  - left. reflexivity.
  - reflexivity.
  - vm_compute in Hrun. discriminate Hrun.
Qed.

(** ** The left join *)

Lemma positions_from_app (i : nat) (c : string) (a b : list string) :
  positions_from i c (a ++ b) =
  positions_from i c a ++ positions_from (i + length a) c b.
Proof.
  revert i. induction a as [|x a IH]; intros i; simpl.
  - rewrite Nat.add_0_r. reflexivity.
  - rewrite IH. replace (S i + length a)%nat with (i + S (length a))%nat by lia.
    destruct (String.eqb c x); reflexivity.
Qed.

Lemma positions_from_bounds (i : nat) (c : string) (l : list string) (k : nat) :
  In k (positions_from i c l) -> (i <= k < i + length l)%nat.
Proof.
  revert i. induction l as [|x l IH]; intros i; simpl; [tauto|].
  destruct (String.eqb c x); simpl; intros H.
  - destruct H as [<-|H]; [lia|]. apply IH in H. lia.
  - apply IH in H. lia.
Qed.

Lemma positions_from_map (f : string -> string) (i : nat) (c : string) (l : list string) :
  (forall x, String.eqb c (f x) = String.eqb c x) ->
  positions_from i c (map f l) = positions_from i c l.
Proof.
  intros Hf. revert i. induction l as [|x l IH]; intros i; simpl; [reflexivity|].
  rewrite Hf, !IH. reflexivity.
Qed.

Lemma positions_from_nil (i : nat) (c : string) (l : list string) :
  positions_from i c l = [] -> has_label c l = false.
Proof.
  revert i. induction l as [|x l IH]; intros i; simpl; [reflexivity|].
  destruct (String.eqb c x); [discriminate|]. apply IH.
Qed.

Lemma positions_from_single (i : nat) (c : string) (l : list string) (k : nat) :
  positions_from i c l = [k] ->
  exists l1 l2, l = l1 ++ c :: l2 /\ k = (i + length l1)%nat
                /\ has_label c l1 = false /\ has_label c l2 = false.
Proof.
  revert i. induction l as [|x l IH]; intros i; simpl; [discriminate|].
  destruct (String.eqb c x) eqn:E.
  - intros H. inversion H as [[Hk Hrest]]. apply String.eqb_eq in E. subst x.
    exists [], l. simpl. rewrite Nat.add_0_r.
    repeat split. eapply positions_from_nil. exact Hrest.
  - intros H. destruct (IH _ H) as (l1 & l2 & -> & -> & H1 & H2).
    exists (x :: l1), l2. simpl. rewrite E, H1.
    repeat split; [lia | exact H2].
Qed.

Lemma drop_position_middle {A : Type} (l1 l2 : list A) (x : A) :
  drop_position (length l1) (l1 ++ x :: l2) = l1 ++ l2.
Proof.
  unfold drop_position. induction l1 as [|y l1 IH]; simpl.
  - reflexivity.
  - f_equal. exact IH.
Qed.

Lemma has_label_app (c : string) (a b : list string) :
  has_label c (a ++ b) = has_label c a || has_label c b.
Proof. unfold has_label. apply existsb_app. Qed.

Lemma key_not_in_rest (key : string) (cols : list string) (k : nat) :
  positions key cols = [k] ->
  has_label key (drop_position k cols) = false
  /\ (k < length cols)%nat
  /\ length (drop_position k cols) = (length cols - 1)%nat.
Proof.
  intros H. destruct (positions_from_single 0 key cols k H) as (l1 & l2 & -> & -> & H1 & H2).
  simpl. rewrite drop_position_middle, has_label_app, H1, H2.
  repeat split; rewrite ?length_app; simpl; lia.
Qed.

Lemma drop_position_length {A : Type} (k : nat) (l : list A) :
  (k < length l)%nat -> length (drop_position k l) = (length l - 1)%nat.
Proof.
  intros H. unfold drop_position.
  rewrite length_app, length_take, length_drop. lia.
Qed.

Lemma has_label_filter (c : string) (p : string -> bool) (l : list string) :
  p c = false -> has_label c (List.filter p l) = false.
Proof.
  intros Hp. induction l as [|x l IH]; simpl; [reflexivity|].
  destruct (p x) eqn:E; [|exact IH].
  simpl. rewrite IH, orb_false_r.
  apply String.eqb_neq. intros ->. congruence.
Qed.

(** A label other than the key does not become the key by taking the
    suffix; the key itself is never renamed. *)
Lemma renamer_key (key suffix : string) (to_rename : list string) (x : string) :
  has_label key to_rename = false ->
  (forall y, y <> key -> y +:+ suffix <> key) ->
  String.eqb key (renamer to_rename suffix x) = String.eqb key x.
Proof.
  intros Hkey Hsfx. unfold renamer.
  destruct (String.eqb key x) eqn:E.
  - apply String.eqb_eq in E. subst x. rewrite Hkey. apply String.eqb_refl.
  - apply String.eqb_neq in E.
    destruct (has_label x to_rename).
    + apply String.eqb_neq. intros Heq. apply (Hsfx x); congruence.
    + apply String.eqb_neq. exact E.
Qed.

Lemma merge_left_Ok_inv (left right : DataFrame) (key lsuffix rsuffix : string)
    (merged : DataFrame) :
  merge_left left right key (lsuffix, rsuffix) = Ok merged ->
  exists kl kr,
    positions key (columns left) = [kl]
    /\ positions key (columns right) = [kr]
    /\ let rcols := drop_position kr (columns right) in
       let to_rename := List.filter (fun c => has_label c rcols) (columns left) in
       merged =
         mkDataFrame
           (map (renamer to_rename lsuffix) (columns left)
            ++ map (renamer to_rename rsuffix) rcols)
           (flat_map (joined_rows kl kr (length rcols) (rows right)) (rows left)).
Proof.
  unfold merge_left.
  destruct (positions key (columns right)) as [|kr [|]]; [discriminate | |].
  2: { destruct (positions key (columns left)) as [|? [|]]; discriminate. }
  destruct (positions key (columns left)) as [|kl [|]]; [discriminate | | discriminate].
  destruct (negb _ && _ && _); [discriminate|].
  destruct (suffix_duplicates _ _ _ _ ++ suffix_duplicates _ _ _ _); [|discriminate].
  intros H. inversion H. exists kl, kr. repeat split.
Qed.

Lemma joined_rows_spec (kl kr width : nat) (right_rows : list (list json)) (l : list json) :
  joined_rows kl kr width right_rows l <> []
  /\ forall x, In x (joined_rows kl kr width right_rows l) ->
       x = l ++ repeat JNull width
       \/ exists r, In r right_rows /\ x = l ++ drop_position kr r.
Proof.
  unfold joined_rows.
  destruct (List.filter _ right_rows) as [|m ms] eqn:E.
  - split; [discriminate|]. intros x [<-|[]]. left. reflexivity.
  - split; [discriminate|]. intros x Hx. right.
    apply in_map_iff in Hx. destruct Hx as (r & <- & Hr).
    exists r. split; [|reflexivity].
    rewrite <- E in Hr. apply filter_In in Hr. tauto.
Qed.

Lemma at_position_app (l x : list json) (k : nat) :
  (k < length l)%nat -> at_position (l ++ x) k = at_position l k.
Proof. intros H. unfold at_position. apply app_nth1. exact H. Qed.

(** The left join keeps the key column of the left table: the same
    values, those and no others. *)
Lemma merge_left_column (left right : DataFrame) (key lsuffix rsuffix : string)
    (merged : DataFrame) :
  (forall y, y <> key -> y +:+ lsuffix <> key) ->
  aligned left ->
  merge_left left right key (lsuffix, rsuffix) = Ok merged ->
  forall v, In v (column merged key) <-> In v (column left key).
Proof.
  intros Hsfx Hal Hm.
  destruct (merge_left_Ok_inv _ _ _ _ _ _ Hm) as (kl & kr & Hkl & Hkr & ->).
  destruct (key_not_in_rest _ _ _ Hkr) as (Hrest & _ & _).
  destruct (key_not_in_rest _ _ _ Hkl) as (_ & Hlt & _).
  unfold column. simpl columns. simpl rows. rewrite Hkl.
  unfold positions. rewrite positions_from_app.
  rewrite positions_from_map.
  2: { intros x. apply renamer_key; [|exact Hsfx].
       apply has_label_filter. exact Hrest. }
  fold (positions key (columns left)). rewrite Hkl. simpl app.
  intros v. rewrite !in_map_iff. split.
  - intros (x & <- & Hx). apply in_flat_map in Hx. destruct Hx as (l & Hl & Hx).
    exists l. split; [|exact Hl].
    assert (Hlen : (kl < length l)%nat).
    { unfold aligned in Hal. rewrite List.Forall_forall in Hal.
      rewrite (Hal l Hl). exact Hlt. }
    destruct (proj2 (joined_rows_spec _ _ _ _ _) x Hx) as [-> | (r & _ & ->)];
      symmetry; apply at_position_app; exact Hlen.
  - intros (l & <- & Hl).
    assert (Hlen : (kl < length l)%nat).
    { unfold aligned in Hal. rewrite List.Forall_forall in Hal.
      rewrite (Hal l Hl). exact Hlt. }
    destruct (joined_rows_spec kl kr
                (length (drop_position kr (columns right))) (rows right) l) as [Hne Hall].
    destruct (joined_rows kl kr _ (rows right) l) as [|x xs] eqn:E; [congruence|].
    exists x. split.
    + destruct (Hall x (or_introl eq_refl)) as [-> | (r & _ & ->)];
        apply at_position_app; exact Hlen.
    + apply in_flat_map. exists l. split; [exact Hl|]. rewrite E. left. reflexivity.
Qed.

Lemma getitem_columns_aligned (df picked : DataFrame) (labels : list string) :
  getitem_columns df labels = Ok picked -> aligned picked.
Proof.
  unfold getitem_columns. destruct (List.filter _ labels); [|discriminate].
  intros H. inversion H. unfold aligned. simpl.
  apply List.Forall_forall. intros r Hr. apply in_map_iff in Hr.
  destruct Hr as (r0 & <- & _). rewrite !length_map. reflexivity.
Qed.

Lemma rename_aligned (df : DataFrame) (old new_label : string) :
  aligned df -> aligned (rename df old new_label).
Proof.
  unfold aligned, rename. simpl. rewrite length_map. auto.
Qed.

Lemma merge_left_aligned (left right : DataFrame) (key lsuffix rsuffix : string)
    (merged : DataFrame) :
  aligned left -> aligned right ->
  merge_left left right key (lsuffix, rsuffix) = Ok merged ->
  aligned merged.
Proof.
  intros Hl Hr Hm.
  destruct (merge_left_Ok_inv _ _ _ _ _ _ Hm) as (kl & kr & Hkl & Hkr & ->).
  destruct (key_not_in_rest _ _ _ Hkr) as (_ & Hlt & Hlen).
  unfold aligned in *. simpl.
  rewrite List.Forall_forall in *. intros x Hx.
  apply in_flat_map in Hx. destruct Hx as (l & Hin & Hx).
  rewrite length_app, !length_map.
  destruct (proj2 (joined_rows_spec _ _ _ _ _) x Hx) as [-> | (r & Hrin & ->)].
  - rewrite length_app, List.repeat_length, (Hl l Hin). reflexivity.
  - rewrite length_app, (Hl l Hin). f_equal.
    rewrite Hlen. rewrite drop_position_length; rewrite (Hr r Hrin); [reflexivity | exact Hlt].
Qed.

(** [json_eqb] only accepts equal values. *)
Lemma json_eqb_eq : forall a b : json, json_eqb a b = true -> a = b.
Proof.
  fix IH 1. intros a b. destruct a as [| x | x | m e | s | l | l], b as [| y | y | m' e' | t | l' | l'];
    simpl; try discriminate; intros H.
  - reflexivity.
  - apply Bool.eqb_prop in H. congruence.
  - apply Z.eqb_eq in H. congruence.
  - apply andb_true_iff in H. destruct H as [H1 H2].
    apply Z.eqb_eq in H1, H2. congruence.
  - apply String.eqb_eq in H. congruence.
  - f_equal. revert l' H.
    induction l as [|x xs IHl]; intros [|y ys] H; try discriminate; [reflexivity|].
    apply andb_true_iff in H. destruct H as [H1 H2].
    f_equal; [apply IH; exact H1 | apply IHl; exact H2].
  - f_equal. revert l' H.
    induction l as [|[k x] xs IHl]; intros [|[k' y] ys] H; try discriminate; [reflexivity|].
    apply andb_true_iff in H. destruct H as [H1 H2].
    apply andb_true_iff in H1. destruct H1 as [H0 H1].
    apply String.eqb_eq in H0. subst k'.
    f_equal; [f_equal; apply IH; exact H1 | apply IHl; exact H2].
Qed.

Lemma filter_unique {A B : Type} (g : A -> B) (p : A -> bool) (v : B) (l : list A) :
  NoDup (map g l) -> (forall x, In x l -> p x = true -> g x = v) ->
  (length (List.filter p l) <= 1)%nat.
Proof.
  induction l as [|x l IH]; intros Hnd Hp; simpl; [lia|].
  simpl in Hnd. apply NoDup_cons in Hnd. destruct Hnd as [Hx Hnd].
  specialize (IH Hnd (fun y Hy => Hp y (or_intror Hy))).
  destruct (p x) eqn:E; [|exact IH].
  assert (Hnone : List.filter p l = []).
  { destruct (List.filter p l) as [|y ys] eqn:F; [reflexivity|]. exfalso.
    assert (Hy : In y (List.filter p l)) by (rewrite F; left; reflexivity).
    apply filter_In in Hy. destruct Hy as [Hy Hpy].
    apply Hx. rewrite list_elem_of_In. apply in_map_iff. exists y. split; [|exact Hy].
    rewrite (Hp y (or_intror Hy) Hpy). symmetry. apply Hp; [left; reflexivity | exact E]. }
  rewrite Hnone. simpl. lia.
Qed.

Lemma joined_rows_single (kl kr width : nat) (right_rows : list (list json)) (l : list json) :
  NoDup (map (fun r => at_position r kr) right_rows) ->
  exists x, joined_rows kl kr width right_rows l = [x]
            /\ exists tail, x = l ++ tail.
Proof.
  intros Hnd. unfold joined_rows.
  pose proof (filter_unique (fun r => at_position r kr)
                (fun r => json_eqb (at_position l kl) (at_position r kr))
                (at_position l kl) right_rows Hnd) as Hlen.
  destruct (List.filter _ right_rows) as [|m [|m' ms]].
  - eexists. split; [reflexivity|]. eexists. reflexivity.
  - eexists. split; [reflexivity|]. eexists. reflexivity.
  - exfalso. simpl in Hlen.
    assert (H : (2 <= 1)%nat).
    { etransitivity; [|apply Hlen]. { simpl. lia. }
      intros x _ Hx. symmetry. apply json_eqb_eq. exact Hx. }
    lia.
Qed.

(** With at most one row per key on the right, the left join has the
    rows of the left table, one for one. *)
Lemma merge_left_one_row_per_key (left right : DataFrame) (key lsuffix rsuffix : string)
    (merged : DataFrame) :
  (forall y, y <> key -> y +:+ lsuffix <> key) ->
  aligned left ->
  NoDup (column right key) ->
  merge_left left right key (lsuffix, rsuffix) = Ok merged ->
  length (rows merged) = length (rows left)
  /\ column merged key = column left key.
Proof.
  intros Hsfx Hal Hnd Hm.
  destruct (merge_left_Ok_inv _ _ _ _ _ _ Hm) as (kl & kr & Hkl & Hkr & ->).
  destruct (key_not_in_rest _ _ _ Hkr) as (Hrest & _ & _).
  destruct (key_not_in_rest _ _ _ Hkl) as (_ & Hlt & _).
  unfold column in Hnd. rewrite Hkr in Hnd.
  unfold column. simpl columns. simpl rows. rewrite Hkl.
  unfold positions. rewrite positions_from_app.
  rewrite positions_from_map.
  2: { intros x. apply renamer_key; [|exact Hsfx].
       apply has_label_filter. exact Hrest. }
  fold (positions key (columns left)). rewrite Hkl. simpl app.
  unfold aligned in Hal. clear Hm.
  induction (rows left) as [|l ls IH]; [split; reflexivity|].
  apply Forall_cons in Hal. destruct Hal as [Hl Hls].
  destruct (IH Hls) as [IH1 IH2].
  destruct (joined_rows_single kl kr (length (drop_position kr (columns right)))
              (rows right) l Hnd) as (x & Hx & tail & ->).
  cbn [flat_map]. rewrite Hx. cbn [app length map]. rewrite IH1, IH2.
  split; [reflexivity|].
  f_equal. apply at_position_app. rewrite Hl. exact Hlt.
Qed.

Lemma positions_from_head (i : nat) (c : string) (cols : list string) :
  has_label c cols = true ->
  exists k rest, positions_from i c cols = k :: rest
                 /\ (i <= k)%nat /\ nth (k - i) cols "" = c.
Proof.
  revert i. induction cols as [|x cols IH]; intros i H; [discriminate|].
  simpl in *. destruct (String.eqb c x) eqn:E.
  - apply String.eqb_eq in E. subst x. exists i, (positions_from (S i) c cols).
    rewrite Nat.sub_diag. repeat split. lia.
  - simpl in H. destruct (IH (S i) H) as (k & rest & Hk & Hle & Hn).
    exists k, rest. split; [exact Hk|]. split; [lia|].
    replace (k - i)%nat with (S (k - S i)) by lia. exact Hn.
Qed.

(** The projection to a list of labels that starts with [key] keeps the
    key column. *)
Lemma getitem_columns_column (df picked : DataFrame) (key : string) (others : list string) :
  getitem_columns df (key :: others) = Ok picked ->
  column picked key = column df key.
Proof.
  unfold getitem_columns. cbn [List.filter].
  destruct (has_label key (columns df)) eqn:Hk; cbn [negb]; [|discriminate].
  destruct (List.filter _ others); [|discriminate].
  intros H. injection H as <-.
  destruct (positions_from_head 0 key (columns df) Hk) as (k & rest & Hpos & _ & Hn).
  rewrite Nat.sub_0_r in Hn.
  unfold column, positions. cbn [columns rows map concat].
  rewrite Hpos. cbn [app map]. rewrite Hn.
  cbn [positions_from]. rewrite String.eqb_refl.
  rewrite map_map. reflexivity.
Qed.

Lemma rename_column (df : DataFrame) (old new_label key : string) :
  old <> key -> new_label <> key ->
  column (rename df old new_label) key = column df key.
Proof.
  intros Hold Hnew. unfold column, rename, positions. cbn [columns rows].
  rewrite positions_from_map; [reflexivity|].
  intros x. destruct (String.eqb x old) eqn:E.
  - apply String.eqb_eq in E. subst x.
    rewrite (proj2 (String.eqb_neq key old)) by congruence.
    apply String.eqb_neq. congruence.
  - reflexivity.
Qed.

(** ** Table methods that return *)

Lemma table_op_run {A : Type} (m : M A) (w w' : World) (a : A) :
  table_op m -> m w = (Ok a, w') -> only_allocates w w'.
Proof. intros Hm Hrun. specialize (Hm w). rewrite Hrun in Hm. exact Hm. Qed.

Lemma new_Ok_inv (df : DataFrame) (w w' : World) (r : ref) :
  new df w = (Ok r, w') ->
  heap w' = heap w ++ [df] /\ heap w' !! r = Some df.
Proof.
  rewrite new_run. intros H. inversion H. simpl. split; [reflexivity|].
  apply list_lookup_middle. reflexivity.
Qed.

Lemma new_aligned (df : DataFrame) (w w' : World) (r : ref) :
  new df w = (Ok r, w') -> aligned df -> Forall aligned (heap w) ->
  Forall aligned (heap w').
Proof.
  intros H Hdf Hw. destruct (new_Ok_inv _ _ _ _ H) as [-> _].
  apply Forall_app. split; [exact Hw|]. constructor; [exact Hdf | constructor].
Qed.

Lemma heap_aligned_lookup (w : World) (r : ref) (df : DataFrame) :
  Forall aligned (heap w) -> heap w !! r = Some df -> aligned df.
Proof. intros H Hr. exact (proj1 (Forall_lookup _ _) H r df Hr). Qed.

Lemma dict_getitem_Ok_inv (d : gmap string ref) (name : string) (w w' : World) (r : ref) :
  dict_getitem d name w = (Ok r, w') -> w' = w /\ d !! name = Some r.
Proof.
  unfold dict_getitem. destruct (d !! name); intros H; inversion H; auto.
Qed.

Lemma ret_Ok_inv {A : Type} (a b : A) (w w' : World) :
  (mret a : M A) w = (Ok b, w') -> b = a /\ w' = w.
Proof. intros H. inversion H. auto. Qed.

Lemma df_empty_Ok_inv (r : ref) (w w' : World) (b : bool) :
  df_empty r w = (Ok b, w') ->
  w' = w /\ exists df, heap w !! r = Some df /\ b = empty df.
Proof.
  unfold df_empty. intros H. apply bind_Ok_inv in H.
  destruct H as (df & w1 & Ht & Hret). apply table_Ok_inv in Ht. destruct Ht as [-> Ht].
  apply ret_Ok_inv in Hret. destruct Hret as [-> ->].
  split; [reflexivity|]. exists df. auto.
Qed.

Lemma df_copy_Ok_inv (r r' : ref) (w w' : World) :
  df_copy r w = (Ok r', w') ->
  exists df, heap w !! r = Some df /\ heap w' !! r' = Some df
             /\ (Forall aligned (heap w) -> Forall aligned (heap w')).
Proof.
  unfold df_copy. intros H. apply bind_Ok_inv in H.
  destruct H as (df & w1 & Ht & Hnew). apply table_Ok_inv in Ht. destruct Ht as [-> Ht].
  exists df. split; [exact Ht|]. split; [apply (new_Ok_inv _ _ _ _ Hnew)|].
  intros Hw. eapply new_aligned; [exact Hnew | | exact Hw].
  eapply heap_aligned_lookup; eassumption.
Qed.

Lemma lift_Ok_inv {A : Type} (o : outcome A) (w w' : World) (a : A) :
  lift o w = (Ok a, w') -> o = Ok a /\ w' = w.
Proof. unfold lift. intros H. inversion H. auto. Qed.

Lemma df_getitem_Ok_inv (r r' : ref) (labels : list string) (w w' : World) :
  df_getitem r labels w = (Ok r', w') ->
  exists df picked,
    heap w !! r = Some df /\ getitem_columns df labels = Ok picked
    /\ heap w' !! r' = Some picked
    /\ (Forall aligned (heap w) -> Forall aligned (heap w')).
Proof.
  unfold df_getitem. intros H. apply bind_Ok_inv in H.
  destruct H as (df & w1 & Ht & H). apply table_Ok_inv in Ht. destruct Ht as [-> Ht].
  apply bind_Ok_inv in H. destruct H as (picked & w2 & Hl & Hnew).
  apply lift_Ok_inv in Hl. destruct Hl as [Hl ->].
  exists df, picked. repeat split; [exact Ht | exact Hl | apply (new_Ok_inv _ _ _ _ Hnew) |].
  intros Hw. eapply new_aligned; [exact Hnew | | exact Hw].
  eapply getitem_columns_aligned. exact Hl.
Qed.

Lemma df_rename_Ok_inv (r r' : ref) (old new_label : string) (w w' : World) :
  df_rename r old new_label w = (Ok r', w') ->
  exists df, heap w !! r = Some df /\ heap w' !! r' = Some (rename df old new_label)
             /\ (Forall aligned (heap w) -> Forall aligned (heap w')).
Proof.
  unfold df_rename. intros H. apply bind_Ok_inv in H.
  destruct H as (df & w1 & Ht & Hnew). apply table_Ok_inv in Ht. destruct Ht as [-> Ht].
  exists df. split; [exact Ht|]. split; [apply (new_Ok_inv _ _ _ _ Hnew)|].
  intros Hw. eapply new_aligned; [exact Hnew | | exact Hw].
  apply rename_aligned. eapply heap_aligned_lookup; eassumption.
Qed.

Lemma df_merge_Ok_inv (l r r' : ref) (key lsuffix rsuffix : string) (w w' : World) :
  df_merge l r key (lsuffix, rsuffix) w = (Ok r', w') ->
  exists left right merged,
    heap w !! l = Some left /\ heap w !! r = Some right
    /\ merge_left left right key (lsuffix, rsuffix) = Ok merged
    /\ heap w' !! r' = Some merged
    /\ (Forall aligned (heap w) -> Forall aligned (heap w')).
Proof.
  unfold df_merge. intros H. apply bind_Ok_inv in H.
  destruct H as (left & w1 & Ht & H). apply table_Ok_inv in Ht. destruct Ht as [-> Hl].
  apply bind_Ok_inv in H.
  destruct H as (right & w1 & Ht & H). apply table_Ok_inv in Ht. destruct Ht as [-> Hr].
  apply bind_Ok_inv in H. destruct H as (merged & w2 & Hm & Hnew).
  apply lift_Ok_inv in Hm. destruct Hm as [Hm ->].
  exists left, right, merged.
  repeat split; [exact Hl | exact Hr | exact Hm | apply (new_Ok_inv _ _ _ _ Hnew) |].
  intros Hw. eapply new_aligned; [exact Hnew | | exact Hw].
  eapply merge_left_aligned; [| | exact Hm]; eapply heap_aligned_lookup; eassumption.
Qed.

(** ** The accumulator keeps the days of the readiness table *)

Lemma append_empty (s : string) : s +:+ "" = s.
Proof.
  induction s as [|c s IH]; [reflexivity|].
  change (String c (s +:+ "") = String c s). f_equal. exact IH.
Qed.

Lemma no_suffix_is_day (y : string) : y <> "day" -> y +:+ "" <> "day".
Proof. rewrite append_empty. auto. Qed.

Lemma suffix_x_is_not_day (y : string) : y <> "day" -> y +:+ "_x" <> "day".
Proof.
  intros _. destruct y as [|a [|b [|c [|d y]]]]; cbv [String.append]; discriminate.
Qed.

Lemma accumulates_merge (reference : list json) (w w' : World) (df right df' : ref)
    (lsuffix rsuffix : string) :
  (forall y, y <> "day" -> y +:+ lsuffix <> "day") ->
  accumulates reference w df ->
  df_merge df right "day" (lsuffix, rsuffix) w = (Ok df', w') ->
  accumulates reference w' df'.
Proof.
  intros Hsfx (Hal & acc & Hacc & Hdays) Hrun.
  destruct (df_merge_Ok_inv _ _ _ _ _ _ _ _ Hrun)
    as (left & right' & merged & Hl & Hr & Hm & Hnew & Hal').
  assert (left = acc) by congruence. subst left.
  split; [exact (Hal' Hal)|]. exists merged. split; [exact Hnew|].
  intros v. rewrite <- Hdays.
  eapply merge_left_column; [exact Hsfx | | exact Hm].
  eapply heap_aligned_lookup; eassumption.
Qed.

Lemma accumulates_later (reference : list json) (w w' : World) (df : ref) :
  accumulates reference w df -> only_allocates w w' -> Forall aligned (heap w') ->
  accumulates reference w' df.
Proof.
  intros (_ & acc & Hacc & Hdays) Hw Hal. split; [exact Hal|].
  exists acc. split; [|exact Hdays]. eapply only_allocates_lookup; eassumption.
Qed.

(** The join of the sleep and activity steps: project, copy, rename, merge. *)
Lemma join_renamed_accumulates (reference : list json) (w w' : World) (df src df' : ref)
    (labels : list string) (old new_label rsuffix : string) :
  accumulates reference w df ->
  (x ← df_getitem src labels;
   y ← df_copy x;
   z ← df_rename y old new_label;
   df_merge df z "day" ("", rsuffix)) w = (Ok df', w') ->
  accumulates reference w' df'.
Proof.
  intros Hacc H.
  apply bind_Ok_inv in H. destruct H as (x & w1 & Hx & H).
  apply bind_Ok_inv in H. destruct H as (y & w2 & Hy & H).
  apply bind_Ok_inv in H. destruct H as (z & w3 & Hz & H).
  pose proof (table_op_run _ _ _ _ (table_op_df_getitem _ _) Hx) as H1.
  pose proof (table_op_run _ _ _ _ (table_op_df_copy _) Hy) as H2.
  pose proof (table_op_run _ _ _ _ (table_op_df_rename _ _ _) Hz) as H3.
  destruct (df_getitem_Ok_inv _ _ _ _ _ Hx) as (? & ? & _ & _ & _ & A1).
  destruct (df_copy_Ok_inv _ _ _ _ Hy) as (? & _ & _ & A2).
  destruct (df_rename_Ok_inv _ _ _ _ _ _ Hz) as (? & _ & _ & A3).
  eapply accumulates_merge; [exact no_suffix_is_day | | exact H].
  eapply accumulates_later; [exact Hacc | |].
  - eapply only_allocates_trans; [|exact H3].
    eapply only_allocates_trans; [exact H1 | exact H2].
  - apply A3, A2, A1, Hacc.
Qed.

(** The join of the stress step: project, copy, merge. *)
Lemma join_plain_accumulates (reference : list json) (w w' : World) (df src df' : ref)
    (labels : list string) :
  accumulates reference w df ->
  (x ← df_getitem src labels;
   y ← df_copy x;
   df_merge df y "day" ("_x", "_y")) w = (Ok df', w') ->
  accumulates reference w' df'.
Proof.
  intros Hacc H.
  apply bind_Ok_inv in H. destruct H as (x & w1 & Hx & H).
  apply bind_Ok_inv in H. destruct H as (y & w2 & Hy & H).
  pose proof (table_op_run _ _ _ _ (table_op_df_getitem _ _) Hx) as H1.
  pose proof (table_op_run _ _ _ _ (table_op_df_copy _) Hy) as H2.
  destruct (df_getitem_Ok_inv _ _ _ _ _ Hx) as (? & ? & _ & _ & _ & A1).
  destruct (df_copy_Ok_inv _ _ _ _ Hy) as (? & _ & _ & A2).
  eapply accumulates_merge; [exact suffix_x_is_not_day | | exact H].
  eapply accumulates_later; [exact Hacc | |].
  - eapply only_allocates_trans; [exact H1 | exact H2].
  - apply A2, A1, Hacc.
Qed.

(** An optional step, taken when the dataset is in the collection and
    its table is not empty, keeps what the join keeps. *)
Lemma optional_join_keeps (P : World -> ref -> Prop) (d : gmap string ref)
    (name : string) (join : ref -> M ref) (w w' : World) (df df' : ref) :
  (forall src w2 df1,
     d !! name = Some src -> join src w = (Ok df1, w2) -> P w2 df1) ->
  P w df ->
  (if dict_contains name d then
     x ← dict_getitem d name;
     x_is_empty ← df_empty x;
     if negb x_is_empty then join x else mret df
   else mret df) w = (Ok df', w') ->
  P w' df'.
Proof.
  intros Hjoin Hacc H.
  destruct (dict_contains name d).
  - apply bind_Ok_inv in H. destruct H as (x & w1 & Hx & H).
    apply dict_getitem_Ok_inv in Hx. destruct Hx as [-> Hd].
    apply bind_Ok_inv in H. destruct H as (b & w1 & Hb & H).
    apply df_empty_Ok_inv in Hb. destruct Hb as [-> _].
    destruct (negb b).
    + eapply Hjoin; eassumption.
    + apply ret_Ok_inv in H. destruct H as [-> ->]. exact Hacc.
  - apply ret_Ok_inv in H. destruct H as [-> ->]. exact Hacc.
Qed.

Lemma keeps_tables_run {A : Type} (m : M A) (w w' : World) (o : outcome A) :
  keeps_tables m -> m w = (o, w') -> heap w `prefix_of` heap w'.
Proof. intros Hm Hrun. specialize (Hm w). rewrite Hrun in Hm. exact Hm. Qed.

(** C1. Whenever the merger returns a table, the [day] values of that
    table are exactly the [day] values of the [daily_readiness] table it
    was given: none is lost, and no day that only [daily_sleep],
    [daily_activity] or [daily_stress] have appears. *)
Theorem create_feature_summary_days (self : OuraDataCollector)
    (data_dict : gmap string ref) (output_dir : string) (w w' : World) (r : ref) :
  Forall aligned (heap w) ->
  create_feature_summary self data_dict output_dir w = (Ok (Some r), w') ->
  exists (readiness_ref : ref) (readiness features : DataFrame),
    data_dict !! "daily_readiness" = Some readiness_ref
    /\ heap w !! readiness_ref = Some readiness
    /\ heap w' !! r = Some features
    /\ forall v, In v (column features "day") <-> In v (column readiness "day").
Proof.
  intros Hal H. unfold create_feature_summary in H.
  destruct (negb (dict_contains "daily_sleep" data_dict)
            || negb (dict_contains "daily_readiness" data_dict)).
  { apply bind_Ok_inv in H. destruct H as (? & ? & _ & H).
    apply ret_Ok_inv in H. destruct H as [H _]. discriminate H. }
  apply bind_Ok_inv in H. destruct H as (rr & w1 & Hrr & H).
  apply dict_getitem_Ok_inv in Hrr. destruct Hrr as [-> Hrr].
  apply bind_Ok_inv in H. destruct H as (df0 & w2 & Hcopy & H).
  destruct (df_copy_Ok_inv _ _ _ _ Hcopy) as (readiness & Hr0 & Hdf0 & Hal2).
  assert (Hacc : accumulates (column readiness "day") w2 df0).
  { split; [exact (Hal2 Hal)|]. exists readiness. split; [exact Hdf0 | tauto]. }
  apply bind_Ok_inv in H. destruct H as (sleep & w3 & Hs & H).
  apply dict_getitem_Ok_inv in Hs. destruct Hs as [-> _].
  apply bind_Ok_inv in H. destruct H as (sleep_is_empty & w3 & He & H).
  apply df_empty_Ok_inv in He. destruct He as [-> _].
  apply bind_Ok_inv in H. destruct H as (df1 & w3 & Hsleep & H).
  assert (Hacc1 : accumulates (column readiness "day") w3 df1).
  { destruct (negb sleep_is_empty).
    - eapply join_renamed_accumulates; [exact Hacc | exact Hsleep].
    - apply ret_Ok_inv in Hsleep. destruct Hsleep as [-> ->]. exact Hacc. }
  apply bind_Ok_inv in H. destruct H as (df2 & w4 & Hactivity & H).
  assert (Hacc2 : accumulates (column readiness "day") w4 df2).
  { eapply (optional_join_keeps (accumulates (column readiness "day")));
      [| exact Hacc1 | exact Hactivity].
    intros src wb dfa _ Hj. eapply join_renamed_accumulates; [exact Hacc1 | exact Hj]. }
  apply bind_Ok_inv in H. destruct H as (df3 & w5 & Hstress & H).
  assert (Hacc3 : accumulates (column readiness "day") w5 df3).
  { eapply (optional_join_keeps (accumulates (column readiness "day")));
      [| exact Hacc2 | exact Hstress].
    intros src wb dfa _ Hj. eapply join_plain_accumulates; [exact Hacc2 | exact Hj]. }
  destruct Hacc3 as (_ & features & Hfeatures & Hdays).
  apply bind_Ok_inv in H. destruct H as (? & w6 & Hcsv & H).
  apply bind_Ok_inv in H. destruct H as (n & w7 & Hlen & H).
  apply bind_Ok_inv in H. destruct H as (? & w8 & Hprint & H).
  apply ret_Ok_inv in H. destruct H as [Hr ->]. inversion Hr. subst r.
  exists rr, readiness, features. repeat split; try assumption; try apply Hdays.
  pose proof (keeps_tables_run _ _ _ _ (keeps_tables_df_to_csv _ _) Hcsv) as P1.
  pose proof (keeps_tables_run _ _ _ _
                (keeps_tables_table_op _ (table_op_df_len _)) Hlen) as P2.
  pose proof (keeps_tables_run _ _ _ _ (keeps_tables_print _) Hprint) as P3.
  eapply prefix_lookup_Some; [exact Hfeatures|].
  by trans (heap w6); [| trans (heap w7)].
Qed.

Lemma create_feature_summary_days_witness :
  exists (readiness_ref : ref) (readiness features : DataFrame),
    sample_dict !! "daily_readiness" = Some readiness_ref
    /\ heap sample_world !! readiness_ref = Some readiness
    /\ heap (snd (create_feature_summary (__init__ []) sample_dict "oura_data" sample_world))
         !! 7%nat = Some features
    /\ forall v, In v (column features "day") <-> In v (column readiness "day").
Proof.
  refine (create_feature_summary_days (__init__ []) sample_dict "oura_data" sample_world
            (snd (create_feature_summary (__init__ []) sample_dict "oura_data" sample_world))
            7%nat _ _).
  - repeat constructor.
  - vm_compute. reflexivity.
Defined.

(** ** One row per day *)

Lemma accumulates_rows_later (w0 : World) (reference : DataFrame) (w w' : World) (df : ref) :
  accumulates_rows w0 reference w df -> only_allocates w w' -> Forall aligned (heap w') ->
  accumulates_rows w0 reference w' df.
Proof.
  intros (Hpre & _ & acc & Hacc & Hcol & Hlen) Hw Hal.
  split; [trans (heap w); [exact Hpre | apply Hw]|]. split; [exact Hal|].
  exists acc. split; [|auto]. eapply only_allocates_lookup; eassumption.
Qed.

Lemma accumulates_rows_merge (w0 : World) (reference : DataFrame) (w w' : World)
    (df right df' : ref) (lsuffix rsuffix : string) (table_right : DataFrame) :
  (forall y, y <> "day" -> y +:+ lsuffix <> "day") ->
  accumulates_rows w0 reference w df ->
  heap w !! right = Some table_right -> NoDup (column table_right "day") ->
  df_merge df right "day" (lsuffix, rsuffix) w = (Ok df', w') ->
  accumulates_rows w0 reference w' df'.
Proof.
  intros Hsfx (Hpre & Hal & acc & Hacc & Hcol & Hlen) Hright Hnd Hrun.
  pose proof (table_op_run _ _ _ _ (table_op_df_merge _ _ _ _) Hrun) as Hw.
  destruct (df_merge_Ok_inv _ _ _ _ _ _ _ _ Hrun)
    as (left & right' & merged & Hl & Hr & Hm & Hnew & Hal').
  assert (left = acc) by congruence. assert (right' = table_right) by congruence.
  subst left right'.
  destruct (merge_left_one_row_per_key _ _ _ _ _ _ Hsfx
              (heap_aligned_lookup _ _ _ Hal Hacc) Hnd Hm) as [Hrows Hcolumn].
  split; [trans (heap w); [exact Hpre | apply Hw]|]. split; [exact (Hal' Hal)|].
  exists merged. split; [exact Hnew|]. split; congruence.
Qed.

Lemma join_renamed_rows (w0 : World) (reference : DataFrame) (w w' : World)
    (df src df' : ref) (others : list string) (old new_label rsuffix : string)
    (source : DataFrame) :
  old <> "day" -> new_label <> "day" ->
  accumulates_rows w0 reference w df ->
  heap w0 !! src = Some source -> NoDup (column source "day") ->
  (x ← df_getitem src ("day" :: others);
   y ← df_copy x;
   z ← df_rename y old new_label;
   df_merge df z "day" ("", rsuffix)) w = (Ok df', w') ->
  accumulates_rows w0 reference w' df'.
Proof.
  intros Hold Hnew Hacc Hsrc Hnd H.
  pose proof Hacc as (Hpre & Hal & _).
  apply bind_Ok_inv in H. destruct H as (x & w1 & Hx & H).
  apply bind_Ok_inv in H. destruct H as (y & w2 & Hy & H).
  apply bind_Ok_inv in H. destruct H as (z & w3 & Hz & H).
  pose proof (table_op_run _ _ _ _ (table_op_df_getitem _ _) Hx) as H1.
  pose proof (table_op_run _ _ _ _ (table_op_df_copy _) Hy) as H2.
  pose proof (table_op_run _ _ _ _ (table_op_df_rename _ _ _) Hz) as H3.
  destruct (df_getitem_Ok_inv _ _ _ _ _ Hx) as (s1 & picked & Hs1 & Hp & Hx1 & A1).
  destruct (df_copy_Ok_inv _ _ _ _ Hy) as (c1 & Hc1 & Hy2 & A2).
  destruct (df_rename_Ok_inv _ _ _ _ _ _ Hz) as (c2 & Hc2 & Hz3 & A3).
  assert (s1 = source).
  { pose proof (prefix_lookup_Some _ _ _ _ Hsrc Hpre) as Hw.
    assert (E : Some s1 = Some source)
      by (transitivity (heap w !! src); [symmetry; exact Hs1 | exact Hw]).
    congruence. }
  assert (c1 = picked) by congruence. assert (c2 = picked) by congruence.
  subst s1 c1 c2.
  eapply accumulates_rows_merge; [exact no_suffix_is_day | | exact Hz3 | | exact H].
  - eapply accumulates_rows_later; [exact Hacc | |].
    + eapply only_allocates_trans; [|exact H3].
      eapply only_allocates_trans; [exact H1 | exact H2].
    + apply A3, A2, A1, Hal.
  - rewrite (rename_column _ _ _ _ Hold Hnew), (getitem_columns_column _ _ _ _ Hp).
    exact Hnd.
Qed.

Lemma join_plain_rows (w0 : World) (reference : DataFrame) (w w' : World)
    (df src df' : ref) (others : list string) (source : DataFrame) :
  accumulates_rows w0 reference w df ->
  heap w0 !! src = Some source -> NoDup (column source "day") ->
  (x ← df_getitem src ("day" :: others);
   y ← df_copy x;
   df_merge df y "day" ("_x", "_y")) w = (Ok df', w') ->
  accumulates_rows w0 reference w' df'.
Proof.
  intros Hacc Hsrc Hnd H.
  pose proof Hacc as (Hpre & Hal & _).
  apply bind_Ok_inv in H. destruct H as (x & w1 & Hx & H).
  apply bind_Ok_inv in H. destruct H as (y & w2 & Hy & H).
  pose proof (table_op_run _ _ _ _ (table_op_df_getitem _ _) Hx) as H1.
  pose proof (table_op_run _ _ _ _ (table_op_df_copy _) Hy) as H2.
  destruct (df_getitem_Ok_inv _ _ _ _ _ Hx) as (s1 & picked & Hs1 & Hp & Hx1 & A1).
  destruct (df_copy_Ok_inv _ _ _ _ Hy) as (c1 & Hc1 & Hy2 & A2).
  assert (s1 = source).
  { pose proof (prefix_lookup_Some _ _ _ _ Hsrc Hpre) as Hw.
    assert (E : Some s1 = Some source)
      by (transitivity (heap w !! src); [symmetry; exact Hs1 | exact Hw]).
    congruence. }
  assert (c1 = picked) by congruence. subst s1 c1.
  eapply accumulates_rows_merge; [exact suffix_x_is_not_day | | exact Hy2 | | exact H].
  - eapply accumulates_rows_later; [exact Hacc | |].
    + eapply only_allocates_trans; [exact H1 | exact H2].
    + apply A2, A1, Hal.
  - rewrite (getitem_columns_column _ _ _ _ Hp). exact Hnd.
Qed.

(** X17.  With at most one row per day in the sleep, activity and stress
    tables, the table the merger returns has the rows of the readiness
    table one for one: as many rows, with the same days in the same
    order. *)
Theorem create_feature_summary_one_row_per_day (self : OuraDataCollector)
    (data_dict : gmap string ref) (output_dir : string) (w w' : World) (r : ref) :
  Forall aligned (heap w) ->
  one_row_per_day w data_dict "daily_sleep" ->
  one_row_per_day w data_dict "daily_activity" ->
  one_row_per_day w data_dict "daily_stress" ->
  create_feature_summary self data_dict output_dir w = (Ok (Some r), w') ->
  exists (readiness_ref : ref) (readiness features : DataFrame),
    data_dict !! "daily_readiness" = Some readiness_ref
    /\ heap w !! readiness_ref = Some readiness
    /\ heap w' !! r = Some features
    /\ length (rows features) = length (rows readiness)
    /\ column features "day" = column readiness "day".
Proof.
  intros Hal Usleep Uactivity Ustress H. unfold create_feature_summary in H.
  destruct (negb (dict_contains "daily_sleep" data_dict)
            || negb (dict_contains "daily_readiness" data_dict)).
  { apply bind_Ok_inv in H. destruct H as (? & ? & _ & H).
    apply ret_Ok_inv in H. destruct H as [H _]. discriminate H. }
  apply bind_Ok_inv in H. destruct H as (rr & w1 & Hrr & H).
  apply dict_getitem_Ok_inv in Hrr. destruct Hrr as [-> Hrr].
  apply bind_Ok_inv in H. destruct H as (df0 & w2 & Hcopy & H).
  destruct (df_copy_Ok_inv _ _ _ _ Hcopy) as (readiness & Hr0 & Hdf0 & Hal2).
  pose proof (table_op_run _ _ _ _ (table_op_df_copy _) Hcopy) as Hw2.
  assert (Hacc : accumulates_rows w readiness w2 df0).
  { split; [apply Hw2|]. split; [exact (Hal2 Hal)|]. exists readiness. auto. }
  apply bind_Ok_inv in H. destruct H as (sleep & w3 & Hs & H).
  apply dict_getitem_Ok_inv in Hs. destruct Hs as [-> Hs].
  apply bind_Ok_inv in H. destruct H as (sleep_is_empty & w3 & He & H).
  apply df_empty_Ok_inv in He. destruct He as [-> _].
  apply bind_Ok_inv in H. destruct H as (df1 & w3 & Hsleep & H).
  assert (Hacc1 : accumulates_rows w readiness w3 df1).
  { destruct (negb sleep_is_empty).
    - destruct (Usleep sleep Hs) as (source & Hsrc & Hnd).
      eapply (join_renamed_rows w readiness w2 w3 df0 sleep df1);
        [| | exact Hacc | exact Hsrc | exact Hnd | exact Hsleep]; discriminate.
    - apply ret_Ok_inv in Hsleep. destruct Hsleep as [-> ->]. exact Hacc. }
  apply bind_Ok_inv in H. destruct H as (df2 & w4 & Hactivity & H).
  assert (Hacc2 : accumulates_rows w readiness w4 df2).
  { eapply (optional_join_keeps (accumulates_rows w readiness));
      [| exact Hacc1 | exact Hactivity].
    intros src wb dfa Hd Hj. destruct (Uactivity src Hd) as (source & Hsrc & Hnd).
    eapply (join_renamed_rows w readiness w3 wb df1 src dfa);
      [| | exact Hacc1 | exact Hsrc | exact Hnd | exact Hj]; discriminate. }
  apply bind_Ok_inv in H. destruct H as (df3 & w5 & Hstress & H).
  assert (Hacc3 : accumulates_rows w readiness w5 df3).
  { eapply (optional_join_keeps (accumulates_rows w readiness));
      [| exact Hacc2 | exact Hstress].
    intros src wb dfa Hd Hj. destruct (Ustress src Hd) as (source & Hsrc & Hnd).
    eapply (join_plain_rows w readiness w4 wb df2 src dfa);
      [exact Hacc2 | exact Hsrc | exact Hnd | exact Hj]. }
  destruct Hacc3 as (_ & _ & features & Hfeatures & Hcol & Hlen).
  apply bind_Ok_inv in H. destruct H as (? & w6 & Hcsv & H).
  apply bind_Ok_inv in H. destruct H as (n & w7 & Hlen' & H).
  apply bind_Ok_inv in H. destruct H as (? & w8 & Hprint & H).
  apply ret_Ok_inv in H. destruct H as [Hr ->]. inversion Hr. subst r.
  exists rr, readiness, features. repeat split; try assumption.
  pose proof (keeps_tables_run _ _ _ _ (keeps_tables_df_to_csv _ _) Hcsv) as P1.
  pose proof (keeps_tables_run _ _ _ _
                (keeps_tables_table_op _ (table_op_df_len _)) Hlen') as P2.
  pose proof (keeps_tables_run _ _ _ _ (keeps_tables_print _) Hprint) as P3.
  eapply prefix_lookup_Some; [exact Hfeatures|].
  by trans (heap w6); [| trans (heap w7)].
Qed.

(** ** Table methods, call by call *)

Lemma df_getitem_run (r : ref) (labels : list string) (w : World) (df picked : DataFrame) :
  heap w !! r = Some df -> getitem_columns df labels = Ok picked ->
  df_getitem r labels w = new picked w.
Proof.
  intros H Hp. unfold df_getitem. rewrite bind_run, (table_run _ _ _ H).
  rewrite bind_run. unfold lift. rewrite Hp. reflexivity.
Qed.

Lemma df_rename_run (r : ref) (old new_label : string) (w : World) (df : DataFrame) :
  heap w !! r = Some df -> df_rename r old new_label w = new (rename df old new_label) w.
Proof. intros H. unfold df_rename. rewrite bind_run, (table_run _ _ _ H). reflexivity. Qed.

Lemma df_merge_run (l r : ref) (key : string) (suffixes : string * string) (w : World)
    (left right merged : DataFrame) :
  heap w !! l = Some left -> heap w !! r = Some right ->
  merge_left left right key suffixes = Ok merged ->
  df_merge l r key suffixes w = new merged w.
Proof.
  intros Hl Hr Hm. unfold df_merge. rewrite bind_run, (table_run _ _ _ Hl).
  rewrite bind_run, (table_run _ _ _ Hr). rewrite bind_run. unfold lift. rewrite Hm.
  reflexivity.
Qed.

Lemma new_returns (df : DataFrame) (w : World) :
  exists r w', new df w = (Ok r, w') /\ heap w' !! r = Some df /\ only_allocates w w'.
Proof.
  eexists _, _. split; [apply new_run|]. split.
  - simpl. apply list_lookup_middle. reflexivity.
  - apply (table_op_new df w).
Qed.

Lemma df_copy_returns (r : ref) (w : World) (df : DataFrame) :
  heap w !! r = Some df ->
  exists r' w', df_copy r w = (Ok r', w') /\ heap w' !! r' = Some df /\ only_allocates w w'.
Proof. intros H. rewrite (df_copy_run _ _ _ H). apply new_returns. Qed.

Lemma df_getitem_returns (r : ref) (labels : list string) (w : World) (df picked : DataFrame) :
  heap w !! r = Some df -> getitem_columns df labels = Ok picked ->
  exists r' w', df_getitem r labels w = (Ok r', w')
                /\ heap w' !! r' = Some picked /\ only_allocates w w'.
Proof. intros H Hp. rewrite (df_getitem_run _ _ _ _ _ H Hp). apply new_returns. Qed.

Lemma df_rename_returns (r : ref) (old new_label : string) (w : World) (df : DataFrame) :
  heap w !! r = Some df ->
  exists r' w', df_rename r old new_label w = (Ok r', w')
                /\ heap w' !! r' = Some (rename df old new_label) /\ only_allocates w w'.
Proof. intros H. rewrite (df_rename_run _ _ _ _ _ H). apply new_returns. Qed.

Lemma df_merge_returns (l r : ref) (key : string) (suffixes : string * string) (w : World)
    (left right merged : DataFrame) :
  heap w !! l = Some left -> heap w !! r = Some right ->
  merge_left left right key suffixes = Ok merged ->
  exists r' w', df_merge l r key suffixes w = (Ok r', w')
                /\ heap w' !! r' = Some merged /\ only_allocates w w'.
Proof. intros Hl Hr Hm. rewrite (df_merge_run _ _ _ _ _ _ _ _ Hl Hr Hm). apply new_returns. Qed.

Lemma df_to_csv_run (r : ref) (filepath : string) (w : World) (df : DataFrame) :
  heap w !! r = Some df -> df_to_csv r filepath w = write_file filepath df w.
Proof. intros H. unfold df_to_csv. rewrite bind_run, (table_run _ _ _ H). reflexivity. Qed.

Lemma write_file_run (filepath : string) (df : DataFrame) (w : World) :
  writable w filepath = true ->
  write_file filepath df w =
  (Ok tt,
   mkWorld (network w) (today w) (stdin w) (heap w) (<[filepath := df]> (files w))
     (dirs w) (stdout w) (sent w)).
Proof. intros H. unfold write_file. rewrite H. reflexivity. Qed.

Lemma write_file_Ok_inv (filepath : string) (df : DataFrame) (w w' : World) (u : unit) :
  write_file filepath df w = (Ok u, w') ->
  writable w filepath = true
  /\ mkWorld (network w) (today w) (stdin w) (heap w) (<[filepath := df]> (files w))
       (dirs w) (stdout w) (sent w) = w'.
Proof.
  unfold write_file. destruct (writable w filepath); [|discriminate].
  intros H. injection H as <-. auto.
Qed.

Lemma writable_same_dirs (w w' : World) (filepath : string) :
  dirs w' = dirs w -> writable w' filepath = writable w filepath.
Proof. intros H. unfold writable, is_dir. rewrite H. reflexivity. Qed.

Lemma df_len_run (r : ref) (w : World) (df : DataFrame) :
  heap w !! r = Some df -> df_len r w = (Ok (len df), w).
Proof. intros H. unfold df_len. rewrite bind_run, (table_run _ _ _ H). reflexivity. Qed.

Lemma example_merge (d : string) (c : json) :
  merge_left (example_readiness d)
    (rename (mkDataFrame ["day"; "score"; "contributors"] [[JStr d; JInt 70; c]])
       "score" "sleep_score")
    "day" ("", "_sleep")
  = Ok (mkDataFrame ["day"; "score"; "sleep_score"; "contributors"]
          [[JStr d; JInt 80; JInt 70; c]]).
Proof.
  unfold merge_left, example_readiness, DataFrame_of_records, rename. simpl.
  unfold joined_rows. simpl. rewrite String.eqb_refl. reflexivity.
Qed.

Lemma example_dict_lookup (readiness sleep : ref) :
  example_dict readiness sleep !! "daily_readiness" = Some readiness
  /\ example_dict readiness sleep !! "daily_sleep" = Some sleep
  /\ example_dict readiness sleep !! "daily_activity" = None
  /\ example_dict readiness sleep !! "daily_stress" = None.
Proof. repeat split; reflexivity. Qed.

(** ** The orchestrator *)

Lemma _make_request_result (self : OuraDataCollector) (endpoint : string)
    (params : list (string * string)) (w : World) :
  fst (_make_request self endpoint params w)
    = client_result (network w (request_of self endpoint params))
  /\ only_asks w (snd (_make_request self endpoint params w)).
Proof.
  rewrite _make_request_run. cbv zeta. unfold client_result, only_asks.
  destruct (network w _) as [e|status body].
  - destruct (is_RequestException e); simpl; repeat split.
  - destruct ((400 <=? status) && (status <? 600)); [|destruct body];
      simpl; repeat split.
Qed.

Lemma fetch_result (irregular : json -> outcome DataFrame) (self : OuraDataCollector)
    (endpoint start_date end_date : string) (w : World) :
  exists w1, only_asks w w1
    /\ fetch irregular self endpoint start_date end_date w =
       match fetched_table irregular
               (network w (request_of self endpoint (window_params start_date end_date))) with
       | Ok df => new df w1
       | Raised e => (Raised e, w1)
       end.
Proof.
  destruct (_make_request_result self endpoint (window_params start_date end_date) w)
    as [Hres Hw].
  exists (snd (_make_request self endpoint (window_params start_date end_date) w)).
  split; [exact Hw|].
  unfold fetch, fetched_table. rewrite bind_run. rewrite <- Hres.
  unfold window_params.
  destruct (_make_request self endpoint _ w) as [[data|e] w1]; simpl fst; simpl snd;
    [|reflexivity].
  unfold table_of_payload. destruct (truthy data); [|reflexivity].
  rewrite bind_run. unfold lift at 1.
  destruct (py_contains "data" data) as [[|]|e]; [|reflexivity|reflexivity].
  rewrite bind_run. unfold lift at 1.
  destruct (py_getitem data "data") as [items|e]; [|reflexivity].
  unfold pd_DataFrame.
  destruct items as [| | | | |items|];
    try (rewrite bind_run; unfold lift; destruct (irregular _); reflexivity).
  destruct (as_records items); [reflexivity|].
  rewrite bind_run; unfold lift; destruct (irregular _); reflexivity.
Qed.

Lemma os_makedirs_run (path : string) (w : World) :
  path <> "" ->
  os_makedirs path w =
  (Ok tt,
   mkWorld (network w) (today w) (stdin w) (heap w) (files w) ({[path]} ∪ dirs w)
     (stdout w) (sent w)).
Proof.
  intros H. unfold os_makedirs.
  destruct (String.eqb path "") eqn:E; [|reflexivity].
  apply String.eqb_eq in E. contradiction.
Qed.

Lemma os_makedirs_Ok_inv (path : string) (w w' : World) (u : unit) :
  os_makedirs path w = (Ok u, w') ->
  path <> ""
  /\ mkWorld (network w) (today w) (stdin w) (heap w) (files w) ({[path]} ∪ dirs w)
       (stdout w) (sent w) = w'.
Proof.
  unfold os_makedirs. destruct (String.eqb path "") eqn:E; [discriminate|].
  apply String.eqb_neq in E. intros H. injection H as <-. auto.
Qed.

Lemma print_Ok_inv (n : Notice) (w w' : World) (u : unit) :
  print n w = (Ok u, w') ->
  network w' = network w /\ today w' = today w /\ heap w' = heap w /\ files w' = files w.
Proof. unfold print. intros H. inversion H. simpl. auto. Qed.

(** One round of the loop, when the loop as a whole returns. *)
Lemma collect_loop_step (irregular : json -> outcome DataFrame) (self : OuraDataCollector)
    (start_date end_date output_dir name endpoint : string)
    (rest : list (string * (string -> string -> M ref)))
    (acc results : gmap string ref) (w w' : World) :
  collect_loop start_date end_date output_dir
    ((name, fetch irregular self endpoint) :: rest) acc w = (Ok results, w') ->
  exists (df : DataFrame) (w2 : World),
    fetched_table irregular
      (network w (request_of self endpoint (window_params start_date end_date))) = Ok df
    /\ network w2 = network w /\ today w2 = today w
    /\ heap w2 = heap w ++ [df]
    /\ if empty df then
         files w2 = files w
         /\ collect_loop start_date end_date output_dir rest acc w2
            = (Ok results, w')
       else
         files w2 = <[dataset_file output_dir name := df]> (files w)
         /\ collect_loop start_date end_date output_dir rest
              (<[name := length (heap w)]> acc) w2 = (Ok results, w').
Proof.
  intros H. simpl in H.
  apply bind_Ok_inv in H. destruct H as (? & wa & Hp & H).
  apply print_Ok_inv in Hp. destruct Hp as (Na & Ta & Ha & Fa).
  apply bind_Ok_inv in H. destruct H as (r & wb & Hf & H).
  destruct (fetch_result irregular self endpoint start_date end_date wa)
    as (w1 & (N1 & T1 & _ & H1 & F1 & _) & Hfetch).
  rewrite Hf, Na in Hfetch.
  destruct (fetched_table irregular _) as [df|e]; [|discriminate Hfetch].
  rewrite new_run in Hfetch. inversion Hfetch as [[Hr Hwb]]. clear Hfetch.
  apply bind_Ok_inv in H. destruct H as (b & wc & He & H).
  apply df_empty_Ok_inv in He. destruct He as [-> (df' & Hdf' & ->)].
  assert (Hlook : heap wb !! r = Some df).
  { rewrite Hwb, Hr. simpl. apply list_lookup_middle. reflexivity. }
  assert (df' = df) by congruence. subst df'.
  exists df. destruct (empty df) eqn:E; simpl negb in H; cbv iota in H.
  - apply bind_Ok_inv in H. destruct H as (? & wd & Hp & H).
    apply print_Ok_inv in Hp. destruct Hp as (Nd & Td & Hd & Fd).
    exists wd. rewrite Hwb in Nd, Td, Hd, Fd. simpl in Nd, Td, Hd, Fd.
    repeat split; try congruence.
  - apply bind_Ok_inv in H. destruct H as (? & wd & Hcsv & H).
    rewrite (df_to_csv_run _ _ _ _ Hlook) in Hcsv.
    apply write_file_Ok_inv in Hcsv. destruct Hcsv as [_ Hwd].
    apply bind_Ok_inv in H. destruct H as (n & we & Hlen & H).
    assert (Hlook' : heap wd !! r = Some df) by (rewrite <- Hwd; exact Hlook).
    rewrite (df_len_run _ _ _ Hlook') in Hlen. injection Hlen as _ Hwe. subst we.
    apply bind_Ok_inv in H. destruct H as (? & wf & Hp & H).
    apply print_Ok_inv in Hp. destruct Hp as (Nf & Tf & Hhf & Ff).
    exists wf. rewrite <- Hwd, Hwb in Nf, Tf, Hhf, Ff. simpl in Nf, Tf, Hhf, Ff.
    rewrite Hr in H.
    repeat split; try congruence.
    + rewrite Ff, F1, Fa. reflexivity.
    + rewrite <- Ha, <- H1. exact H.
Qed.

Lemma datasets_endpoints (irregular : json -> outcome DataFrame) (self : OuraDataCollector) :
  datasets irregular self = map (fetcher_of irregular self) dataset_endpoints.
Proof. reflexivity. Qed.

Lemma collect_loop_spec (irregular : json -> outcome DataFrame) (self : OuraDataCollector)
    (start_date end_date output_dir : string) (entries : list (string * string)) :
  NoDup (map fst entries) ->
  (forall n n', In n (map fst entries) -> In n' (map fst entries) ->
     dataset_file output_dir n = dataset_file output_dir n' -> n = n') ->
  forall (acc results : gmap string ref) (w w' : World),
  collect_loop start_date end_date output_dir (map (fetcher_of irregular self) entries) acc w
    = (Ok results, w') ->
  network w' = network w
  /\ heap w `prefix_of` heap w'
  /\ (forall name, ~ In name (map fst entries) -> results !! name = acc !! name)
  /\ (forall p, (forall name, In name (map fst entries) -> p <> dataset_file output_dir name) ->
        files w' !! p = files w !! p)
  /\ (forall name endpoint, In (name, endpoint) entries ->
        exists df,
          fetched_table irregular
            (network w (request_of self endpoint (window_params start_date end_date))) = Ok df
          /\ recorded output_dir name df acc results w w').
Proof.
  induction entries as [|[n0 ep0] entries IH]; intros Hnd Hinj acc results w w' H.
  - simpl in H. apply ret_Ok_inv in H. destruct H as [-> ->].
    repeat split; try reflexivity. intros name endpoint [].
  - simpl map in Hnd. apply NoDup_cons in Hnd. destruct Hnd as [Hn0 Hnd].
    rewrite list_elem_of_In in Hn0.
    assert (Hinj' : forall n n', In n (map fst entries) -> In n' (map fst entries) ->
              dataset_file output_dir n = dataset_file output_dir n' -> n = n').
    { intros n n' Hn Hn'. apply Hinj; right; assumption. }
    assert (Hfile0 : forall n, In n (map fst entries) ->
              dataset_file output_dir n0 <> dataset_file output_dir n).
    { intros n Hn Heq. apply Hn0.
      rewrite (Hinj n0 n (or_introl eq_refl) (or_intror Hn) Heq). exact Hn. }
    change (map (fetcher_of irregular self) ((n0, ep0) :: entries))
      with ((n0, fetch irregular self ep0) :: map (fetcher_of irregular self) entries) in H.
    apply collect_loop_step in H.
    destruct H as (df0 & w2 & Hdf0 & N2 & T2 & H2 & Hrest).
    assert (Hcont : exists acc2,
              collect_loop start_date end_date output_dir
                (map (fetcher_of irregular self) entries) acc2 w2 = (Ok results, w')
              /\ (forall name, name <> n0 -> acc2 !! name = acc !! name)
              /\ (forall p, p <> dataset_file output_dir n0 -> files w2 !! p = files w !! p)
              /\ (forall res wz,
                    res !! n0 = acc2 !! n0 ->
                    heap w2 `prefix_of` heap wz ->
                    files wz !! dataset_file output_dir n0
                      = files w2 !! dataset_file output_dir n0 ->
                    recorded output_dir n0 df0 acc res w wz)).
    { unfold recorded. destruct (empty df0).
      - destruct Hrest as [F2 Hrest]. exists acc. split; [exact Hrest|].
        split; [reflexivity|]. split; [intros; rewrite F2; reflexivity|].
        intros res wz Hres _ Hfz. rewrite Hfz, F2. auto.
      - destruct Hrest as [F2 Hrest]. exists (<[n0 := length (heap w)]> acc).
        split; [exact Hrest|].
        split; [intros name Hne; apply lookup_insert_ne; congruence|].
        split; [intros p Hp; rewrite F2; apply lookup_insert_ne; congruence|].
        intros res wz Hres Hpre Hfz. exists (length (heap w)).
        rewrite Hres, Hfz, F2, !lookup_insert_eq. repeat split.
        eapply prefix_lookup_Some; [|exact Hpre].
        rewrite H2. apply list_lookup_middle. reflexivity. }
    destruct Hcont as (acc2 & Hloop & Hacc2 & Hfiles2 & Hhead).
    destruct (IH Hnd Hinj' acc2 results w2 w' Hloop) as (N' & P' & R' & F' & E').
    split; [congruence|].
    split; [trans (heap w2); [rewrite H2; by apply prefix_app_r | exact P']|].
    split.
    { intros name Hname. rewrite (R' name); [|intros Hin; apply Hname; right; exact Hin].
      apply Hacc2. intros ->. apply Hname. left. reflexivity. }
    split.
    { intros p Hp. rewrite (F' p); [|intros name Hin; apply Hp; right; exact Hin].
      apply Hfiles2. apply Hp. left. reflexivity. }
    intros name endpoint [Heq | Hin].
    + inversion Heq. subst name endpoint. exists df0. split; [exact Hdf0|].
      apply Hhead.
      * apply R'. exact Hn0.
      * exact P'.
      * apply F'. intros name Hin. apply Hfile0. exact Hin.
    + destruct (E' name endpoint Hin) as (df & Hdf & Hrec).
      exists df. rewrite <- N2. split; [exact Hdf|].
      assert (Hname : In name (map fst entries)).
      { apply in_map_iff. exists (name, endpoint). auto. }
      assert (Hne : name <> n0) by (intros ->; exact (Hn0 Hname)).
      unfold recorded in *. destruct (empty df).
      * destruct Hrec as [Hr Hf]. split.
        -- rewrite Hr. apply Hacc2. exact Hne.
        -- rewrite Hf. apply Hfiles2. intros Heq. exact (Hfile0 name Hname (eq_sym Heq)).
      * exact Hrec.
Qed.

Lemma append_cancel (p x y : string) : p +:+ x = p +:+ y -> x = y.
Proof.
  induction p as [|c p IH]; intros H; [exact H|].
  apply IH. change (String c (p +:+ x) = String c (p +:+ y)) in H. congruence.
Qed.

Lemma os_path_join_inj (a b b' : string) :
  os_path_join a b = os_path_join a b' -> b = b'.
Proof.
  unfold os_path_join. destruct (String.eqb a ""); [auto|].
  destruct (String.eqb _ "/"); intros H.
  - exact (append_cancel _ _ _ H).
  - apply append_cancel in H. apply (append_cancel "/") in H. exact H.
Qed.

Lemma dataset_file_inj (output_dir n n' : string) :
  In n (map fst dataset_endpoints) -> In n' (map fst dataset_endpoints) ->
  dataset_file output_dir n = dataset_file output_dir n' -> n = n'.
Proof.
  intros Hn Hn' H. apply os_path_join_inj in H. simpl in Hn, Hn'.
  repeat (destruct Hn as [<-|Hn]; [|]);
    repeat (destruct Hn' as [<-|Hn']; [|]);
    try contradiction; try reflexivity; vm_compute in H; discriminate H.
Qed.

Lemma date_minus_days_in_range (ordinal days : Z) :
  valid_ordinal ordinal = true -> 0 <= days < ordinal ->
  date_minus_days ordinal days = Ok (ordinal - days).
Proof.
  intros Hv Hd. unfold date_minus_days, valid_ordinal in *.
  apply andb_true_iff in Hv. destruct Hv as [H0 H1].
  apply Z.ltb_lt in H0. apply Z.leb_le in H1. unfold MAXORDINAL in *.
  replace (999999999 <? Z.abs days) with false by (symmetry; apply Z.ltb_ge; lia).
  replace (0 <? ordinal - days) with true by (symmetry; apply Z.ltb_lt; lia).
  replace (ordinal - days <=? 3652059) with true by (symmetry; apply Z.leb_le; lia).
  reflexivity.
Qed.

Lemma get_date_range_run (self : OuraDataCollector) (days_back : Z) (w : World) :
  get_date_range self days_back w =
  (match date_minus_days (today w) days_back with
   | Ok start => Ok (isoformat start, isoformat (today w))
   | Raised e => Raised e
   end, w).
Proof.
  unfold get_date_range. rewrite bind_run. unfold datetime_now_date.
  rewrite bind_run. unfold lift.
  destruct (date_minus_days (today w) days_back); reflexivity.
Qed.

(** C7. When [collect_all_data] returns, its collection holds exactly
    the datasets whose fetcher returned a table that is not empty, each
    with that table, and the file of each of them holds the table; a
    dataset whose fetcher returned an empty table is not in the
    collection and its file is as it was before the call. *)
Theorem collect_all_data_collection (irregular : json -> outcome DataFrame)
    (self : OuraDataCollector) (days_back : Z) (output_dir : string)
    (w w' : World) (results : gmap string ref) :
  collect_all_data irregular self days_back output_dir w = (Ok results, w') ->
  exists start_date end_date,
    fst (get_date_range self days_back w) = Ok (start_date, end_date)
    /\ (forall name, ~ In name (map fst (datasets irregular self)) ->
          results !! name = None)
    /\ forall name fetch_func, In (name, fetch_func) (datasets irregular self) ->
         exists (r0 : ref) (w0 : World) (df : DataFrame),
           fetch_func start_date end_date w = (Ok r0, w0)
           /\ heap w0 !! r0 = Some df
           /\ if empty df then
                results !! name = None
                /\ files w' !! dataset_file output_dir name
                   = files w !! dataset_file output_dir name
              else
                exists r, results !! name = Some r
                          /\ heap w' !! r = Some df
                          /\ files w' !! dataset_file output_dir name = Some df.
Proof.
  intros H. unfold collect_all_data in H.
  apply bind_Ok_inv in H. destruct H as (? & w1 & Hmk & H).
  apply os_makedirs_Ok_inv in Hmk. destruct Hmk as [_ Hw1].
  apply bind_Ok_inv in H. destruct H as ([start_date end_date] & w2 & Hrange & H).
  rewrite get_date_range_run in Hrange. injection Hrange as Hrange Hw2. subst w2.
  apply bind_Ok_inv in H. destruct H as (? & w3 & Hp & H).
  apply print_Ok_inv in Hp. destruct Hp as (N3 & T3 & H3 & F3).
  rewrite datasets_endpoints in H.
  assert (Hnd : NoDup (map fst dataset_endpoints)).
  { simpl. repeat (apply NoDup_cons; split; [rewrite list_elem_of_In; simpl; intuition discriminate|]).
    apply NoDup_nil. reflexivity. }
  destruct (collect_loop_spec irregular self start_date end_date output_dir
              dataset_endpoints Hnd (dataset_file_inj output_dir) ∅ results w3 w' H)
    as (N' & P' & R' & F' & E').
  assert (Nw : network w3 = network w) by (rewrite N3, <- Hw1; reflexivity).
  assert (Fw : files w3 = files w) by (rewrite F3, <- Hw1; reflexivity).
  assert (Tw : today w1 = today w) by (rewrite <- Hw1; reflexivity).
  exists start_date, end_date. split.
  { rewrite get_date_range_run. simpl. rewrite <- Tw. exact Hrange. }
  split.
  { intros name Hname. rewrite datasets_endpoints, map_map in Hname.
    rewrite (R' name Hname). apply lookup_empty. }
  intros name fetch_func Hin. rewrite datasets_endpoints in Hin.
  apply in_map_iff in Hin. destruct Hin as ([name' endpoint] & Heq & Hin).
  unfold fetcher_of in Heq. simpl in Heq. inversion Heq. subst name' fetch_func.
  destruct (E' name endpoint Hin) as (df & Hdf & Hrec).
  rewrite Nw in Hdf.
  destruct (fetch_result irregular self endpoint start_date end_date w)
    as (w0 & _ & Hfetch).
  rewrite Hdf, new_run in Hfetch.
  eexists _, _, df. split; [exact Hfetch|].
  split; [simpl; apply list_lookup_middle; reflexivity|].
  unfold recorded in Hrec. rewrite Fw in Hrec. rewrite lookup_empty in Hrec. exact Hrec.
Qed.

Lemma collect_all_data_collection_witness :
  let run := collect_all_data (fun _ => Raised ValueError) (__init__ []) 300 "oura_data"
               sample_online in
  exists start_date end_date,
    fst (get_date_range (__init__ []) 300 sample_online) = Ok (start_date, end_date)
    /\ (forall name,
          ~ In name (map fst (datasets (fun _ => Raised ValueError) (__init__ []))) ->
          result_or_empty (fst run) !! name = None)
    /\ forall name fetch_func,
         In (name, fetch_func) (datasets (fun _ => Raised ValueError) (__init__ [])) ->
         exists (r0 : ref) (w0 : World) (df : DataFrame),
           fetch_func start_date end_date sample_online = (Ok r0, w0)
           /\ heap w0 !! r0 = Some df
           /\ if empty df then
                result_or_empty (fst run) !! name = None
                /\ files (snd run) !! dataset_file "oura_data" name
                   = files sample_online !! dataset_file "oura_data" name
              else
                exists r, result_or_empty (fst run) !! name = Some r
                          /\ heap (snd run) !! r = Some df
                          /\ files (snd run) !! dataset_file "oura_data" name = Some df.
Proof.
  intros run.
  refine (collect_all_data_collection (fun _ => Raised ValueError) (__init__ []) 300
            "oura_data" sample_online (snd run) (result_or_empty (fst run)) _).
  vm_compute. reflexivity.
Defined.

(** ** The date window *)

Lemma ord2ymd_parts (ordinal : Z) :
  ord2ymd ordinal =
  let n := ordinal - 1 in
  let n400 := n / 146097 in
  let n100 := (n mod 146097) / 36524 in
  let n4 := ((n mod 146097) mod 36524) / 1461 in
  let n1 := (((n mod 146097) mod 36524) mod 1461) / 365 in
  let k := (((n mod 146097) mod 36524) mod 1461) mod 365 in
  let year := n400 * 400 + 1 + n100 * 100 + n4 * 4 + n1 in
  if Z.eqb n1 4 || Z.eqb n100 4 then (year - 1, 12, 31)
  else
    let leapyear := Z.eqb n1 3 && (negb (Z.eqb n4 24) || Z.eqb n100 3) in
    (year, fst (month_day k leapyear), snd (month_day k leapyear)).
Proof.
  unfold ord2ymd, month_day. cbv zeta.
  destruct (_ || _); [reflexivity|].
  destruct (_ <? _); reflexivity.
Qed.

Lemma check_range_spec (f : Z -> bool) (n : nat) (lo : Z) :
  check_range f lo n = true -> forall x, lo <= x < lo + Z.of_nat n -> f x = true.
Proof.
  revert lo. induction n as [|n IH]; intros lo H x Hx; [lia|].
  simpl in H. apply andb_true_iff in H. destruct H as [H0 H1].
  destruct (Z.eq_dec x lo) as [->|Hne]; [exact H0|].
  apply (IH (lo + 1) H1). lia.
Qed.

Lemma month_day_checked (leapyear : bool) (k : Z) :
  0 <= k < 365 -> month_day_ok leapyear k = true.
Proof.
  intros Hk. apply (check_range_spec (month_day_ok leapyear) 365 0); [|lia].
  destruct leapyear; vm_compute; reflexivity.
Qed.

Lemma is_leap_parts (q c f y1 : Z) :
  0 <= c < 4 -> 0 <= f < 25 -> 0 <= y1 < 4 ->
  is_leap (q * 400 + 1 + c * 100 + f * 4 + y1)
  = Z.eqb y1 3 && (negb (Z.eqb f 24) || Z.eqb c 3).
Proof.
  intros Hc Hf Hy. unfold is_leap.
  destruct (Z.eqb_spec y1 3) as [->|Hy3]; simpl.
  - replace ((q * 400 + 1 + c * 100 + f * 4 + 3) mod 4) with 0
      by (apply Z.mod_unique with (q := q * 100 + c * 25 + f + 1); lia).
    simpl.
    destruct (Z.eqb_spec f 24) as [->|Hf24]; simpl.
    + replace ((q * 400 + 1 + c * 100 + 24 * 4 + 3) mod 100) with 0
        by (apply Z.mod_unique with (q := q * 4 + c + 1); lia).
      simpl.
      destruct (Z.eqb_spec c 3) as [->|Hc3].
      * replace ((q * 400 + 1 + 3 * 100 + 24 * 4 + 3) mod 400) with 0
          by (apply Z.mod_unique with (q := q + 1); lia).
        reflexivity.
      * replace ((q * 400 + 1 + c * 100 + 24 * 4 + 3) mod 400) with (c * 100 + 100)
          by (apply Z.mod_unique with (q := q); lia).
        destruct (Z.eqb_spec (c * 100 + 100) 0); [lia | reflexivity].
    + replace ((q * 400 + 1 + c * 100 + f * 4 + 3) mod 100) with (f * 4 + 4)
        by (apply Z.mod_unique with (q := q * 4 + c); lia).
      destruct (Z.eqb_spec (f * 4 + 4) 0); [lia | reflexivity].
  - replace ((q * 400 + 1 + c * 100 + f * 4 + y1) mod 4) with (y1 + 1)
      by (apply Z.mod_unique with (q := q * 100 + c * 25 + f); lia).
    destruct (Z.eqb_spec (y1 + 1) 0); [lia | reflexivity].
Qed.

Lemma days_before_year_parts (q c f y1 : Z) :
  0 <= c < 4 -> 0 <= f < 25 -> 0 <= y1 < 4 ->
  days_before_year (q * 400 + 1 + c * 100 + f * 4 + y1)
  = q * 146097 + c * 36524 + f * 1461 + y1 * 365.
Proof.
  intros Hc Hf Hy. unfold days_before_year. cbv zeta.
  replace (q * 400 + 1 + c * 100 + f * 4 + y1 - 1)
    with (q * 400 + c * 100 + f * 4 + y1) by lia.
  replace ((q * 400 + c * 100 + f * 4 + y1) / 4) with (q * 100 + c * 25 + f)
    by (apply Z.div_unique with (r := y1); lia).
  replace ((q * 400 + c * 100 + f * 4 + y1) / 100) with (q * 4 + c)
    by (apply Z.div_unique with (r := f * 4 + y1); lia).
  replace ((q * 400 + c * 100 + f * 4 + y1) / 400) with q
    by (apply Z.div_unique with (r := c * 100 + f * 4 + y1); lia).
  lia.
Qed.

Lemma ord2ymd_correct (o : Z) :
  1 <= o ->
  let '(y, m, d) := ord2ymd o in
  ymd2ord y m d = o /\ 1 <= y /\ 1 <= m <= 12 /\ 1 <= d <= month_length y m
  /\ (o <= MAXORDINAL -> y <= 9999).
Proof.
  intros Ho. rewrite ord2ymd_parts. cbv zeta.
  pose proof (Z.div_mod (o - 1) 146097 ltac:(lia)) as E400.
  pose proof (Z.mod_pos_bound (o - 1) 146097 ltac:(lia)) as B400.
  pose proof (Z.div_pos (o - 1) 146097 ltac:(lia) ltac:(lia)) as Q400.
  set (q := (o - 1) / 146097) in *. set (r := (o - 1) mod 146097) in *.
  pose proof (Z.div_mod r 36524 ltac:(lia)) as E100.
  pose proof (Z.mod_pos_bound r 36524 ltac:(lia)) as B100.
  pose proof (Z.div_pos r 36524 ltac:(lia) ltac:(lia)) as Q100.
  set (c := r / 36524) in *. set (r2 := r mod 36524) in *.
  pose proof (Z.div_mod r2 1461 ltac:(lia)) as E4.
  pose proof (Z.mod_pos_bound r2 1461 ltac:(lia)) as B4.
  pose proof (Z.div_pos r2 1461 ltac:(lia) ltac:(lia)) as Q4.
  set (f := r2 / 1461) in *. set (r3 := r2 mod 1461) in *.
  pose proof (Z.div_mod r3 365 ltac:(lia)) as E1.
  pose proof (Z.mod_pos_bound r3 365 ltac:(lia)) as B1.
  pose proof (Z.div_pos r3 365 ltac:(lia) ltac:(lia)) as Q1.
  set (y1 := r3 / 365) in *. set (k := r3 mod 365) in *.
  assert (Hf : 0 <= f < 25) by lia.
  unfold MAXORDINAL.
  destruct (Z.eqb_spec y1 4) as [Hy4|Hy4]; simpl orb; cbv iota.
  - (* the last day of a leap year *)
    assert (Hc : 0 <= c < 4) by lia.
    replace (q * 400 + 1 + c * 100 + f * 4 + y1 - 1)
      with (q * 400 + 1 + c * 100 + f * 4 + 3) by lia.
    unfold ymd2ord, month_length.
    rewrite days_before_year_parts, is_leap_parts by lia.
    assert (Hf24 : f <> 24) by lia.
    destruct (Z.eqb_spec f 24); [contradiction|].
    change (days_before_month 12) with 334. change (days_in_month 12) with 31.
    simpl. repeat split; try lia.
  - destruct (Z.eqb_spec c 4) as [Hc4|Hc4]; cbv iota.
    + (* the last day of the 400-year cycle *)
      replace (q * 400 + 1 + c * 100 + f * 4 + y1 - 1)
        with (q * 400 + 1 + 3 * 100 + 24 * 4 + 3) by lia.
      unfold ymd2ord, month_length.
      rewrite days_before_year_parts, is_leap_parts by lia.
      change (days_before_month 12) with 334. change (days_in_month 12) with 31.
      simpl. repeat split; try lia.
    + assert (Hc : 0 <= c < 4) by lia.
      assert (Hy : 0 <= y1 < 4) by lia.
      pose proof (month_day_checked (Z.eqb y1 3 && (negb (Z.eqb f 24) || Z.eqb c 3)) k B1)
        as Hmd.
      unfold month_day_ok in Hmd.
      destruct (month_day k _) as [m d] eqn:Emd. simpl fst. simpl snd.
      unfold ymd2ord, month_length.
      rewrite days_before_year_parts, is_leap_parts by lia.
      repeat (apply andb_true_iff in Hmd; destruct Hmd as [Hmd ?]).
      repeat split; try lia.
Qed.

Lemma digit_value_digit (n : Z) : digit_value (digit n) = Some (n mod 10).
Proof.
  pose proof (Z.mod_pos_bound n 10 ltac:(lia)) as B.
  assert (H : digit_ok (n mod 10) = true).
  { apply (check_range_spec digit_ok 10 0); [vm_compute; reflexivity | lia]. }
  unfold digit_ok in H.
  assert (E : digit (n mod 10) = digit n).
  { unfold digit. rewrite Z.mod_mod by lia. reflexivity. }
  rewrite E in H. destruct (digit_value (digit n)) as [v|]; [|discriminate].
  apply Z.eqb_eq in H. congruence.
Qed.

Lemma digits2_value (n : Z) :
  0 <= n < 100 ->
  number_of_digits (String.list_ascii_of_string (digits2 n)) = Some n.
Proof.
  intros Hn.
  cbv [digits2 String.list_ascii_of_string number_of_digits fold_left].
  rewrite !digit_value_digit. f_equal.
  Z.div_mod_to_equations. lia.
Qed.

Lemma digits4_value (n : Z) :
  0 <= n < 10000 ->
  number_of_digits (String.list_ascii_of_string (digits4 n)) = Some n.
Proof.
  intros Hn.
  cbv [digits4 digits2 String.list_ascii_of_string number_of_digits fold_left].
  rewrite !digit_value_digit. f_equal.
  Z.div_mod_to_equations. lia.
Qed.

Lemma month_length_bound (y m : Z) : 1 <= m <= 12 -> month_length y m <= 31.
Proof.
  intros Hm. unfold month_length. destruct (_ && _); [lia|].
  assert (H : (days_in_month m <=? 31) = true).
  { apply (check_range_spec (fun x => days_in_month x <=? 31) 12 1);
      [vm_compute; reflexivity | lia]. }
  lia.
Qed.

Lemma date_of_iso_isoformat (o : Z) :
  valid_ordinal o = true -> date_of_iso (isoformat o) = Some o.
Proof.
  unfold valid_ordinal. intros Hv. apply andb_true_iff in Hv. destruct Hv as [H0 H1].
  apply Z.ltb_lt in H0. apply Z.leb_le in H1.
  pose proof (ord2ymd_correct o ltac:(lia)) as Hc.
  unfold isoformat. destruct (ord2ymd o) as [[y m] d].
  destruct Hc as (Hord & Hy & Hm & Hd & Hmax). specialize (Hmax H1).
  pose proof (month_length_bound y m Hm) as Hml.
  pose proof (digits4_value y ltac:(lia)) as Py.
  pose proof (digits2_value m ltac:(lia)) as Pm.
  pose proof (digits2_value d ltac:(lia)) as Pd.
  unfold date_of_iso.
  cbv [digits4 digits2 String.append String.list_ascii_of_string] in *.
  rewrite Py, Pm, Pd.
  change (Ascii.eqb "-" "-") with true. cbv [andb].
  destruct Hm as [Hm1 Hm2]. destruct Hd as [Hd1 Hd2].
  apply Z.leb_le in Hy, Hm1, Hm2, Hd1, Hd2.
  rewrite Hy, Hm1, Hm2, Hd1, Hd2. congruence.
Qed.

(** C6, as amended.  When [days_back] is at least 0 and less than the
    ordinal of the current date, so that the start of the window is a
    date of the calendar, [get_date_range] returns two ISO dates: the
    second is the current date and lies [days_back] days after the
    first. *)
Theorem get_date_range_window (self : OuraDataCollector) (days_back : Z) (w : World) :
  valid_ordinal (today w) = true ->
  0 <= days_back < today w ->
  exists (start_date end_date : string) (first last : Z),
    get_date_range self days_back w = (Ok (start_date, end_date), w)
    /\ date_of_iso start_date = Some first
    /\ date_of_iso end_date = Some last
    /\ last - first = days_back
    /\ last = today w.
Proof.
  intros Hv Hd.
  assert (Hs : valid_ordinal (today w - days_back) = true).
  { unfold valid_ordinal in *. apply andb_true_iff in Hv. destruct Hv as [H0 H1].
    apply Z.ltb_lt in H0. apply Z.leb_le in H1.
    apply andb_true_iff. split; [apply Z.ltb_lt | apply Z.leb_le]; lia. }
  exists (isoformat (today w - days_back)), (isoformat (today w)),
    (today w - days_back), (today w).
  split.
  { rewrite get_date_range_run, (date_minus_days_in_range _ _ Hv Hd). reflexivity. }
  split; [apply date_of_iso_isoformat; exact Hs|].
  split; [apply date_of_iso_isoformat; exact Hv|].
  split; [lia | reflexivity].
Qed.

Lemma get_date_range_window_witness :
  exists (start_date end_date : string) (first last : Z),
    get_date_range (__init__ []) 300 sample_online
      = (Ok (start_date, end_date), sample_online)
    /\ date_of_iso start_date = Some first
    /\ date_of_iso end_date = Some last
    /\ last - first = 300
    /\ last = today sample_online.
Proof.
  refine (get_date_range_window (__init__ []) 300 sample_online _ _).
  - reflexivity.
  - simpl. lia.
Defined.

(** C6 as stated fails for a [days_back] that reaches before the first
    day of the calendar: on 2026-11-04, a million days back, the
    subtraction raises [OverflowError] and no window is computed. *)
Lemma get_date_range_counterexample :
  ~ (forall (self : OuraDataCollector) (days_back : Z) (w : World),
       valid_ordinal (today w) = true ->
       0 <= days_back ->
       exists start_date end_date,
         fst (get_date_range self days_back w) = Ok (start_date, end_date)).
Proof.
  intros H.
  destruct (H (__init__ []) 1000000 sample_online eq_refl ltac:(lia)) as (s & e & Hrun).
  vm_compute in Hrun. discriminate Hrun.
Qed.

(** * Further properties of the code *)

(** ** The client, call by call *)

Lemma _make_request_world (self : OuraDataCollector) (endpoint : string)
    (params : list (string * string)) (w : World) :
  snd (_make_request self endpoint params w) = after_request self endpoint params w.
Proof.
  rewrite _make_request_run. cbv zeta. unfold after_request, error_notices.
  destruct (network w _) as [e|status content].
  - destruct (is_RequestException e); simpl; rewrite ?app_nil_r; reflexivity.
  - destruct ((400 <=? status) && (status <? 600)); [|destruct content];
      simpl; rewrite ?app_nil_r; reflexivity.
Qed.

Lemma fetch_run (irregular : json -> outcome DataFrame) (self : OuraDataCollector)
    (endpoint start_date end_date : string) (w : World) :
  fetch irregular self endpoint start_date end_date w =
  match fetched_table irregular
          (network w (request_of self endpoint (window_params start_date end_date))) with
  | Ok df => new df (after_request self endpoint (window_params start_date end_date) w)
  | Raised e => (Raised e, after_request self endpoint (window_params start_date end_date) w)
  end.
Proof.
  destruct (_make_request_result self endpoint (window_params start_date end_date) w)
    as [Hres _].
  rewrite <- _make_request_world.
  unfold fetch, fetched_table. rewrite bind_run. rewrite <- Hres.
  unfold window_params.
  destruct (_make_request self endpoint _ w) as [[data|e] w1]; simpl fst; simpl snd;
    [|reflexivity].
  unfold table_of_payload. destruct (truthy data); [|reflexivity].
  rewrite bind_run. unfold lift at 1.
  destruct (py_contains "data" data) as [[|]|e]; [|reflexivity|reflexivity].
  rewrite bind_run. unfold lift at 1.
  destruct (py_getitem data "data") as [items|e]; [|reflexivity].
  unfold pd_DataFrame.
  destruct items as [| | | | |items|];
    try (rewrite bind_run; unfold lift; destruct (irregular _); reflexivity).
  destruct (as_records items); [reflexivity|].
  rewrite bind_run; unfold lift; destruct (irregular _); reflexivity.
Qed.

(** One round of the loop, whatever its outcome. *)
Lemma collect_loop_cons (irregular : json -> outcome DataFrame) (self : OuraDataCollector)
    (start_date end_date output_dir name endpoint : string)
    (rest : list (string * (string -> string -> M ref)))
    (acc : gmap string ref) (w : World) :
  collect_loop start_date end_date output_dir
    ((name, fetch irregular self endpoint) :: rest) acc w =
  match fetched_table irregular
          (network w (request_of self endpoint (window_params start_date end_date))) with
  | Ok df =>
      if empty df || writable w (dataset_file output_dir name) then
        collect_loop start_date end_date output_dir rest
          (if empty df then acc else <[name := length (heap w)]> acc)
          (after_round self start_date end_date output_dir name endpoint df w)
      else
        (Raised OSError,
         after_unwritable_round self start_date end_date name endpoint df w)
  | Raised e => (Raised e, after_failed_round self start_date end_date name endpoint w)
  end.
Proof.
  cbn [collect_loop].
  rewrite bind_run. unfold print at 1. cbv beta iota.
  set (wa := mkWorld _ _ _ _ _ _ _ _).
  rewrite bind_run, fetch_run.
  change (network wa) with (network w).
  destruct (fetched_table irregular _) as [df|e].
  - rewrite new_run. cbv beta iota.
    set (wb := mkWorld _ _ _ _ _ _ _ _).
    assert (Hlook : heap wb !! length (heap w) = Some df).
    { apply list_lookup_middle. reflexivity. }
    rewrite (bind_run (df_empty _)).
    change (length (heap (after_request self endpoint
                            (window_params start_date end_date) wa)))
      with (length (heap w)).
    rewrite (df_empty_run _ _ _ Hlook); cbv beta iota.
    unfold after_round. destruct (empty df); cbn [negb orb]; cbv iota.
    + rewrite bind_run. unfold print at 1. cbv beta iota.
      f_equal. unfold wb, after_request, wa. simpl. f_equal.
      rewrite <- !app_assoc. reflexivity.
    + rewrite bind_run, (df_to_csv_run _ _ _ _ Hlook).
      fold (dataset_file output_dir name).
      rewrite <- (writable_same_dirs w wb (dataset_file output_dir name) eq_refl).
      unfold write_file.
      destruct (writable wb (dataset_file output_dir name)); cbv beta iota.
      * set (wc := mkWorld _ _ _ _ _ _ _ _).
        assert (Hlook' : heap wc !! length (heap w) = Some df) by exact Hlook.
        rewrite bind_run, (df_len_run _ _ _ Hlook'); cbv beta iota.
        rewrite bind_run. unfold print at 1. cbv beta iota.
        f_equal. unfold wc, wb, after_request, wa. simpl. f_equal.
        rewrite <- !app_assoc. reflexivity.
      * f_equal. unfold after_unwritable_round, wb, after_request, wa. simpl. f_equal.
        rewrite <- !app_assoc. reflexivity.
  - cbv beta iota. f_equal. unfold after_failed_round, after_request, wa. simpl. f_equal.
    rewrite <- !app_assoc. reflexivity.
Qed.

(** ** What the client does on every call *)

(** X1.  [_make_request] sends exactly one request, whatever comes back: to
    the base URL followed by the endpoint, with the collector's
    [Authorization] header and the parameters it was given.  It touches
    no table, file or directory; on the console it shows nothing, or the
    one error line that goes with the result [None]. *)
Theorem make_request_single_request (self : OuraDataCollector) (endpoint : string)
    (params : list (string * string)) (w : World) :
  let w' := snd (_make_request self endpoint params w) in
  sent w' = sent w ++ [mkRequest (base_url self +:+ "/" +:+ endpoint) (headers self) params]
  /\ heap w' = heap w /\ files w' = files w /\ dirs w' = dirs w /\ stdin w' = stdin w
  /\ (stdout w' = stdout w
      \/ exists e, is_RequestException e = true
                   /\ stdout w' = stdout w ++ [ErrorFetching endpoint e]
                   /\ fst (_make_request self endpoint params w) = Ok JNull).
Proof.
  rewrite _make_request_run. cbv zeta. unfold request_of.
  destruct (network w _) as [e|status content].
  - destruct (is_RequestException e) eqn:E; cbn [fst snd sent heap files dirs stdin stdout];
      repeat split; [right; exists e | left]; auto.
  - destruct ((400 <=? status) && (status <? 600)); [|destruct content];
      cbn [fst snd sent heap files dirs stdin stdout]; repeat split;
      [ right; exists (HTTPError status) | left | right; exists JSONDecodeError ]; auto.
Qed.

(** X2.  A response whose status is outside 400 to 599 and whose body is
    JSON is returned as it was decoded; nothing is shown. *)
Theorem make_request_returns_body (self : OuraDataCollector) (endpoint : string)
    (params : list (string * string)) (w : World) (status : Z) (data : json) :
  network w (mkRequest (base_url self +:+ "/" +:+ endpoint) (headers self) params)
    = Responds status (Some data) ->
  ~ (400 <= status < 600) ->
  _make_request self endpoint params w =
    (Ok data,
     mkWorld (network w) (today w) (stdin w) (heap w) (files w) (dirs w) (stdout w)
       (sent w ++ [mkRequest (base_url self +:+ "/" +:+ endpoint) (headers self) params])).
Proof.
  intros Hreply Hstatus. rewrite _make_request_run. cbv zeta. unfold request_of.
  rewrite Hreply.
  replace ((400 <=? status) && (status <? 600)) with false; [reflexivity|].
  symmetry. apply andb_false_iff.
  destruct (Z.leb_spec 400 status); [right; apply Z.ltb_ge; lia | left; reflexivity].
Qed.

Lemma make_request_returns_body_witness :
  _make_request (__init__ []) "daily_sleep" [] sample_online =
    (Ok (JObj [("data",
                JArr [JObj [("day", sample_day); ("score", JInt 70);
                            ("contributors", JObj [("deep_sleep", JInt 65)])]])]),
     mkWorld (network sample_online) (today sample_online) (stdin sample_online)
       (heap sample_online) (files sample_online) (dirs sample_online)
       (stdout sample_online)
       (sent sample_online
        ++ [mkRequest (base_url (__init__ []) +:+ "/" +:+ "daily_sleep")
              (headers (__init__ [])) []])).
Proof.
  refine (make_request_returns_body (__init__ []) "daily_sleep" [] sample_online 200 _ _ _).
  - reflexivity.
  - lia.
Defined.

(** X3.  An exception of [requests.get] that is not a [RequestException] is
    not caught: it reaches the caller, and no error line is shown. *)
Theorem make_request_other_exception (self : OuraDataCollector) (endpoint : string)
    (params : list (string * string)) (w : World) (e : exn) :
  network w (mkRequest (base_url self +:+ "/" +:+ endpoint) (headers self) params) = Fails e ->
  is_RequestException e = false ->
  _make_request self endpoint params w =
    (Raised e,
     mkWorld (network w) (today w) (stdin w) (heap w) (files w) (dirs w) (stdout w)
       (sent w ++ [mkRequest (base_url self +:+ "/" +:+ endpoint) (headers self) params])).
Proof.
  intros Hreply He. rewrite _make_request_run. cbv zeta. unfold request_of.
  rewrite Hreply, He. reflexivity.
Qed.

Lemma make_request_other_exception_witness :
  _make_request (__init__ []) "sleep" []
    (mkWorld (fun _ => Fails ValueError) 739924 [] [] ∅ ∅ [] []) =
    (Raised ValueError,
     mkWorld (fun _ => Fails ValueError) 739924 [] [] ∅ ∅ []
       ([] ++ [mkRequest (base_url (__init__ []) +:+ "/" +:+ "sleep")
                 (headers (__init__ [])) []])).
Proof.
  refine (make_request_other_exception (__init__ []) "sleep" []
            (mkWorld (fun _ => Fails ValueError) 739924 [] [] ∅ ∅ [] []) ValueError _ _);
    reflexivity.
Defined.

(** ** Tables built from records *)

Lemma has_label_In (c : string) (cols : list string) :
  has_label c cols = true <-> In c cols.
Proof.
  unfold has_label. rewrite existsb_exists. split.
  - intros (x & Hx & E). apply String.eqb_eq in E. subst x. exact Hx.
  - intros H. exists c. split; [exact H | apply String.eqb_refl].
Qed.

Lemma has_label_false (c : string) (cols : list string) :
  has_label c cols = false <-> ~ In c cols.
Proof.
  rewrite <- has_label_In. destruct (has_label c cols); split; congruence.
Qed.

Lemma first_seen_In (ks seen : list string) (k : string) :
  In k (first_seen seen ks) <-> In k ks /\ ~ In k seen.
Proof.
  revert seen. induction ks as [|x ks IH]; intros seen; simpl; [tauto|].
  destruct (has_label x seen) eqn:E.
  - apply has_label_In in E. rewrite IH. split.
    + tauto.
    + intros [[<-|H] Hs]; [contradiction | tauto].
  - apply has_label_false in E. simpl. rewrite IH, in_app_iff. simpl. split.
    + intros [<-|(H & Hs)]; [tauto|]. split; [tauto|]. intros Hk. apply Hs. tauto.
    + intros [[<-|H] Hs]; [tauto|].
      destruct (String.string_dec x k) as [->|Hne]; [tauto|]. right. split; [exact H|].
      intros [Hk|[Hk|[]]]; [contradiction | congruence].
Qed.

Lemma first_seen_NoDup (ks seen : list string) : NoDup (first_seen seen ks).
Proof.
  revert seen. induction ks as [|x ks IH]; intros seen; simpl; [apply NoDup_nil; reflexivity|].
  destruct (has_label x seen) eqn:E; [apply IH|].
  apply NoDup_cons. split; [|apply IH].
  rewrite list_elem_of_In, first_seen_In, in_app_iff. simpl. tauto.
Qed.

Lemma as_records_map (records : list (list (string * json))) :
  as_records (map JObj records) = Some records.
Proof.
  induction records as [|r records IH]; simpl; [reflexivity|]. rewrite IH. reflexivity.
Qed.

Lemma lookup_map {A B : Type} (f : A -> B) (l : list A) (i : nat) :
  map f l !! i = f <$> (l !! i).
Proof.
  revert i. induction l as [|x l IH]; intros [|i]; simpl; try reflexivity. apply IH.
Qed.

Lemma DataFrame_of_records_spec (records : list (list (string * json))) :
  let df := DataFrame_of_records records in
  length (rows df) = length records
  /\ NoDup (columns df)
  /\ (forall key, In key (columns df) <->
        exists record, In record records /\ In key (map fst record))
  /\ (forall i record, records !! i = Some record ->
        exists row, rows df !! i = Some row
          /\ forall k key, columns df !! k = Some key ->
               row !! k = Some (match assoc key record with
                                | Some v => v
                                | None => JNull
                                end)).
Proof.
  unfold DataFrame_of_records. cbn [columns rows].
  split; [apply length_map|]. split; [apply first_seen_NoDup|]. split.
  - intros key. rewrite first_seen_In, in_concat. split.
    + intros [(keys & Hkeys & Hkey) _]. apply in_map_iff in Hkeys.
      destruct Hkeys as (record & <- & Hrecord). exists record. auto.
    + intros (record & Hrecord & Hkey). split; [|tauto].
      exists (map fst record). split; [|exact Hkey].
      apply in_map_iff. exists record. auto.
  - intros i record Hi. eexists. split.
    + rewrite lookup_map, Hi. reflexivity.
    + intros k key Hk. rewrite lookup_map, Hk. reflexivity.
Qed.

(** ** The fetchers on a payload with records *)

Lemma fetchers_endpoints (irregular : json -> outcome DataFrame) (self : OuraDataCollector)
    (fetcher : string -> string -> M ref) (endpoint : string) :
  In (fetcher, endpoint)
     [ (fetch_daily_sleep irregular self, "daily_sleep");
       (fetch_daily_readiness irregular self, "daily_readiness");
       (fetch_daily_activity irregular self, "daily_activity");
       (fetch_heart_rate irregular self, "heartrate");
       (fetch_daily_stress irregular self, "daily_stress");
       (fetch_sleep_time_series irregular self, "sleep") ] ->
  fetcher = fetch irregular self endpoint.
Proof.
  intros Hin. simpl in Hin.
  repeat (destruct Hin as [Hin|Hin]; [inversion Hin; reflexivity|]).
  destruct Hin.
Qed.

Lemma status_passes (status : Z) :
  ~ (400 <= status < 600) -> (400 <=? status) && (status <? 600) = false.
Proof.
  intros H. apply andb_false_iff.
  destruct (Z.leb_spec 400 status); [right; apply Z.ltb_ge; lia | left; reflexivity].
Qed.

(** X6.  Each of the six fetchers, on a response whose payload holds a list
    of records under [data], returns a new table that holds the records:
    one row per record in the order of the list, one column per key that
    occurs in some record, each key once.  A cell is missing when its
    record lacks the key of its column, and otherwise holds the value
    the record has for it: as it came when the value is not an integer,
    and also when every record has for that key a value that is neither
    missing nor a floating-point number (in the other columns pandas
    stores the integers as floating-point numbers, which the embedding
    does not follow).  Nothing is shown. *)
Theorem fetchers_tabulate_records (irregular : json -> outcome DataFrame)
    (self : OuraDataCollector) (fetcher : string -> string -> M ref)
    (endpoint start_date end_date : string) (w : World) (status : Z)
    (members : list (string * json)) (records : list (list (string * json))) :
  In (fetcher, endpoint)
     [ (fetch_daily_sleep irregular self, "daily_sleep");
       (fetch_daily_readiness irregular self, "daily_readiness");
       (fetch_daily_activity irregular self, "daily_activity");
       (fetch_heart_rate irregular self, "heartrate");
       (fetch_daily_stress irregular self, "daily_stress");
       (fetch_sleep_time_series irregular self, "sleep") ] ->
  network w (request_of self endpoint (window_params start_date end_date))
    = Responds status (Some (JObj members)) ->
  ~ (400 <= status < 600) ->
  assoc "data" members = Some (JArr (map JObj records)) ->
  exists (r : ref) (w' : World) (df : DataFrame),
    fetcher start_date end_date w = (Ok r, w')
    /\ heap w' !! r = Some df
    /\ stdout w' = stdout w
    /\ length (rows df) = length records
    /\ NoDup (columns df)
    /\ (forall key, In key (columns df) <->
          exists record, In record records /\ In key (map fst record))
    /\ (forall i record, records !! i = Some record ->
          exists row, rows df !! i = Some row
            /\ forall k key, columns df !! k = Some key ->
                 exists c, row !! k = Some c
                   /\ stores c (match assoc key record with
                                | Some v => v
                                | None => JNull
                                end)
                   /\ (plain_column key records ->
                       c = match assoc key record with
                           | Some v => v
                           | None => JNull
                           end)).
Proof.
  intros Hin Hreply Hstatus Hdata.
  rewrite (fetchers_endpoints _ _ _ _ Hin).
  rewrite fetch_run, Hreply. unfold fetched_table, client_result.
  rewrite (status_passes _ Hstatus). unfold table_of_payload.
  assert (Ht : truthy (JObj members) = true).
  { unfold truthy. rewrite (assoc_Some_nonempty _ _ _ Hdata). reflexivity. }
  rewrite Ht. unfold py_contains, py_getitem. rewrite Hdata, as_records_map.
  rewrite new_run.
  eexists _, _, (DataFrame_of_records records). split; [reflexivity|].
  split; [cbn [heap after_request]; apply list_lookup_middle; reflexivity|].
  split.
  { cbn [stdout after_request]. rewrite Hreply. unfold error_notices.
    rewrite (status_passes _ Hstatus). apply app_nil_r. }
  pose proof (DataFrame_of_records_spec records) as Hspec. cbv zeta in Hspec.
  destruct Hspec as (Hlen & Hnd & Hkeys & Hcells).
  split; [exact Hlen|]. split; [exact Hnd|]. split; [exact Hkeys|].
  intros i record Hi. destruct (Hcells i record Hi) as (row & Hrow & Hcell).
  exists row. split; [exact Hrow|]. intros k key Hk.
  eexists. split; [exact (Hcell k key Hk)|].
  split; intros _; reflexivity.
Qed.

Lemma fetchers_tabulate_records_witness :
  exists (r : ref) (w' : World) (df : DataFrame),
    fetch_daily_sleep (fun _ => Raised ValueError) (__init__ []) "2026-01-08" "2026-11-04"
      sample_online = (Ok r, w')
    /\ heap w' !! r = Some df
    /\ stdout w' = stdout sample_online
    /\ length (rows df)
       = length [[("day", sample_day); ("score", JInt 70);
                  ("contributors", JObj [("deep_sleep", JInt 65)])]]
    /\ NoDup (columns df)
    /\ (forall key, In key (columns df) <->
          exists record,
            In record [[("day", sample_day); ("score", JInt 70);
                        ("contributors", JObj [("deep_sleep", JInt 65)])]]
            /\ In key (map fst record))
    /\ (forall i record,
          [[("day", sample_day); ("score", JInt 70);
            ("contributors", JObj [("deep_sleep", JInt 65)])]] !! i = Some record ->
          exists row, rows df !! i = Some row
            /\ forall k key, columns df !! k = Some key ->
                 exists c, row !! k = Some c
                   /\ stores c (match assoc key record with
                                | Some v => v
                                | None => JNull
                                end)
                   /\ (plain_column key
                         [[("day", sample_day); ("score", JInt 70);
                           ("contributors", JObj [("deep_sleep", JInt 65)])]] ->
                       c = match assoc key record with
                           | Some v => v
                           | None => JNull
                           end)).
Proof.
  refine (fetchers_tabulate_records (fun _ => Raised ValueError) (__init__ []) _
            "daily_sleep" "2026-01-08" "2026-11-04" sample_online 200
            [("data",
              JArr [JObj [("day", sample_day); ("score", JInt 70);
                          ("contributors", JObj [("deep_sleep", JInt 65)])]])]
            [[("day", sample_day); ("score", JInt 70);
              ("contributors", JObj [("deep_sleep", JInt 65)])]] _ _ _ _).
  - simpl. left. reflexivity.
  - reflexivity.
  - lia.
  - reflexivity.
Defined.

(** X7.  A payload that is a number or [true] makes every fetcher raise
    [TypeError], from the test ['data' in data]; no table is built and
    nothing is shown. *)
Theorem fetchers_scalar_payload (irregular : json -> outcome DataFrame)
    (self : OuraDataCollector) (fetcher : string -> string -> M ref)
    (endpoint start_date end_date : string) (w : World) (status : Z) (data : json) :
  In (fetcher, endpoint)
     [ (fetch_daily_sleep irregular self, "daily_sleep");
       (fetch_daily_readiness irregular self, "daily_readiness");
       (fetch_daily_activity irregular self, "daily_activity");
       (fetch_heart_rate irregular self, "heartrate");
       (fetch_daily_stress irregular self, "daily_stress");
       (fetch_sleep_time_series irregular self, "sleep") ] ->
  network w (request_of self endpoint (window_params start_date end_date))
    = Responds status (Some data) ->
  ~ (400 <= status < 600) ->
  (data = JBool true
   \/ (exists n, data = JInt n /\ n <> 0)
   \/ (exists m x, data = JReal m x /\ m <> 0)) ->
  exists w',
    fetcher start_date end_date w = (Raised TypeError, w')
    /\ heap w' = heap w /\ stdout w' = stdout w /\ files w' = files w.
Proof.
  intros Hin Hreply Hstatus Hdata.
  rewrite (fetchers_endpoints _ _ _ _ Hin).
  rewrite fetch_run, Hreply. unfold fetched_table, client_result.
  rewrite (status_passes _ Hstatus). unfold table_of_payload.
  assert (Hw : stdout (after_request self endpoint (window_params start_date end_date) w)
               = stdout w).
  { cbn [stdout after_request]. rewrite Hreply. unfold error_notices.
    rewrite (status_passes _ Hstatus). apply app_nil_r. }
  destruct Hdata as [-> | [(n & -> & Hn) | (m & x & -> & Hm)]]; cbn [truthy].
  - eexists. split; [reflexivity|]. split; [reflexivity|]. split; [exact Hw | reflexivity].
  - rewrite (proj2 (Z.eqb_neq n 0) Hn). cbn [negb py_contains].
    eexists. split; [reflexivity|]. split; [reflexivity|]. split; [exact Hw | reflexivity].
  - rewrite (proj2 (Z.eqb_neq m 0) Hm). cbn [negb py_contains].
    eexists. split; [reflexivity|]. split; [reflexivity|]. split; [exact Hw | reflexivity].
Qed.

Lemma fetchers_scalar_payload_witness :
  exists w',
    fetch_daily_activity (fun _ => Raised ValueError) (__init__ []) "2026-01-08" "2026-11-04"
      (mkWorld sample_scalar_service 739924 [] [] ∅ ∅ [] [])
    = (Raised TypeError, w')
    /\ heap w' = [] /\ stdout w' = [] /\ files w' = ∅.
Proof.
  refine (fetchers_scalar_payload (fun _ => Raised ValueError) (__init__ []) _
            "daily_activity" "2026-01-08" "2026-11-04"
            (mkWorld sample_scalar_service 739924 [] [] ∅ ∅ [] []) 200 (JInt 5) _ _ _ _).
  - simpl. right. right. left. reflexivity.
  - reflexivity.
  - lia.
  - right. left. exists 5. split; [reflexivity | lia].
Defined.

(** ** The date window outside the usual case *)

Lemma valid_ordinal_bounds (o : Z) : valid_ordinal o = true <-> 0 < o <= MAXORDINAL.
Proof.
  unfold valid_ordinal. rewrite andb_true_iff, Z.ltb_lt, Z.leb_le. tauto.
Qed.

(** X4.  [get_date_range] does not check the sign of [days_back]: for a
    negative value whose start date is still in the calendar it returns a
    window that starts after it ends, [-days_back] days after the current
    date. *)
Theorem get_date_range_negative_days_back (self : OuraDataCollector) (days_back : Z)
    (w : World) :
  valid_ordinal (today w) = true ->
  days_back < 0 -> today w - days_back <= MAXORDINAL ->
  exists (start_date end_date : string) (first last : Z),
    get_date_range self days_back w = (Ok (start_date, end_date), w)
    /\ date_of_iso start_date = Some first
    /\ date_of_iso end_date = Some last
    /\ last = today w
    /\ first = last - days_back
    /\ last < first.
Proof.
  intros Hv Hneg Hmax.
  pose proof (proj1 (valid_ordinal_bounds _) Hv) as Ht.
  assert (Hs : valid_ordinal (today w - days_back) = true).
  { apply valid_ordinal_bounds. lia. }
  assert (Hrun : date_minus_days (today w) days_back = Ok (today w - days_back)).
  { unfold date_minus_days. rewrite Hs. unfold MAXORDINAL in *.
    replace (999999999 <? Z.abs days_back) with false by (symmetry; apply Z.ltb_ge; lia).
    reflexivity. }
  exists (isoformat (today w - days_back)), (isoformat (today w)),
    (today w - days_back), (today w).
  split; [rewrite get_date_range_run, Hrun; reflexivity|].
  split; [apply date_of_iso_isoformat; exact Hs|].
  split; [apply date_of_iso_isoformat; exact Hv|].
  split; [reflexivity|]. split; [reflexivity | lia].
Qed.

Lemma get_date_range_negative_days_back_witness :
  exists (start_date end_date : string) (first last : Z),
    get_date_range (__init__ []) (-7) sample_online
      = (Ok (start_date, end_date), sample_online)
    /\ date_of_iso start_date = Some first
    /\ date_of_iso end_date = Some last
    /\ last = today sample_online
    /\ first = last - (-7)
    /\ last < first.
Proof.
  refine (get_date_range_negative_days_back (__init__ []) (-7) sample_online _ _ _).
  - reflexivity.
  - lia.
  - vm_compute. discriminate.
Defined.

Lemma date_minus_days_out_of_calendar (ordinal days : Z) :
  ordinal <= days \/ MAXORDINAL < ordinal - days ->
  date_minus_days ordinal days = Raised OverflowError.
Proof.
  intros H. unfold date_minus_days.
  destruct (999999999 <? Z.abs days); [reflexivity|].
  replace (valid_ordinal (ordinal - days)) with false; [reflexivity|].
  symmetry. unfold valid_ordinal. apply andb_false_iff.
  destruct H as [H|H]; [left; apply Z.ltb_ge; lia | right; apply Z.leb_gt; lia].
Qed.

(** X5.  When the start of the window falls outside the calendar, before
    0001-01-01 or after 9999-12-31, [get_date_range] raises
    [OverflowError]. *)
Theorem get_date_range_out_of_calendar (self : OuraDataCollector) (days_back : Z)
    (w : World) :
  today w <= days_back \/ MAXORDINAL < today w - days_back ->
  get_date_range self days_back w = (Raised OverflowError, w).
Proof.
  intros H. rewrite get_date_range_run, (date_minus_days_out_of_calendar _ _ H).
  reflexivity.
Qed.

Lemma get_date_range_out_of_calendar_witness :
  get_date_range (__init__ []) 739924 sample_online = (Raised OverflowError, sample_online).
Proof.
  refine (get_date_range_out_of_calendar (__init__ []) 739924 sample_online _).
  left. simpl. lia.
Defined.



(** ** The files of a run *)

Lemma dataset_names_NoDup : NoDup (map fst dataset_endpoints).
Proof.
  simpl.
  repeat (apply NoDup_cons; split; [rewrite list_elem_of_In; simpl; intuition discriminate|]).
  apply NoDup_nil. reflexivity.
Qed.

Lemma summary_file_is_no_dataset_file (output_dir name : string) :
  In name (map fst dataset_endpoints) ->
  os_path_join output_dir "daily_features.csv" <> dataset_file output_dir name.
Proof.
  intros Hn H. apply os_path_join_inj in H. simpl in Hn.
  repeat (destruct Hn as [<-|Hn]; [vm_compute in H; discriminate H|]).
  destruct Hn.
Qed.

(** *** Which paths can be written *)

Lemma components_from_slash (current a rest : string) :
  components_from current (a +:+ String "/" rest) =
    (components_from current a ++ components_from "" rest)%list.
Proof.
  revert current. induction a as [|c a IH]; intros current.
  - reflexivity.
  - change (String c a +:+ String "/" rest) with (String c (a +:+ String "/" rest)).
    cbn [components_from]. destruct (Ascii.eqb c "/").
    + rewrite IH. apply app_assoc.
    + apply IH.
Qed.

Lemma ends_with_slash (a : string) :
  a <> "" ->
  String.eqb (String.substring (String.length a - 1)%nat 1 a) "/" = true ->
  exists a0, a = a0 +:+ "/".
Proof.
  induction a as [|c a IH]; intros Ha H; [contradiction|].
  destruct a as [|c' a].
  - cbn in H. destruct (Ascii.eqb c "/") eqn:Hc; [|discriminate H].
    apply Ascii.eqb_eq in Hc. subst c. exists "". reflexivity.
  - destruct IH as (a0 & Ha0); [discriminate| |].
    + cbn [String.length Nat.sub] in H |- *. rewrite Nat.sub_0_r in *.
      destruct (String.length a) eqn:Hl; exact H.
    + exists (String c a0). rewrite Ha0. reflexivity.
Qed.

Lemma append_slash (a0 b : string) : (a0 +:+ "/") +:+ b = a0 +:+ String "/" b.
Proof.
  induction a0 as [|c a0 IH]; [reflexivity|].
  change (String c ((a0 +:+ "/") +:+ b) = String c (a0 +:+ String "/" b)).
  rewrite IH. reflexivity.
Qed.

(** The components of a joined path are those of its two parts. *)
Lemma components_os_path_join (a b : string) :
  components (os_path_join a b) = (components a ++ components b)%list.
Proof.
  unfold os_path_join, components.
  destruct (String.eqb a "") eqn:Ha.
  - apply String.eqb_eq in Ha. subst a. reflexivity.
  - apply String.eqb_neq in Ha.
    destruct (String.eqb _ "/") eqn:Hs.
    + destruct (ends_with_slash a Ha Hs) as (a0 & ->).
      rewrite append_slash, !components_from_slash. cbn [components_from component].
      change (String.eqb "" "" || String.eqb "" ".") with true. cbv iota.
      rewrite app_nil_r. reflexivity.
    + change (a +:+ "/" +:+ b) with (a +:+ String "/" b).
      apply components_from_slash.
Qed.

Lemma is_absolute_os_path_join (a b : string) :
  a <> "" -> is_absolute (os_path_join a b) = is_absolute a.
Proof.
  intros Ha. unfold os_path_join.
  destruct (String.eqb a "") eqn:E; [apply String.eqb_eq in E; contradiction|].
  destruct a as [|c a]; [contradiction|].
  destruct (String.eqb _ "/"); reflexivity.
Qed.

Lemma is_prefix_refl (a : list string) : is_prefix a a = true.
Proof.
  induction a as [|x a IH]; [reflexivity|].
  cbn [is_prefix]. rewrite String.eqb_refl. exact IH.
Qed.

(** A directory that was created exists. *)
Lemma path_is_dir_elem (w : World) (path : string) :
  path ∈ dirs w -> path_is_dir w path = true.
Proof.
  intros H. unfold path_is_dir, is_dir.
  destruct (components path) eqn:Hc; [reflexivity|].
  apply existsb_exists. exists path. split.
  - apply list_elem_of_In, elem_of_elements. exact H.
  - rewrite Hc, is_prefix_refl, Bool.eqb_reflx. reflexivity.
Qed.

Lemma path_is_dir_same_dirs (w w' : World) (path : string) :
  dirs w' = dirs w -> path_is_dir w' path = path_is_dir w path.
Proof. intros H. unfold path_is_dir, is_dir. rewrite H. reflexivity. Qed.

(** A file of one name can be written into a directory that exists. *)
Lemma writable_in_dir (w : World) (dir file name : string) :
  components file = [name] ->
  path_is_dir w dir = true -> writable w (os_path_join dir file) = true.
Proof.
  intros Hf Hd. unfold writable.
  rewrite components_os_path_join, Hf.
  destruct (String.eqb dir "") eqn:E.
  - apply String.eqb_eq in E. subst dir. reflexivity.
  - apply String.eqb_neq in E.
    rewrite (is_absolute_os_path_join _ _ E).
    destruct (components dir ++ [name])%list eqn:Hn.
    + destruct (components dir); discriminate Hn.
    + rewrite <- Hn, removelast_last. exact Hd.
Qed.

Lemma dataset_file_writable (w : World) (output_dir name : string) :
  In name (map fst dataset_endpoints) ->
  path_is_dir w output_dir = true -> writable w (dataset_file output_dir name) = true.
Proof.
  intros Hn Hd. unfold dataset_file.
  apply (writable_in_dir w output_dir _ (name +:+ ".csv")); [|exact Hd].
  simpl in Hn.
  repeat (destruct Hn as [<-|Hn]; [vm_compute; reflexivity|]).
  destruct Hn.
Qed.

Lemma summary_file_writable (w : World) (output_dir : string) :
  path_is_dir w output_dir = true ->
  writable w (os_path_join output_dir "daily_features.csv") = true.
Proof.
  intros Hd. apply (writable_in_dir w output_dir _ "daily_features.csv"); [|exact Hd].
  vm_compute. reflexivity.
Qed.


(** ** The orchestrator, round by round *)

Lemma collect_loop_sent (irregular : json -> outcome DataFrame) (self : OuraDataCollector)
    (start_date end_date output_dir : string) (entries : list (string * string)) :
  forall (acc results : gmap string ref) (w w' : World),
  collect_loop start_date end_date output_dir (map (fetcher_of irregular self) entries) acc w
    = (Ok results, w') ->
  sent w' = sent w ++ requests_for self start_date end_date entries
  /\ dirs w' = dirs w.
Proof.
  induction entries as [|[n0 ep0] entries IH]; intros acc results w w' H.
  - simpl in H. apply ret_Ok_inv in H. destruct H as [_ ->].
    unfold requests_for. simpl. rewrite app_nil_r. auto.
  - change (map (fetcher_of irregular self) ((n0, ep0) :: entries))
      with ((n0, fetch irregular self ep0) :: map (fetcher_of irregular self) entries) in H.
    rewrite collect_loop_cons in H.
    destruct (fetched_table irregular _) as [df|e]; [|discriminate H].
    destruct (empty df || writable w _); [|discriminate H].
    apply IH in H. destruct H as [Hs Hd]. rewrite Hs, Hd.
    unfold requests_for, after_round. cbn [sent dirs map snd].
    rewrite <- app_assoc. auto.
Qed.


Lemma collect_loop_idle (irregular : json -> outcome DataFrame) (self : OuraDataCollector)
    (start_date end_date output_dir : string) (entries : list (string * string)) :
  forall (acc : gmap string ref) (w : World),
  (forall name endpoint, In (name, endpoint) entries ->
     exists df,
       fetched_table irregular
         (network w (request_of self endpoint (window_params start_date end_date))) = Ok df
       /\ empty df = true) ->
  exists w',
    collect_loop start_date end_date output_dir (map (fetcher_of irregular self) entries) acc w
    = (Ok acc, w')
    /\ network w' = network w /\ files w' = files w /\ dirs w' = dirs w
    /\ stdout w' = stdout w ++ flat_map (idle_round self start_date end_date w) entries
    /\ sent w' = sent w ++ requests_for self start_date end_date entries.
Proof.
  induction entries as [|[n0 ep0] entries IH]; intros acc w Hall.
  - exists w. unfold requests_for. simpl. rewrite !app_nil_r. repeat split.
  - change (map (fetcher_of irregular self) ((n0, ep0) :: entries))
      with ((n0, fetch irregular self ep0) :: map (fetcher_of irregular self) entries).
    rewrite collect_loop_cons.
    destruct (Hall n0 ep0 (or_introl eq_refl)) as (df0 & -> & He).
    rewrite He. cbn [orb].
    set (w1 := after_round self start_date end_date output_dir n0 ep0 df0 w).
    destruct (IH acc w1) as (w' & Hrun & N & F & D & O & S).
    { intros name endpoint Hin. apply (Hall name endpoint). right. exact Hin. }
    exists w'. split; [exact Hrun|].
    rewrite N, F, D, O, S. unfold w1, after_round. rewrite He.
    cbn [network files dirs stdout sent flat_map requests_for map snd fst idle_round].
    unfold requests_for, idle_round. cbn [fst snd].
    repeat split; rewrite <- ?app_assoc; reflexivity.
Qed.

(** The part of [collect_all_data] before the loop. *)
Lemma collect_all_data_run (irregular : json -> outcome DataFrame)
    (self : OuraDataCollector) (days_back : Z) (output_dir : string) (w : World) (start : Z) :
  output_dir <> "" ->
  date_minus_days (today w) days_back = Ok start ->
  collect_all_data irregular self days_back output_dir w =
  collect_loop (isoformat start) (isoformat (today w)) output_dir
    (map (fetcher_of irregular self) dataset_endpoints) ∅
    (mkWorld (network w) (today w) (stdin w) (heap w) (files w) ({[output_dir]} ∪ dirs w)
       (stdout w ++ [FetchingRange (isoformat start) (isoformat (today w))]) (sent w)).
Proof.
  intros Hdir Hstart. unfold collect_all_data.
  rewrite bind_run, (os_makedirs_run _ _ Hdir). cbv beta iota.
  set (w1 := mkWorld _ _ _ _ _ _ _ _).
  rewrite bind_run, get_date_range_run.
  change (today w1) with (today w). rewrite Hstart. cbv beta iota.
  rewrite bind_run. unfold print at 1. cbv beta iota.
  rewrite datasets_endpoints. reflexivity.
Qed.

Lemma collect_all_data_Ok_inv (irregular : json -> outcome DataFrame)
    (self : OuraDataCollector) (days_back : Z) (output_dir : string) (w w' : World)
    (results : gmap string ref) :
  collect_all_data irregular self days_back output_dir w = (Ok results, w') ->
  output_dir <> "" /\ exists start, date_minus_days (today w) days_back = Ok start.
Proof.
  intros H. unfold collect_all_data in H.
  apply bind_Ok_inv in H. destruct H as (? & w1 & Hmk & H).
  apply os_makedirs_Ok_inv in Hmk. destruct Hmk as [Hdir Hw1].
  split; [exact Hdir|].
  apply bind_Ok_inv in H. destruct H as ([start_date end_date] & w2 & Hrange & _).
  rewrite get_date_range_run in Hrange. subst w1. cbn [today] in Hrange.
  destruct (date_minus_days (today w) days_back) as [start|e]; [|discriminate Hrange].
  exists start. reflexivity.
Qed.

Lemma default_directory_named : "oura_data" <> "".
Proof. discriminate. Qed.

Lemma made_directory_exists (path : string) (known : gset string) :
  path ∈ ({[path]} ∪ known : gset string).
Proof. apply elem_of_union_l, elem_of_singleton. reflexivity. Qed.

(** Once the output directory is created, the file of every dataset can
    be written. *)
Lemma dataset_files_writable (output_dir : string) (w : World) :
  output_dir ∈ dirs w ->
  forall name endpoint, In (name, endpoint) dataset_endpoints ->
    writable w (dataset_file output_dir name) = true.
Proof.
  intros Hd name endpoint Hin. apply dataset_file_writable.
  - apply in_map_iff. exists (name, endpoint). auto.
  - apply path_is_dir_elem. exact Hd.
Qed.

(** X24.  [os.makedirs] refuses the empty path: a run with the empty path
    as output directory raises [FileNotFoundError] at once, before any
    request is sent, anything is shown or any file is written. *)
Theorem collect_all_data_unnamed_directory (irregular : json -> outcome DataFrame)
    (self : OuraDataCollector) (days_back : Z) (w : World) :
  collect_all_data irregular self days_back "" w = (Raised FileNotFoundError, w).
Proof. reflexivity. Qed.

(** X8.  When [collect_all_data] returns, it has sent exactly six requests,
    one per endpoint and in the order of the datasets, each to the base
    URL followed by the endpoint, with the collector's [Authorization]
    header and the two dates of the window as parameters; and it has
    created the output directory. *)
Theorem collect_all_data_requests (irregular : json -> outcome DataFrame)
    (self : OuraDataCollector) (days_back : Z) (output_dir : string)
    (w w' : World) (results : gmap string ref) :
  collect_all_data irregular self days_back output_dir w = (Ok results, w') ->
  exists start_date end_date,
    fst (get_date_range self days_back w) = Ok (start_date, end_date)
    /\ sent w' =
       sent w ++
       map (fun endpoint =>
              mkRequest (base_url self +:+ "/" +:+ endpoint) (headers self)
                [("start_date", start_date); ("end_date", end_date)])
         ["daily_sleep"; "daily_readiness"; "daily_activity"; "heartrate";
          "daily_stress"; "sleep"]
    /\ dirs w' = {[output_dir]} ∪ dirs w.
Proof.
  intros H.
  destruct (collect_all_data_Ok_inv _ _ _ _ _ _ _ H) as (Hdir & start & Hstart).
  rewrite (collect_all_data_run _ _ _ _ _ _ Hdir Hstart) in H.
  apply collect_loop_sent in H. destruct H as [Hs Hd].
  exists (isoformat start), (isoformat (today w)).
  rewrite get_date_range_run, Hstart.
  split; [reflexivity|]. split; [exact Hs | exact Hd].
Qed.

Lemma collect_all_data_requests_witness :
  let run := collect_all_data (fun _ => Raised ValueError) (__init__ []) 300 "oura_data"
               sample_online in
  exists start_date end_date,
    fst (get_date_range (__init__ []) 300 sample_online) = Ok (start_date, end_date)
    /\ sent (snd run) =
       sent sample_online ++
       map (fun endpoint =>
              mkRequest (base_url (__init__ []) +:+ "/" +:+ endpoint) (headers (__init__ []))
                [("start_date", start_date); ("end_date", end_date)])
         ["daily_sleep"; "daily_readiness"; "daily_activity"; "heartrate";
          "daily_stress"; "sleep"]
    /\ dirs (snd run) = {["oura_data"]} ∪ dirs sample_online.
Proof.
  intros run.
  refine (collect_all_data_requests (fun _ => Raised ValueError) (__init__ []) 300
            "oura_data" sample_online (snd run) (result_or_empty (fst run)) _).
  vm_compute. reflexivity.
Defined.

(** The orchestrator returns whenever the output directory has a name,
    the window is in the calendar and no fetcher raises. *)
Lemma collect_loop_returns (irregular : json -> outcome DataFrame) (self : OuraDataCollector)
    (start_date end_date output_dir : string) (entries : list (string * string)) :
  forall (acc : gmap string ref) (w : World),
  (forall name endpoint, In (name, endpoint) entries ->
     writable w (dataset_file output_dir name) = true) ->
  (forall name endpoint, In (name, endpoint) entries ->
     exists df,
       fetched_table irregular
         (network w (request_of self endpoint (window_params start_date end_date))) = Ok df) ->
  exists results w',
    collect_loop start_date end_date output_dir (map (fetcher_of irregular self) entries) acc w
      = (Ok results, w').
Proof.
  induction entries as [|[n0 ep0] entries IH]; intros acc w Hwr Hall.
  - eexists _, _. reflexivity.
  - change (map (fetcher_of irregular self) ((n0, ep0) :: entries))
      with ((n0, fetch irregular self ep0) :: map (fetcher_of irregular self) entries).
    rewrite collect_loop_cons.
    destruct (Hall n0 ep0 (or_introl eq_refl)) as (df0 & ->).
    rewrite (Hwr n0 ep0 (or_introl eq_refl)), orb_true_r.
    apply IH.
    + intros name endpoint Hin.
      rewrite (writable_same_dirs w); [|reflexivity].
      apply (Hwr name endpoint). right. exact Hin.
    + intros name endpoint Hin. apply (Hall name endpoint). right. exact Hin.
Qed.






Lemma collect_all_data_idle (irregular : json -> outcome DataFrame)
    (self : OuraDataCollector) (days_back : Z) (output_dir : string) (w : World) (start : Z) :
  output_dir <> "" ->
  date_minus_days (today w) days_back = Ok start ->
  (forall name endpoint, In (name, endpoint) dataset_endpoints ->
     exists df,
       fetched_table irregular
         (network w (request_of self endpoint
                       (window_params (isoformat start) (isoformat (today w))))) = Ok df
       /\ empty df = true) ->
  exists w',
    collect_all_data irregular self days_back output_dir w = (Ok ∅, w')
    /\ files w' = files w
    /\ stdout w' =
       stdout w ++ FetchingRange (isoformat start) (isoformat (today w))
       :: flat_map (idle_round self (isoformat start) (isoformat (today w)) w)
            dataset_endpoints
    /\ sent w' = sent w ++ requests_for self (isoformat start) (isoformat (today w))
                             dataset_endpoints.
Proof.
  intros Hdir Hstart Hall.
  rewrite (collect_all_data_run _ _ _ _ _ _ Hdir Hstart).
  set (w1 := mkWorld _ _ _ _ _ _ _ _).
  destruct (collect_loop_idle irregular self (isoformat start) (isoformat (today w))
              output_dir dataset_endpoints ∅ w1 Hall) as (w' & Hrun & N & F & D & O & S).
  exists w'. split; [exact Hrun|]. rewrite F, O, S. unfold w1. cbn [files stdout sent].
  repeat split. rewrite <- app_assoc. reflexivity.
Qed.

Lemma fetched_table_no_data (irregular : json -> outcome DataFrame) (reply : Reply) :
  no_data_reply reply ->
  exists df, fetched_table irregular reply = Ok df /\ empty df = true.
Proof.
  unfold no_data_reply, fetched_table, client_result.
  destruct reply as [e|status content].
  - intros ->. exists DataFrame_empty. split; reflexivity.
  - destruct ((400 <=? status) && (status <? 600)) eqn:E.
    { intros _. exists DataFrame_empty. split; reflexivity. }
    intros [Hs|Hc].
    { exfalso. apply andb_false_iff in E.
      destruct E as [E|E]; [apply Z.leb_gt in E | apply Z.ltb_ge in E]; lia. }
    destruct content as [data|]; [|exists DataFrame_empty; split; reflexivity].
    unfold table_of_payload.
    destruct Hc as [-> | [(l & -> & Hl) | (l & -> & Hl)]].
    + exists DataFrame_empty. split; reflexivity.
    + destruct (truthy (JObj l)); [|exists DataFrame_empty; split; reflexivity].
      unfold py_contains. rewrite Hl. exists DataFrame_empty. split; reflexivity.
    + destruct (truthy (JObj l)); [|exists DataFrame_empty; split; reflexivity].
      unfold py_contains, py_getitem. rewrite Hl. eexists. split; reflexivity.
Qed.



(** ** The merger: what it writes, and when *)

Lemma allocates_then_bind {A B C : Type} (m : M A) (f : A -> M C) (k : B -> M C)
    (w : World) :
  table_op m ->
  (forall a w1, m w = (Ok a, w1) -> only_allocates w w1 -> allocates_then (f a) k w1) ->
  allocates_then (m ≫= f) k w.
Proof.
  intros Hm Hf. unfold allocates_then. rewrite bind_run.
  specialize (Hm w). destruct (m w) as [[a|e] w1] eqn:E; simpl in Hm.
  - destruct (Hf a w1 eq_refl Hm) as [(e & w2 & Hr & Hw) | (b & w2 & Hw & Hr)].
    + left. exists e, w2. split; [exact Hr|]. eapply only_allocates_trans; eassumption.
    + right. exists b, w2. split; [|exact Hr]. eapply only_allocates_trans; eassumption.
  - left. exists e, w1. auto.
Qed.

Lemma create_feature_summary_structure (self : OuraDataCollector)
    (data_dict : gmap string ref) (output_dir : string) (w : World) :
  negb (dict_contains "daily_sleep" data_dict)
  || negb (dict_contains "daily_readiness" data_dict) = false ->
  allocates_then (create_feature_summary self data_dict output_dir)
    (save_summary output_dir) w.
Proof.
  intros Hc. unfold create_feature_summary. rewrite Hc.
  repeat (apply allocates_then_bind; [solve [table_ops] | intros ? ? _ _]).
  right. eexists _, _. split; [apply only_allocates_refl | reflexivity].
Qed.

Lemma save_summary_run (output_dir : string) (df : ref) (w : World) :
  save_summary output_dir df w =
  match heap w !! df with
  | Some features =>
      if writable w (os_path_join output_dir "daily_features.csv") then
        (Ok (Some df),
         mkWorld (network w) (today w) (stdin w) (heap w)
           (<[os_path_join output_dir "daily_features.csv" := features]> (files w)) (dirs w)
           (stdout w ++ [CreatedSummary (len features)
                           (os_path_join output_dir "daily_features.csv")])
           (sent w))
      else (Raised OSError, w)
  | None => (Raised SystemError, w)
  end.
Proof.
  unfold save_summary. cbv zeta. rewrite bind_run.
  destruct (heap w !! df) as [features|] eqn:E.
  - rewrite (df_to_csv_run _ _ _ _ E).
    destruct (writable w _) eqn:Hwr.
    + rewrite (write_file_run _ _ _ Hwr). cbv beta iota.
      set (w1 := mkWorld _ _ _ _ _ _ _ _).
      assert (E1 : heap w1 !! df = Some features) by exact E.
      rewrite bind_run, (df_len_run _ _ _ E1). cbv beta iota.
      rewrite bind_run. unfold print. reflexivity.
    + unfold write_file. rewrite Hwr. reflexivity.
  - unfold df_to_csv. rewrite bind_run. unfold table. rewrite E. reflexivity.
Qed.

Lemma save_summary_Ok_inv (output_dir : string) (df : ref) (w w' : World)
    (features : DataFrame) (r : option ref) :
  heap w !! df = Some features ->
  save_summary output_dir df w = (Ok r, w') ->
  writable w (os_path_join output_dir "daily_features.csv") = true
  /\ mkWorld (network w) (today w) (stdin w) (heap w)
       (<[os_path_join output_dir "daily_features.csv" := features]> (files w)) (dirs w)
       (stdout w ++ [CreatedSummary (len features)
                       (os_path_join output_dir "daily_features.csv")])
       (sent w) = w'.
Proof.
  intros E H. rewrite save_summary_run, E in H.
  destruct (writable w _); [|discriminate H].
  injection H as _ H. auto.
Qed.

(** X13.  When the merger returns a table, it has written that table, and
    nothing else, to [daily_features.csv] in the output directory, and
    shown one line that gives the number of its rows; it has sent no
    request and created no directory. *)
Theorem create_feature_summary_saves (self : OuraDataCollector)
    (data_dict : gmap string ref) (output_dir : string) (w w' : World) (r : ref) :
  create_feature_summary self data_dict output_dir w = (Ok (Some r), w') ->
  exists features,
    heap w' !! r = Some features
    /\ files w' = <[os_path_join output_dir "daily_features.csv" := features]> (files w)
    /\ stdout w' = stdout w ++ [CreatedSummary (len features)
                                  (os_path_join output_dir "daily_features.csv")]
    /\ sent w' = sent w /\ dirs w' = dirs w.
Proof.
  intros H.
  destruct (negb (dict_contains "daily_sleep" data_dict)
            || negb (dict_contains "daily_readiness" data_dict)) eqn:Hc.
  { unfold create_feature_summary in H. rewrite Hc in H.
    apply bind_Ok_inv in H. destruct H as (? & ? & _ & H).
    apply ret_Ok_inv in H. destruct H as [H _]. discriminate H. }
  destruct (create_feature_summary_structure self data_dict output_dir w Hc)
    as [(e & w1 & Hr & _) | (df & w1 & Hw & Hr)]; [congruence|].
  rewrite H, save_summary_run in Hr.
  destruct Hw as (Hpre & _ & _ & _ & Hf & Hd & Ho & Hs).
  destruct (heap w1 !! df) as [features|] eqn:E; [|discriminate Hr].
  destruct (writable w1 _); [|discriminate Hr].
  injection Hr as -> ->. exists features. cbn [heap files stdout sent dirs].
  rewrite Hf, Ho, Hs, Hd. repeat split. exact E.
Qed.

Lemma create_feature_summary_saves_witness :
  let run := create_feature_summary (__init__ []) sample_dict "oura_data" sample_world in
  exists features,
    heap (snd run) !! 7%nat = Some features
    /\ files (snd run)
       = <[os_path_join "oura_data" "daily_features.csv" := features]> (files sample_world)
    /\ stdout (snd run)
       = stdout sample_world ++ [CreatedSummary (len features)
                                   (os_path_join "oura_data" "daily_features.csv")]
    /\ sent (snd run) = sent sample_world /\ dirs (snd run) = dirs sample_world.
Proof.
  intros run.
  refine (create_feature_summary_saves (__init__ []) sample_dict "oura_data" sample_world
            (snd run) 7%nat _).
  vm_compute. reflexivity.
Defined.

(** X14.  When the merger raises, whatever the exception, it has written no
    file and shown nothing: the summary file is only written once every
    merge has succeeded. *)
Theorem create_feature_summary_raises_before_writing (self : OuraDataCollector)
    (data_dict : gmap string ref) (output_dir : string) (w w' : World) (e : exn) :
  create_feature_summary self data_dict output_dir w = (Raised e, w') ->
  files w' = files w /\ stdout w' = stdout w /\ sent w' = sent w /\ dirs w' = dirs w.
Proof.
  intros H.
  destruct (negb (dict_contains "daily_sleep" data_dict)
            || negb (dict_contains "daily_readiness" data_dict)) eqn:Hc.
  { unfold create_feature_summary in H. rewrite Hc in H. discriminate H. }
  assert (Hw : only_allocates w w').
  { destruct (create_feature_summary_structure self data_dict output_dir w Hc)
      as [(e' & w1 & Hr & Hw) | (df & w1 & Hw & Hr)].
    - rewrite H in Hr. injection Hr as _ <-. exact Hw.
    - rewrite H, save_summary_run in Hr.
      destruct (heap w1 !! df); [destruct (writable w1 _); [discriminate Hr|]|];
        injection Hr as _ <-; exact Hw. }
  unfold only_allocates in Hw. tauto.
Qed.

Lemma create_feature_summary_raises_before_writing_witness :
  let run := create_feature_summary (__init__ []) (<["daily_stress" := 2%nat]> sample_dict)
               "oura_data" sample_world in
  files (snd run) = files sample_world /\ stdout (snd run) = stdout sample_world
  /\ sent (snd run) = sent sample_world /\ dirs (snd run) = dirs sample_world.
Proof.
  intros run.
  refine (create_feature_summary_raises_before_writing (__init__ [])
            (<["daily_stress" := 2%nat]> sample_dict) "oura_data" sample_world (snd run)
            (KeyError ["stress_high"; "recovery_high"]) _).
  vm_compute. reflexivity.
Defined.

(** ** The merger as a sequence of joins *)

Lemma create_feature_summary_steps (self : OuraDataCollector)
    (data_dict : gmap string ref) (output_dir : string) :
  create_feature_summary self data_dict output_dir =
  if negb (dict_contains "daily_sleep" data_dict)
     || negb (dict_contains "daily_readiness" data_dict)
  then print MissingRequired;; mret None
  else
    readiness ← dict_getitem data_dict "daily_readiness";
    df ← df_copy readiness;
    sleep ← dict_getitem data_dict "daily_sleep";
    sleep_is_empty ← df_empty sleep;
    df ← (if negb sleep_is_empty then join_renamed df sleep "sleep_score" "_sleep"
          else mret df);
    df ← optional_join data_dict "daily_activity"
           (fun src => join_renamed df src "activity_score" "_activity") df;
    df ← optional_join data_dict "daily_stress" (join_stress df) df;
    save_summary output_dir df.
Proof. reflexivity. Qed.

Lemma create_feature_summary_Ok_inv (self : OuraDataCollector)
    (data_dict : gmap string ref) (output_dir : string) (w w' : World) (r : ref) :
  create_feature_summary self data_dict output_dir w = (Ok (Some r), w') ->
  exists (rr rs : ref) (readiness sleep : DataFrame) (df0 df1 df2 : ref)
         (w0 w1 w2 w3 : World),
    data_dict !! "daily_readiness" = Some rr /\ heap w !! rr = Some readiness
    /\ data_dict !! "daily_sleep" = Some rs /\ heap w0 !! rs = Some sleep
    /\ only_allocates w w0 /\ heap w0 !! df0 = Some readiness
    /\ (if negb (empty sleep) then join_renamed df0 rs "sleep_score" "_sleep"
        else mret df0) w0 = (Ok df1, w1)
    /\ optional_join data_dict "daily_activity"
         (fun src => join_renamed df1 src "activity_score" "_activity") df1 w1 = (Ok df2, w2)
    /\ optional_join data_dict "daily_stress" (join_stress df2) df2 w2 = (Ok r, w3)
    /\ save_summary output_dir r w3 = (Ok (Some r), w').
Proof.
  intros H. rewrite create_feature_summary_steps in H.
  destruct (negb (dict_contains "daily_sleep" data_dict)
            || negb (dict_contains "daily_readiness" data_dict)).
  { apply bind_Ok_inv in H. destruct H as (? & ? & _ & H).
    apply ret_Ok_inv in H. destruct H as [H _]. discriminate H. }
  apply bind_Ok_inv in H. destruct H as (rr & w1 & Hrr & H).
  apply dict_getitem_Ok_inv in Hrr. destruct Hrr as [-> Hrr].
  apply bind_Ok_inv in H. destruct H as (df0 & w0 & Hcopy & H).
  destruct (df_copy_Ok_inv _ _ _ _ Hcopy) as (readiness & Hr0 & Hdf0 & _).
  pose proof (table_op_run _ _ _ _ (table_op_df_copy _) Hcopy) as Hw0.
  apply bind_Ok_inv in H. destruct H as (rs & w1 & Hs & H).
  apply dict_getitem_Ok_inv in Hs. destruct Hs as [-> Hs].
  apply bind_Ok_inv in H. destruct H as (b & w1 & He & H).
  apply df_empty_Ok_inv in He. destruct He as [-> (sleep & Hsleep0 & ->)].
  apply bind_Ok_inv in H. destruct H as (df1 & w1 & Hstep1 & H).
  apply bind_Ok_inv in H. destruct H as (df2 & w2 & Hstep2 & H).
  apply bind_Ok_inv in H. destruct H as (df3 & w3 & Hstep3 & H).
  assert (df3 = r).
  { rewrite save_summary_run in H. destruct (heap w3 !! df3); [|discriminate H].
    destruct (writable w3 _); [|discriminate H].
    injection H as H _. exact H. }
  subst df3.
  exists rr, rs, readiness, sleep, df0, df1, df2, w0, w1, w2, w3.
  do 9 (split; [assumption|]). assumption.
Qed.

Lemma same_table (w : World) (r : ref) (a b : DataFrame) :
  heap w !! r = Some a -> heap w !! r = Some b -> a = b.
Proof.
  intros Ha Hb.
  assert (E : Some a = Some b) by (transitivity (heap w !! r); [symmetry; exact Ha | exact Hb]).
  congruence.
Qed.

Lemma join_renamed_Ok_inv (df src df' : ref) (new_label rsuffix : string) (w w' : World)
    (left : DataFrame) :
  heap w !! df = Some left ->
  join_renamed df src new_label rsuffix w = (Ok df', w') ->
  exists source picked merged,
    heap w !! src = Some source
    /\ getitem_columns source ["day"; "score"; "contributors"] = Ok picked
    /\ merge_left left (rename picked "score" new_label) "day" ("", rsuffix) = Ok merged
    /\ heap w' !! df' = Some merged /\ only_allocates w w'.
Proof.
  intros Hleft H. unfold join_renamed in H.
  apply bind_Ok_inv in H. destruct H as (x & w1 & Hx & H).
  apply bind_Ok_inv in H. destruct H as (y & w2 & Hy & H).
  apply bind_Ok_inv in H. destruct H as (z & w3 & Hz & H).
  pose proof (table_op_run _ _ _ _ (table_op_df_getitem _ _) Hx) as H1.
  pose proof (table_op_run _ _ _ _ (table_op_df_copy _) Hy) as H2.
  pose proof (table_op_run _ _ _ _ (table_op_df_rename _ _ _) Hz) as H3.
  pose proof (table_op_run _ _ _ _ (table_op_df_merge _ _ _ _) H) as H4.
  destruct (df_getitem_Ok_inv _ _ _ _ _ Hx) as (source & picked & Hs & Hp & Hx1 & _).
  destruct (df_copy_Ok_inv _ _ _ _ Hy) as (c1 & Hc1 & Hy2 & _).
  destruct (df_rename_Ok_inv _ _ _ _ _ _ Hz) as (c2 & Hc2 & Hz3 & _).
  destruct (df_merge_Ok_inv _ _ _ _ _ _ _ _ H) as (l & rt & merged & Hl & Hr & Hm & Hnew & _).
  pose proof (same_table _ _ _ _ Hx1 Hc1). subst c1.
  pose proof (same_table _ _ _ _ Hy2 Hc2). subst c2.
  pose proof (same_table _ _ _ _ Hz3 Hr). subst rt.
  assert (Hleft3 : heap w3 !! df = Some left).
  { eapply only_allocates_lookup; [exact H3|].
    eapply only_allocates_lookup; [exact H2|].
    eapply only_allocates_lookup; [exact H1 | exact Hleft]. }
  pose proof (same_table _ _ _ _ Hleft3 Hl). subst l.
  exists source, picked, merged. do 4 (split; [assumption|]).
  eapply only_allocates_trans; [|exact H4].
  eapply only_allocates_trans; [|exact H3].
  eapply only_allocates_trans; [exact H1 | exact H2].
Qed.

Lemma join_stress_Ok_inv (df src df' : ref) (w w' : World) (left : DataFrame) :
  heap w !! df = Some left ->
  join_stress df src w = (Ok df', w') ->
  exists source picked merged,
    heap w !! src = Some source
    /\ getitem_columns source ["day"; "stress_high"; "recovery_high"] = Ok picked
    /\ merge_left left picked "day" ("_x", "_y") = Ok merged
    /\ heap w' !! df' = Some merged /\ only_allocates w w'.
Proof.
  intros Hleft H. unfold join_stress in H.
  apply bind_Ok_inv in H. destruct H as (x & w1 & Hx & H).
  apply bind_Ok_inv in H. destruct H as (y & w2 & Hy & H).
  pose proof (table_op_run _ _ _ _ (table_op_df_getitem _ _) Hx) as H1.
  pose proof (table_op_run _ _ _ _ (table_op_df_copy _) Hy) as H2.
  pose proof (table_op_run _ _ _ _ (table_op_df_merge _ _ _ _) H) as H4.
  destruct (df_getitem_Ok_inv _ _ _ _ _ Hx) as (source & picked & Hs & Hp & Hx1 & _).
  destruct (df_copy_Ok_inv _ _ _ _ Hy) as (c1 & Hc1 & Hy2 & _).
  destruct (df_merge_Ok_inv _ _ _ _ _ _ _ _ H) as (l & rt & merged & Hl & Hr & Hm & Hnew & _).
  pose proof (same_table _ _ _ _ Hx1 Hc1). subst c1.
  pose proof (same_table _ _ _ _ Hy2 Hr). subst rt.
  assert (Hleft2 : heap w2 !! df = Some left).
  { eapply only_allocates_lookup; [exact H2|].
    eapply only_allocates_lookup; [exact H1 | exact Hleft]. }
  pose proof (same_table _ _ _ _ Hleft2 Hl). subst l.
  exists source, picked, merged. do 4 (split; [assumption|]).
  eapply only_allocates_trans; [|exact H4].
  eapply only_allocates_trans; [exact H1 | exact H2].
Qed.

Lemma optional_join_Ok_inv (data_dict : gmap string ref) (name : string)
    (join : ref -> M ref) (df df' : ref) (w w' : World) :
  optional_join data_dict name join df w = (Ok df', w') ->
  (df' = df /\ w' = w /\ skipped w data_dict name)
  \/ (exists src source,
        data_dict !! name = Some src /\ heap w !! src = Some source
        /\ empty source = false /\ join src w = (Ok df', w')).
Proof.
  unfold optional_join, dict_contains, skipped. intros H.
  destruct (data_dict !! name) as [src|] eqn:Hd.
  - apply bind_Ok_inv in H. destruct H as (x & w1 & Hx & H).
    apply dict_getitem_Ok_inv in Hx. destruct Hx as [-> Hx].
    assert (x = src) by congruence. subst x.
    apply bind_Ok_inv in H. destruct H as (b & w1 & Hb & H).
    apply df_empty_Ok_inv in Hb. destruct Hb as [-> (source & Hsrc & ->)].
    destruct (empty source) eqn:E; cbn [negb] in H.
    + apply ret_Ok_inv in H. destruct H as [-> ->]. left.
      repeat split. intros r Hr. exists source. split; [congruence | exact E].
    + right. exists src, source. auto.
  - apply ret_Ok_inv in H. destruct H as [-> ->]. left.
    repeat split. intros r Hr. discriminate Hr.
Qed.

Lemma skipped_later (w w1 : World) (data_dict : gmap string ref) (name : string) :
  only_allocates w w1 -> skipped w data_dict name -> skipped w1 data_dict name.
Proof.
  intros Hw Hs r Hr. destruct (Hs r Hr) as (df & Hdf & He).
  exists df. split; [|exact He]. eapply only_allocates_lookup; eassumption.
Qed.

Lemma optional_join_skipped (data_dict : gmap string ref) (name : string)
    (join : ref -> M ref) (df : ref) (w : World) :
  skipped w data_dict name -> optional_join data_dict name join df w = (Ok df, w).
Proof.
  intros Hs. unfold optional_join, dict_contains.
  destruct (data_dict !! name) as [src|] eqn:Hd; [|reflexivity].
  destruct (Hs src Hd) as (source & Hsrc & He).
  rewrite bind_run, (dict_getitem_run _ _ _ _ Hd). cbv beta iota.
  rewrite bind_run, (df_empty_run _ _ _ Hsrc). cbv beta iota.
  rewrite He. reflexivity.
Qed.

Lemma optional_join_skipped_inv (data_dict : gmap string ref) (name : string)
    (join : ref -> M ref) (df df' : ref) (w w' : World) :
  skipped w data_dict name ->
  optional_join data_dict name join df w = (Ok df', w') -> df' = df /\ w' = w.
Proof.
  intros Hs H. rewrite (optional_join_skipped _ _ _ _ _ Hs) in H.
  injection H as <- <-. auto.
Qed.

(** ** What the joins keep of the accumulator *)

Lemma In_drop_position {A : Type} (k : nat) (l : list A) (x : A) :
  In x (drop_position k l) -> In x l.
Proof.
  unfold drop_position. rewrite in_app_iff, <- !list_elem_of_In.
  intros [H|H]; [exact (subseteq_take k l x H) | exact (subseteq_drop (S k) l x H)].
Qed.

Lemma renamer_no_suffix (to_rename : list string) (x : string) :
  renamer to_rename "" x = x.
Proof. unfold renamer. rewrite append_empty. destruct (has_label x to_rename); reflexivity. Qed.

Lemma merge_left_keeps (left right : DataFrame) (key lsuffix rsuffix : string)
    (merged : DataFrame) :
  merge_left left right key (lsuffix, rsuffix) = Ok merged ->
  (forall k c, columns left !! k = Some c ->
     (lsuffix = ""
      \/ forall kr, positions key (columns right) = [kr] ->
           has_label c (drop_position kr (columns right)) = false) ->
     columns merged !! k = Some c)
  /\ (forall x, In x (rows merged) -> exists l, In l (rows left) /\ l `prefix_of` x)
  /\ (forall l, In l (rows left) -> exists x, In x (rows merged) /\ l `prefix_of` x).
Proof.
  intros Hm.
  destruct (merge_left_Ok_inv _ _ _ _ _ _ Hm) as (kl & kr & Hkl & Hkr & ->).
  cbn [columns rows]. split; [|split].
  - intros k c Hk Hc. apply lookup_app_l_Some. rewrite lookup_map, Hk. cbn [fmap option_fmap option_map].
    f_equal. destruct Hc as [-> | Hc]; [apply renamer_no_suffix|].
    unfold renamer. rewrite has_label_filter; [reflexivity|]. apply Hc. exact Hkr.
  - intros x Hx. apply in_flat_map in Hx. destruct Hx as (l & Hl & Hx).
    exists l. split; [exact Hl|].
    destruct (proj2 (joined_rows_spec _ _ _ _ _) x Hx) as [-> | (r & _ & ->)];
      apply prefix_app_r; reflexivity.
  - intros l Hl.
    destruct (joined_rows_spec kl kr (length (drop_position kr (columns right)))
                (rows right) l) as [Hne Hall].
    destruct (joined_rows kl kr _ (rows right) l) as [|x xs] eqn:E; [congruence|].
    exists x. split.
    + apply in_flat_map. exists l. split; [exact Hl|]. rewrite E. left. reflexivity.
    + destruct (Hall x (or_introl eq_refl)) as [-> | (r & _ & ->)];
        apply prefix_app_r; reflexivity.
Qed.

Lemma keeps_cells_refl (reference : DataFrame) : keeps_cells reference reference.
Proof.
  split; [auto|]. split; intros x Hx; exists x; split; auto.
Qed.

Lemma keeps_cells_merge (reference left right merged : DataFrame)
    (lsuffix rsuffix : string) :
  keeps_cells reference left ->
  merge_left left right "day" (lsuffix, rsuffix) = Ok merged ->
  (lsuffix = ""
   \/ forall c kr, c <> "stress_high" -> c <> "recovery_high" ->
        positions "day" (columns right) = [kr] ->
        has_label c (drop_position kr (columns right)) = false) ->
  keeps_cells reference merged.
Proof.
  intros (Hc & Hin & Hout) Hm Hside.
  destruct (merge_left_keeps _ _ _ _ _ _ Hm) as (Mc & Min & Mout).
  split; [|split].
  - intros k c Hk H1 H2. apply Mc; [apply Hc; assumption|].
    destruct Hside as [-> | Hside]; [left; reflexivity|].
    right. intros kr Hkr. apply Hside; assumption.
  - intros x Hx. destruct (Min x Hx) as (l & Hl & Hlx).
    destruct (Hin l Hl) as (l0 & Hl0 & Hl0l). exists l0. split; [exact Hl0|].
    by trans l.
  - intros l0 Hl0. destruct (Hout l0 Hl0) as (l & Hl & Hl0l).
    destruct (Mout l Hl) as (x & Hx & Hlx). exists x. split; [exact Hx|].
    by trans l.
Qed.

Lemma positions_from_nth (i : nat) (c : string) (cols : list string) (k : nat) :
  In k (positions_from i c cols) -> nth (k - i) cols "" = c.
Proof.
  revert i. induction cols as [|x cols IH]; intros i; simpl; [tauto|].
  destruct (String.eqb c x) eqn:E.
  - intros [<-|H].
    + rewrite Nat.sub_diag. apply String.eqb_eq in E. congruence.
    + pose proof (positions_from_bounds _ _ _ _ H) as Hb.
      replace (k - i)%nat with (S (k - S i)) by lia. apply IH. exact H.
  - intros H. pose proof (positions_from_bounds _ _ _ _ H) as Hb.
    replace (k - i)%nat with (S (k - S i)) by lia. apply IH. exact H.
Qed.

Lemma getitem_columns_labels (df picked : DataFrame) (labels : list string) (c : string) :
  getitem_columns df labels = Ok picked -> In c (columns picked) -> In c labels.
Proof.
  unfold getitem_columns. destruct (List.filter _ labels); [|discriminate].
  intros H. injection H as <-. cbn [columns]. intros Hc.
  apply in_map_iff in Hc. destruct Hc as (k & <- & Hk).
  apply in_concat in Hk. destruct Hk as (ks & Hks & Hk).
  apply in_map_iff in Hks. destruct Hks as (l & <- & Hl).
  unfold positions in Hk. apply positions_from_nth in Hk.
  rewrite Nat.sub_0_r in Hk. rewrite Hk. exact Hl.
Qed.

Lemma extends_join_renamed (reference : DataFrame) (w w' : World) (df src df' : ref)
    (new_label rsuffix : string) :
  extends reference w df ->
  join_renamed df src new_label rsuffix w = (Ok df', w') ->
  extends reference w' df'.
Proof.
  intros (acc & Hacc & Hk) H.
  destruct (join_renamed_Ok_inv _ _ _ _ _ _ _ _ Hacc H)
    as (source & picked & merged & _ & _ & Hm & Hnew & _).
  exists merged. split; [exact Hnew|].
  eapply keeps_cells_merge; [exact Hk | exact Hm | left; reflexivity].
Qed.

Lemma extends_join_stress (reference : DataFrame) (w w' : World) (df src df' : ref) :
  extends reference w df ->
  join_stress df src w = (Ok df', w') ->
  extends reference w' df'.
Proof.
  intros (acc & Hacc & Hk) H.
  destruct (join_stress_Ok_inv _ _ _ _ _ _ Hacc H)
    as (source & picked & merged & _ & Hp & Hm & Hnew & _).
  exists merged. split; [exact Hnew|].
  eapply keeps_cells_merge; [exact Hk | exact Hm |].
  right. intros c kr H1 H2 Hkr.
  destruct (String.eqb c "day") eqn:E.
  - apply String.eqb_eq in E. subst c. apply (key_not_in_rest _ _ _ Hkr).
  - apply String.eqb_neq in E. apply has_label_false. intros Hc.
    apply In_drop_position in Hc.
    apply (getitem_columns_labels _ _ _ _ Hp) in Hc. simpl in Hc.
    destruct Hc as [Hc|[Hc|[Hc|[]]]]; congruence.
Qed.

Lemma extends_optional_join (reference : DataFrame) (data_dict : gmap string ref)
    (name : string) (join : ref -> M ref) (w w' : World) (df df' : ref) :
  (forall src, join src w = (Ok df', w') -> extends reference w' df') ->
  extends reference w df ->
  optional_join data_dict name join df w = (Ok df', w') ->
  extends reference w' df'.
Proof.
  intros Hjoin Hacc H.
  destruct (optional_join_Ok_inv _ _ _ _ _ _ _ H)
    as [(-> & -> & _) | (src & source & _ & _ & _ & Hj)]; [exact Hacc|].
  exact (Hjoin src Hj).
Qed.

(** X16.  Whenever the merger returns a table, the cells of the readiness
    table are in it as they were: every column of readiness is at the
    same place under the same label (only a label [stress_high] or
    [recovery_high] may have been given a suffix), every row of the
    result begins with a row of readiness, and every row of readiness
    begins a row of the result. *)
Theorem create_feature_summary_keeps_readiness_cells (self : OuraDataCollector)
    (data_dict : gmap string ref) (output_dir : string) (w w' : World) (r : ref) :
  create_feature_summary self data_dict output_dir w = (Ok (Some r), w') ->
  exists (readiness_ref : ref) (readiness features : DataFrame),
    data_dict !! "daily_readiness" = Some readiness_ref
    /\ heap w !! readiness_ref = Some readiness
    /\ heap w' !! r = Some features
    /\ (forall k c, columns readiness !! k = Some c ->
          c <> "stress_high" -> c <> "recovery_high" -> columns features !! k = Some c)
    /\ (forall x, In x (rows features) ->
          exists l, In l (rows readiness) /\ l `prefix_of` x)
    /\ (forall l, In l (rows readiness) ->
          exists x, In x (rows features) /\ l `prefix_of` x).
Proof.
  intros H.
  destruct (create_feature_summary_Ok_inv _ _ _ _ _ _ H)
    as (rr & rs & readiness & sleep & df0 & df1 & df2 & w0 & w1 & w2 & w3
        & Hrr & Hreadiness & _ & _ & _ & Hdf0 & Hstep1 & Hstep2 & Hstep3 & Hsave).
  assert (E0 : extends readiness w0 df0).
  { exists readiness. split; [exact Hdf0 | apply keeps_cells_refl]. }
  assert (E1 : extends readiness w1 df1).
  { destruct (negb (empty sleep)).
    - eapply extends_join_renamed; [exact E0 | exact Hstep1].
    - apply ret_Ok_inv in Hstep1. destruct Hstep1 as [-> ->]. exact E0. }
  assert (E2 : extends readiness w2 df2).
  { eapply extends_optional_join; [| exact E1 | exact Hstep2].
    intros src Hj. eapply extends_join_renamed; [exact E1 | exact Hj]. }
  assert (E3 : extends readiness w3 r).
  { eapply extends_optional_join; [| exact E2 | exact Hstep3].
    intros src Hj. eapply extends_join_stress; [exact E2 | exact Hj]. }
  destruct E3 as (features & Hfeatures & Hk).
  apply (save_summary_Ok_inv _ _ _ _ _ _ Hfeatures) in Hsave. destruct Hsave as [_ <-].
  exists rr, readiness, features. split; [exact Hrr|]. split; [exact Hreadiness|].
  split; [exact Hfeatures | exact Hk].
Qed.

Lemma create_feature_summary_keeps_readiness_cells_witness :
  let run := create_feature_summary (__init__ []) sample_dict "oura_data" sample_world in
  exists (readiness_ref : ref) (readiness features : DataFrame),
    sample_dict !! "daily_readiness" = Some readiness_ref
    /\ heap sample_world !! readiness_ref = Some readiness
    /\ heap (snd run) !! 7%nat = Some features
    /\ (forall k c, columns readiness !! k = Some c ->
          c <> "stress_high" -> c <> "recovery_high" -> columns features !! k = Some c)
    /\ (forall x, In x (rows features) ->
          exists l, In l (rows readiness) /\ l `prefix_of` x)
    /\ (forall l, In l (rows readiness) ->
          exists x, In x (rows features) /\ l `prefix_of` x).
Proof.
  intros run.
  refine (create_feature_summary_keeps_readiness_cells (__init__ []) sample_dict "oura_data"
            sample_world (snd run) 7%nat _).
  vm_compute. reflexivity.
Defined.

(** ** The merger with nothing to join *)

(** X18.  When the output directory exists, with an empty sleep table, and
    activity and stress absent or empty, the merger joins nothing: it
    returns a new table object that is a copy of the readiness table,
    cell for cell, writes it to the summary file and reports its rows.
    (The merger does not create the output directory; without it the
    merger raises.) *)
Theorem create_feature_summary_nothing_to_join (self : OuraDataCollector)
    (data_dict : gmap string ref) (output_dir : string) (w : World)
    (rr rs : ref) (readiness sleep : DataFrame) :
  path_is_dir w output_dir = true ->
  data_dict !! "daily_readiness" = Some rr -> heap w !! rr = Some readiness ->
  data_dict !! "daily_sleep" = Some rs -> heap w !! rs = Some sleep ->
  empty sleep = true ->
  skipped w data_dict "daily_activity" -> skipped w data_dict "daily_stress" ->
  create_feature_summary self data_dict output_dir w =
    (Ok (Some (length (heap w))),
     mkWorld (network w) (today w) (stdin w) (heap w ++ [readiness])
       (<[os_path_join output_dir "daily_features.csv" := readiness]> (files w)) (dirs w)
       (stdout w ++ [CreatedSummary (len readiness)
                       (os_path_join output_dir "daily_features.csv")])
       (sent w)).
Proof.
  intros Hdir Dr Hrr Ds Hrs He Hactivity Hstress.
  rewrite create_feature_summary_steps.
  rewrite (dict_contains_Some _ _ _ Dr), (dict_contains_Some _ _ _ Ds).
  change (negb true || negb true) with false. cbv iota.
  rewrite bind_run, (dict_getitem_run _ _ _ _ Dr); cbv beta iota.
  rewrite bind_run, (df_copy_run _ _ _ Hrr), new_run; cbv beta iota.
  set (w0 := mkWorld _ _ _ _ _ _ _ _).
  assert (Hw0 : only_allocates w w0).
  { unfold only_allocates, w0. cbn. repeat split. by apply prefix_app_r. }
  rewrite bind_run, (dict_getitem_run _ _ _ _ Ds); cbv beta iota.
  rewrite bind_run, (df_empty_run _ _ _ (only_allocates_lookup _ _ _ _ Hw0 Hrs)).
  cbv beta iota. rewrite He. cbn [negb].
  rewrite bind_run. unfold mret at 1, M_ret at 1. cbv beta iota.
  rewrite bind_run, (optional_join_skipped _ _ _ _ _ (skipped_later _ _ _ _ Hw0 Hactivity)).
  cbv beta iota.
  rewrite bind_run, (optional_join_skipped _ _ _ _ _ (skipped_later _ _ _ _ Hw0 Hstress)).
  cbv beta iota.
  rewrite save_summary_run.
  assert (Hnew : heap w0 !! length (heap w) = Some readiness).
  { unfold w0. cbn [heap]. apply list_lookup_middle. reflexivity. }
  match goal with
  | |- match ?x with _ => _ end = _ =>
      replace x with (Some readiness) by (symmetry; exact Hnew)
  end.
  rewrite (summary_file_writable w0 output_dir); [reflexivity|].
  rewrite (path_is_dir_same_dirs w); [exact Hdir | reflexivity].
Qed.

Lemma create_feature_summary_nothing_to_join_witness :
  create_feature_summary (__init__ [])
    (<["daily_readiness" := 0%nat]> (<["daily_sleep" := 1%nat]> ∅)) "oura_data"
    (mkWorld (fun _ => Fails ConnectionError) 739924 []
       [sample_readiness; DataFrame_empty] ∅ {["oura_data"]} [] []) =
    (Ok (Some 2%nat),
     mkWorld (fun _ => Fails ConnectionError) 739924 []
       ([sample_readiness; DataFrame_empty] ++ [sample_readiness])
       (<[os_path_join "oura_data" "daily_features.csv" := sample_readiness]> ∅)
       {["oura_data"]}
       ([] ++ [CreatedSummary (len sample_readiness)
                 (os_path_join "oura_data" "daily_features.csv")])
       []).
Proof.
  refine (create_feature_summary_nothing_to_join (__init__ [])
            (<["daily_readiness" := 0%nat]> (<["daily_sleep" := 1%nat]> ∅)) "oura_data"
            (mkWorld (fun _ => Fails ConnectionError) 739924 []
               [sample_readiness; DataFrame_empty] ∅ {["oura_data"]} [] [])
            0%nat 1%nat sample_readiness DataFrame_empty _ _ _ _ _ _ _ _).
  - vm_compute. reflexivity.
  - reflexivity.
  - reflexivity.
  - reflexivity.
  - reflexivity.
  - reflexivity.
  - intros r Hr. vm_compute in Hr. discriminate Hr.
  - intros r Hr. vm_compute in Hr. discriminate Hr.
Defined.



(** ** Readiness joined with sleep only *)

Lemma create_feature_summary_sleep_only (self : OuraDataCollector)
    (data_dict : gmap string ref) (output_dir : string) (w w' : World)
    (r rr rs : ref) (readiness sleep : DataFrame) :
  create_feature_summary self data_dict output_dir w = (Ok (Some r), w') ->
  data_dict !! "daily_readiness" = Some rr -> heap w !! rr = Some readiness ->
  data_dict !! "daily_sleep" = Some rs -> heap w !! rs = Some sleep ->
  empty sleep = false ->
  skipped w data_dict "daily_activity" -> skipped w data_dict "daily_stress" ->
  exists picked features,
    getitem_columns sleep ["day"; "score"; "contributors"] = Ok picked
    /\ merge_left readiness (rename picked "score" "sleep_score") "day" ("", "_sleep")
       = Ok features
    /\ heap w' !! r = Some features.
Proof.
  intros H Dr Hrr Ds Hrs He Hactivity Hstress.
  destruct (create_feature_summary_Ok_inv _ _ _ _ _ _ H)
    as (rr' & rs' & readiness' & sleep' & df0 & df1 & df2 & w0 & w1 & w2 & w3
        & Hrr' & Hreadiness' & Hrs' & Hsleep' & Hw0 & Hdf0 & Hstep1 & Hstep2 & Hstep3 & Hsave).
  assert (rr' = rr) by congruence. assert (rs' = rs) by congruence. subst rr' rs'.
  pose proof (same_table _ _ _ _ Hreadiness' Hrr). subst readiness'.
  pose proof (same_table _ _ _ _ Hsleep' (only_allocates_lookup _ _ _ _ Hw0 Hrs)).
  subst sleep'.
  rewrite He in Hstep1. cbn [negb] in Hstep1.
  destruct (join_renamed_Ok_inv _ _ _ _ _ _ _ _ Hdf0 Hstep1)
    as (source & picked & merged & Hsrc & Hp & Hm & Hnew & Hw1).
  pose proof (same_table _ _ _ _ Hsrc (only_allocates_lookup _ _ _ _ Hw0 Hrs)).
  subst source.
  pose proof (only_allocates_trans _ _ _ Hw0 Hw1) as Hw01.
  destruct (optional_join_skipped_inv _ _ _ _ _ _ _
              (skipped_later _ _ _ _ Hw01 Hactivity) Hstep2) as [-> ->].
  destruct (optional_join_skipped_inv _ _ _ _ _ _ _
              (skipped_later _ _ _ _ Hw01 Hstress) Hstep3) as [-> ->].
  apply (save_summary_Ok_inv _ _ _ _ _ _ Hnew) in Hsave. destruct Hsave as [_ <-].
  exists picked, merged. auto.
Qed.

Lemma positions_from_absent (i : nat) (c : string) (cols : list string) :
  ~ In c cols -> positions_from i c cols = [].
Proof.
  revert i. induction cols as [|x cols IH]; intros i H; simpl; [reflexivity|].
  destruct (String.eqb c x) eqn:E.
  - apply String.eqb_eq in E. subst x. exfalso. apply H. left. reflexivity.
  - apply IH. intros Hc. apply H. right. exact Hc.
Qed.

Lemma positions_from_NoDup (i : nat) (c : string) (cols : list string) :
  NoDup cols -> In c cols ->
  exists k, positions_from i c cols = [k] /\ nth (k - i) cols "" = c.
Proof.
  revert i. induction cols as [|x cols IH]; intros i Hnd Hc; [destruct Hc|].
  apply NoDup_cons in Hnd. destruct Hnd as [Hx Hnd]. rewrite list_elem_of_In in Hx.
  simpl. destruct (String.eqb c x) eqn:E.
  - apply String.eqb_eq in E. subst x. exists i.
    rewrite (positions_from_absent _ _ _ Hx), Nat.sub_diag. auto.
  - apply String.eqb_neq in E. destruct Hc as [Hc|Hc]; [congruence|].
    destruct (IH (S i) Hnd Hc) as (k & Hk & Hn). exists k. split; [exact Hk|].
    assert (Hb : In k (positions_from (S i) c cols)) by (rewrite Hk; left; reflexivity).
    apply positions_from_bounds in Hb.
    replace (k - i)%nat with (S (k - S i)) by lia. exact Hn.
Qed.

(** The projection of a table whose labels are all different. *)
Lemma getitem_columns_NoDup (df picked : DataFrame) (labels : list string) :
  NoDup (columns df) ->
  getitem_columns df labels = Ok picked ->
  picked = mkDataFrame labels (map (fun r => map (fun c => key_of df c r) labels) (rows df)).
Proof.
  intros Hnd. unfold getitem_columns.
  destruct (List.filter _ labels) as [|m ms] eqn:Hf; [|discriminate].
  intros H. injection H as <-.
  assert (Hall : forall c, In c labels -> In c (columns df)).
  { intros c Hc. apply has_label_In.
    destruct (has_label c (columns df)) eqn:E; [reflexivity|]. exfalso.
    assert (Hin : In c (List.filter (fun l => negb (has_label l (columns df))) labels)).
    { apply filter_In. rewrite E. auto. }
    rewrite Hf in Hin. destruct Hin. }
  clear Hf. f_equal.
  - induction labels as [|c labels IH]; [reflexivity|].
    cbn [map concat]. rewrite map_app, IH by (intros; apply Hall; right; assumption).
    destruct (positions_from_NoDup 0 c (columns df) Hnd (Hall c (or_introl eq_refl)))
      as (k & Hk & Hn).
    unfold positions. rewrite Hk. cbn [map app]. rewrite Nat.sub_0_r in Hn.
    rewrite Hn. reflexivity.
  - apply map_ext. intros r.
    induction labels as [|c labels IH]; [reflexivity|].
    cbn [map concat]. rewrite map_app, IH by (intros; apply Hall; right; assumption).
    destruct (positions_from_NoDup 0 c (columns df) Hnd (Hall c (or_introl eq_refl)))
      as (k & Hk & _).
    unfold key_of at 2, positions. rewrite Hk. reflexivity.
Qed.

Lemma has_label_filter_true (c : string) (p : string -> bool) (l : list string) :
  p c = true -> has_label c (List.filter p l) = has_label c l.
Proof.
  intros Hp. induction l as [|x l IH]; [reflexivity|]. cbn [List.filter].
  destruct (p x) eqn:E.
  - unfold has_label in *. cbn [existsb]. rewrite IH. reflexivity.
  - rewrite IH. unfold has_label. cbn [existsb].
    destruct (String.eqb c x) eqn:Ecx; [|reflexivity].
    apply String.eqb_eq in Ecx. congruence.
Qed.

(** The result of the sleep join for a sleep table whose labels are all
    different. *)
Lemma sleep_join_result (readiness sleep picked features : DataFrame) :
  NoDup (columns sleep) ->
  getitem_columns sleep ["day"; "score"; "contributors"] = Ok picked ->
  merge_left readiness (rename picked "score" "sleep_score") "day" ("", "_sleep")
    = Ok features ->
  exists kl,
    positions "day" (columns readiness) = [kl]
    /\ features =
       mkDataFrame
         (columns readiness
          ++ [ if has_label "sleep_score" (columns readiness)
               then "sleep_score_sleep" else "sleep_score";
               if has_label "contributors" (columns readiness)
               then "contributors_sleep" else "contributors" ])
         (flat_map
            (joined_rows kl 0 2
               (map (fun r => [key_of sleep "day" r; key_of sleep "score" r;
                               key_of sleep "contributors" r]) (rows sleep)))
            (rows readiness)).
Proof.
  intros Hnd Hp Hm.
  rewrite (getitem_columns_NoDup _ _ _ Hnd Hp) in Hm.
  set (cells := map _ (rows sleep)) in Hm.
  change (rename (mkDataFrame ["day"; "score"; "contributors"] cells) "score" "sleep_score")
    with (mkDataFrame ["day"; "sleep_score"; "contributors"] cells) in Hm.
  destruct (merge_left_Ok_inv _ _ _ _ _ _ Hm) as (kl & kr & Hkl & Hkr & ->).
  cbn [columns rows] in *.
  change (positions "day" ["day"; "sleep_score"; "contributors"]) with [0%nat] in Hkr.
  injection Hkr as <-. exists kl. split; [exact Hkl|].
  change (drop_position 0 ["day"; "sleep_score"; "contributors"])
    with ["sleep_score"; "contributors"].
  cbn [length map]. f_equal. f_equal.
  - rewrite <- (map_id (columns readiness)) at 3. apply map_ext. intros c.
    apply renamer_no_suffix.
  - unfold renamer. rewrite !has_label_filter_true by reflexivity.
    destruct (has_label "sleep_score" (columns readiness)),
      (has_label "contributors" (columns readiness)); reflexivity.
Qed.

(** [json_eqb] accepts equal values. *)
Lemma json_eqb_refl : forall a : json, json_eqb a a = true.
Proof.
  fix IH 1. intros a. destruct a as [| x | x | m e | s | l | l]; simpl.
  - reflexivity.
  - destruct x; reflexivity.
  - apply Z.eqb_refl.
  - rewrite !Z.eqb_refl. reflexivity.
  - apply String.eqb_refl.
  - induction l as [|x xs IHl]; [reflexivity|]. rewrite IH, IHl. reflexivity.
  - induction l as [|[k x] xs IHl]; [reflexivity|].
    rewrite String.eqb_refl, IH, IHl. reflexivity.
Qed.

Lemma filter_none {A : Type} (p : A -> bool) (l : list A) :
  (forall x, In x l -> p x = false) -> List.filter p l = [].
Proof.
  induction l as [|x l IH]; intros H; [reflexivity|]. cbn [List.filter].
  rewrite (H x (or_introl eq_refl)). apply IH. intros y Hy. apply H. right. exact Hy.
Qed.

Lemma key_of_in_column (df : DataFrame) (key : string) (row : list json) :
  has_label key (columns df) = true -> In row (rows df) ->
  In (key_of df key row) (column df key).
Proof.
  intros Hk Hrow. unfold key_of, column, positions.
  destruct (positions_from_head 0 key (columns df) Hk) as (k & rest & -> & _).
  apply in_map_iff. exists row. auto.
Qed.

Lemma getitem_columns_has_label (df picked : DataFrame) (labels : list string) (l : string) :
  getitem_columns df labels = Ok picked -> In l labels -> has_label l (columns df) = true.
Proof.
  intros Hp Hl. destruct (has_label l (columns df)) eqn:E; [reflexivity|].
  destruct (getitem_columns_missing df labels l Hl E) as (missing & Hm & _).
  rewrite Hp in Hm. discriminate Hm.
Qed.

(** X19.  When the merger returns after joining sleep only, to a sleep table
    whose labels are all different, the labels of the result are those
    of the readiness table followed by [sleep_score] and [contributors];
    either of the two that readiness has already is given the suffix
    [_sleep], and the labels of readiness stay as they are. *)
Theorem create_feature_summary_sleep_labels (self : OuraDataCollector)
    (data_dict : gmap string ref) (output_dir : string) (w w' : World)
    (r rr rs : ref) (readiness sleep : DataFrame) :
  create_feature_summary self data_dict output_dir w = (Ok (Some r), w') ->
  data_dict !! "daily_readiness" = Some rr -> heap w !! rr = Some readiness ->
  data_dict !! "daily_sleep" = Some rs -> heap w !! rs = Some sleep ->
  empty sleep = false -> NoDup (columns sleep) ->
  skipped w data_dict "daily_activity" -> skipped w data_dict "daily_stress" ->
  exists features,
    heap w' !! r = Some features
    /\ columns features =
       columns readiness
       ++ [ if has_label "sleep_score" (columns readiness)
            then "sleep_score_sleep" else "sleep_score";
            if has_label "contributors" (columns readiness)
            then "contributors_sleep" else "contributors" ].
Proof.
  intros H Dr Hrr Ds Hrs He Hnd Hactivity Hstress.
  destruct (create_feature_summary_sleep_only _ _ _ _ _ _ _ _ _ _
              H Dr Hrr Ds Hrs He Hactivity Hstress) as (picked & features & Hp & Hm & Hf).
  destruct (sleep_join_result _ _ _ _ Hnd Hp Hm) as (kl & _ & ->).
  eexists. split; [exact Hf | reflexivity].
Qed.

Lemma create_feature_summary_sleep_labels_witness :
  let run := create_feature_summary (__init__ []) sample_dict "oura_data" sample_world in
  exists features,
    heap (snd run) !! 7%nat = Some features
    /\ columns features =
       columns sample_readiness
       ++ [ if has_label "sleep_score" (columns sample_readiness)
            then "sleep_score_sleep" else "sleep_score";
            if has_label "contributors" (columns sample_readiness)
            then "contributors_sleep" else "contributors" ].
Proof.
  intros run.
  refine (create_feature_summary_sleep_labels (__init__ []) sample_dict "oura_data"
            sample_world (snd run) 7%nat 0%nat 1%nat sample_readiness sample_sleep
            _ _ _ _ _ _ _ _ _).
  - vm_compute. reflexivity.
  - reflexivity.
  - reflexivity.
  - reflexivity.
  - reflexivity.
  - reflexivity.
  - apply (bool_decide_unpack (NoDup _)). vm_compute. reflexivity.
  - intros r Hr. vm_compute in Hr. discriminate Hr.
  - intros r Hr. vm_compute in Hr. discriminate Hr.
Defined.

(** The rows of the sleep join, for a sleep table whose labels are all
    different. *)
Lemma sleep_join_rows (readiness sleep picked features : DataFrame) :
  NoDup (columns sleep) ->
  getitem_columns sleep ["day"; "score"; "contributors"] = Ok picked ->
  merge_left readiness (rename picked "score" "sleep_score") "day" ("", "_sleep")
    = Ok features ->
  forall l, In l (rows readiness) ->
    (~ In (key_of readiness "day" l) (column sleep "day") ->
     In (l ++ [JNull; JNull]) (rows features))
    /\ (forall s, In s (rows sleep) ->
          key_of sleep "day" s = key_of readiness "day" l ->
          In (l ++ [key_of sleep "score" s; key_of sleep "contributors" s])
             (rows features)).
Proof.
  intros Hnd Hp Hm.
  destruct (sleep_join_result _ _ _ _ Hnd Hp Hm) as (kl & Hkl & ->).
  pose proof (getitem_columns_has_label _ _ _ "day" Hp ltac:(simpl; tauto)) as Hday.
  cbn [rows].
  intros l Hl.
  assert (Hkey : key_of readiness "day" l = at_position l kl).
  { unfold key_of. rewrite Hkl. reflexivity. }
  rewrite Hkey. split.
  - intros Hno. apply in_flat_map. exists l. split; [exact Hl|].
    unfold joined_rows. rewrite filter_none; [left; reflexivity|].
    intros x Hx. apply in_map_iff in Hx. destruct Hx as (s & <- & Hs).
    destruct (json_eqb (at_position l kl) _) eqn:E; [|reflexivity].
    exfalso. apply Hno. apply json_eqb_eq in E. rewrite E.
    apply key_of_in_column; assumption.
  - intros s Hs Hsame. apply in_flat_map. exists l. split; [exact Hl|].
    unfold joined_rows.
    set (cells := fun r : list json =>
                    [key_of sleep "day" r; key_of sleep "score" r;
                     key_of sleep "contributors" r]).
    assert (Hmatch : In (cells s)
              (List.filter (fun x => json_eqb (at_position l kl) (at_position x 0))
                 (map cells (rows sleep)))).
    { apply filter_In. split; [apply in_map; exact Hs|].
      change (at_position (cells s) 0) with (key_of sleep "day" s).
      rewrite Hsame. apply json_eqb_refl. }
    destruct (List.filter _ (map cells (rows sleep))) as [|m ms]; [destruct Hmatch|].
    apply in_map_iff. exists (cells s). split; [reflexivity | exact Hmatch].
Qed.

(** X20.  When the merger returns after joining sleep only, to a sleep table
    whose labels are all different, the rows of the result are those of
    a left join on the day.  A row of readiness whose day is no day of
    the sleep table is in the result with two missing cells after it; a
    row of readiness is in the result, followed by the score and the
    contributors of a sleep row, for every sleep row of the same day.
    The two are as they are in the sleep table when every day of
    readiness has a sleep row; otherwise they are so unless they are
    integers, which pandas then stores as floating-point numbers. *)
Theorem create_feature_summary_sleep_cells (self : OuraDataCollector)
    (data_dict : gmap string ref) (output_dir : string) (w w' : World)
    (r rr rs : ref) (readiness sleep : DataFrame) :
  create_feature_summary self data_dict output_dir w = (Ok (Some r), w') ->
  data_dict !! "daily_readiness" = Some rr -> heap w !! rr = Some readiness ->
  data_dict !! "daily_sleep" = Some rs -> heap w !! rs = Some sleep ->
  empty sleep = false -> NoDup (columns sleep) ->
  skipped w data_dict "daily_activity" -> skipped w data_dict "daily_stress" ->
  exists features,
    heap w' !! r = Some features
    /\ (forall l, In l (rows readiness) ->
          (~ In (key_of readiness "day" l) (column sleep "day") ->
           In (l ++ [JNull; JNull]) (rows features))
          /\ (forall s, In s (rows sleep) ->
                key_of sleep "day" s = key_of readiness "day" l ->
                exists score contributors,
                  In (l ++ [score; contributors]) (rows features)
                  /\ stores score (key_of sleep "score" s)
                  /\ stores contributors (key_of sleep "contributors" s)))
    /\ ((forall l, In l (rows readiness) ->
           In (key_of readiness "day" l) (column sleep "day")) ->
        forall l s, In l (rows readiness) -> In s (rows sleep) ->
          key_of sleep "day" s = key_of readiness "day" l ->
          In (l ++ [key_of sleep "score" s; key_of sleep "contributors" s])
             (rows features)).
Proof.
  intros H Dr Hrr Ds Hrs He Hnd Hactivity Hstress.
  destruct (create_feature_summary_sleep_only _ _ _ _ _ _ _ _ _ _
              H Dr Hrr Ds Hrs He Hactivity Hstress) as (picked & features & Hp & Hm & Hf).
  pose proof (sleep_join_rows _ _ _ _ Hnd Hp Hm) as Hrows.
  exists features. split; [exact Hf|]. split.
  - intros l Hl. destruct (Hrows l Hl) as [Hnone Hsome]. split; [exact Hnone|].
    intros s Hs Hsame. eexists _, _. split; [exact (Hsome s Hs Hsame)|].
    split; intros _; reflexivity.
  - intros _ l s Hl Hs Hsame. exact (proj2 (Hrows l Hl) s Hs Hsame).
Qed.

Lemma create_feature_summary_sleep_cells_witness :
  let run := create_feature_summary (__init__ []) sample_dict "oura_data" sample_world in
  exists features,
    heap (snd run) !! 7%nat = Some features
    /\ (forall l, In l (rows sample_readiness) ->
          (~ In (key_of sample_readiness "day" l) (column sample_sleep "day") ->
           In (l ++ [JNull; JNull]) (rows features))
          /\ (forall s, In s (rows sample_sleep) ->
                key_of sample_sleep "day" s = key_of sample_readiness "day" l ->
                exists score contributors,
                  In (l ++ [score; contributors]) (rows features)
                  /\ stores score (key_of sample_sleep "score" s)
                  /\ stores contributors (key_of sample_sleep "contributors" s)))
    /\ ((forall l, In l (rows sample_readiness) ->
           In (key_of sample_readiness "day" l) (column sample_sleep "day")) ->
        forall l s, In l (rows sample_readiness) -> In s (rows sample_sleep) ->
          key_of sample_sleep "day" s = key_of sample_readiness "day" l ->
          In (l ++ [key_of sample_sleep "score" s; key_of sample_sleep "contributors" s])
             (rows features)).
Proof.
  intros run.
  refine (create_feature_summary_sleep_cells (__init__ []) sample_dict "oura_data"
            sample_world (snd run) 7%nat 0%nat 1%nat sample_readiness sample_sleep
            _ _ _ _ _ _ _ _ _).
  - vm_compute. reflexivity.
  - reflexivity.
  - reflexivity.
  - reflexivity.
  - reflexivity.
  - reflexivity.
  - apply (bool_decide_unpack (NoDup _)). vm_compute. reflexivity.
  - intros r Hr. vm_compute in Hr. discriminate Hr.
  - intros r Hr. vm_compute in Hr. discriminate Hr.
Defined.

(** ** The two scores of a day *)














(** The example of the specification, run where the output directory
    exists: the merger returns the one row with both scores. *)
Lemma create_feature_summary_example (self : OuraDataCollector)
    (output_dir : string) (w : World) (d : string) (c : json) (rr rs : ref) :
  path_is_dir w output_dir = true ->
  heap w !! rr = Some (example_readiness d) ->
  heap w !! rs = Some (example_sleep d c) ->
  exists (r : ref) (w' : World),
    create_feature_summary self (example_dict rr rs) output_dir w = (Ok (Some r), w')
    /\ heap w' !! r =
       Some (mkDataFrame ["day"; "score"; "sleep_score"; "contributors"]
               [[JStr d; JInt 80; JInt 70; c]]).
Proof.
  intros Hdir Hrr Hrs.
  destruct (example_dict_lookup rr rs) as (Dr & Ds & Da & Dt).
  destruct (df_copy_returns _ _ _ Hrr) as (df0 & w1 & E0 & Hdf0 & A0).
  pose proof (only_allocates_lookup _ _ _ _ A0 Hrs) as Hrs1.
  assert (Hp : getitem_columns (example_sleep d c) ["day"; "score"; "contributors"]
               = Ok (mkDataFrame ["day"; "score"; "contributors"] [[JStr d; JInt 70; c]]))
    by reflexivity.
  destruct (df_getitem_returns _ _ _ _ _ Hrs1 Hp) as (x & w2 & E1 & Hx & A1).
  destruct (df_copy_returns _ _ _ Hx) as (y & w3 & E2 & Hy & A2).
  destruct (df_rename_returns _ "score" "sleep_score" _ _ Hy) as (z & w4 & E3 & Hz & A3).
  assert (Hdf3 : heap w4 !! df0 = Some (example_readiness d)).
  { eapply only_allocates_lookup; [exact A3|].
    eapply only_allocates_lookup; [exact A2|].
    eapply only_allocates_lookup; [exact A1 | exact Hdf0]. }
  destruct (df_merge_returns _ _ _ _ _ _ _ _ Hdf3 Hz (example_merge d c))
    as (df1 & w5 & E4 & Hdf1 & A4).
  assert (Hd5 : dirs w5 = dirs w).
  { pose proof (only_allocates_trans _ _ _ A0
                 (only_allocates_trans _ _ _ A1
                    (only_allocates_trans _ _ _ A2
                       (only_allocates_trans _ _ _ A3 A4)))) as A.
    unfold only_allocates in A. tauto. }
  eexists df1, _. split.
  - rewrite create_feature_summary_steps.
    rewrite (dict_contains_Some _ _ _ Dr), (dict_contains_Some _ _ _ Ds).
    change (negb true || negb true) with false. cbv iota.
    rewrite bind_run, (dict_getitem_run _ _ _ _ Dr); cbv beta iota.
    rewrite bind_run, E0; cbv beta iota.
    rewrite bind_run, (dict_getitem_run _ _ _ _ Ds); cbv beta iota.
    rewrite bind_run, (df_empty_run _ _ _ Hrs1); cbv beta iota.
    change (empty (example_sleep d c)) with false. cbn [negb].
    unfold join_renamed.
    rewrite bind_run, bind_run, E1; cbv beta iota.
    rewrite bind_run, E2; cbv beta iota.
    rewrite bind_run, E3; cbv beta iota.
    rewrite E4; cbv beta iota.
    rewrite bind_run, optional_join_skipped
      by (intros r Hr; rewrite Da in Hr; discriminate Hr).
    cbv beta iota.
    rewrite bind_run, optional_join_skipped
      by (intros r Hr; rewrite Dt in Hr; discriminate Hr).
    cbv beta iota.
    rewrite save_summary_run.
    match goal with
    | |- match ?x with _ => _ end = _ =>
        replace x with (Some (mkDataFrame ["day"; "score"; "sleep_score"; "contributors"]
                                [[JStr d; JInt 80; JInt 70; c]]))
          by (symmetry; exact Hdf1)
    end.
    rewrite (summary_file_writable w5 output_dir); [reflexivity|].
    rewrite (path_is_dir_same_dirs w w5 _ Hd5). exact Hdir.
  - exact Hdf1.
Qed.





(** ** Runs that return *)

Lemma fetched_table_expected (irregular : json -> outcome DataFrame) (reply : Reply) :
  expected_reply reply -> exists df, fetched_table irregular reply = Ok df.
Proof.
  unfold expected_reply, fetched_table, client_result.
  destruct reply as [e|status content].
  - intros ->. eexists. reflexivity.
  - destruct ((400 <=? status) && (status <? 600)) eqn:E.
    { intros _. eexists. reflexivity. }
    intros [Hs|Hc].
    { exfalso. apply andb_false_iff in E.
      destruct E as [E|E]; [apply Z.leb_gt in E | apply Z.ltb_ge in E]; lia. }
    destruct content as [[| | | | | |members]|]; try destruct Hc;
      try (eexists; reflexivity).
    + unfold table_of_payload. destruct (truthy (JObj members)); [|eexists; reflexivity].
      unfold py_contains. rewrite H. eexists. reflexivity.
    + destruct H as (records & H). unfold table_of_payload.
      destruct (truthy (JObj members)); [|eexists; reflexivity].
      unfold py_contains, py_getitem. rewrite H, as_records_map. eexists. reflexivity.
Qed.



(** X15.  The merger never touches the file of a dataset: whatever it
    returns or raises, the six files [collect_all_data] writes in the
    same directory are as they were. *)
Theorem create_feature_summary_keeps_dataset_files (self : OuraDataCollector)
    (data_dict : gmap string ref) (output_dir : string) (w : World) (name : string) :
  In name (map fst dataset_endpoints) ->
  files (snd (create_feature_summary self data_dict output_dir w))
    !! dataset_file output_dir name
  = files w !! dataset_file output_dir name.
Proof.
  intros Hname.
  destruct (negb (dict_contains "daily_sleep" data_dict)
            || negb (dict_contains "daily_readiness" data_dict)) eqn:Hc.
  { unfold create_feature_summary. rewrite Hc. reflexivity. }
  destruct (create_feature_summary_structure self data_dict output_dir w Hc)
    as [(e & w1 & -> & Hw) | (df & w1 & Hw & ->)].
  - cbn [snd]. destruct Hw as (_ & _ & _ & _ & -> & _). reflexivity.
  - rewrite save_summary_run. destruct Hw as (_ & _ & _ & _ & Hf & _).
    destruct (heap w1 !! df); [destruct (writable w1 _)|]; cbn [snd files]; rewrite Hf;
      [|reflexivity|reflexivity].
    apply lookup_insert_ne. apply summary_file_is_no_dataset_file. exact Hname.
Qed.

Lemma create_feature_summary_keeps_dataset_files_witness :
  files (snd (create_feature_summary (__init__ []) sample_dict "oura_data" sample_world))
    !! dataset_file "oura_data" "daily_sleep"
  = files sample_world !! dataset_file "oura_data" "daily_sleep".
Proof.
  refine (create_feature_summary_keeps_dataset_files (__init__ []) sample_dict "oura_data"
            sample_world "daily_sleep" _).
  simpl. tauto.
Defined.

Lemma create_feature_summary_one_row_per_day_witness :
  let run := create_feature_summary (__init__ []) sample_dict "oura_data" sample_world in
  exists (readiness_ref : ref) (readiness features : DataFrame),
    sample_dict !! "daily_readiness" = Some readiness_ref
    /\ heap sample_world !! readiness_ref = Some readiness
    /\ heap (snd run) !! 7%nat = Some features
    /\ length (rows features) = length (rows readiness)
    /\ column features "day" = column readiness "day".
Proof.
  intros run.
  refine (create_feature_summary_one_row_per_day (__init__ []) sample_dict "oura_data"
            sample_world (snd run) 7%nat _ _ _ _ _).
  - repeat constructor.
  - intros r Hr. vm_compute in Hr. injection Hr as <-. exists sample_sleep.
    split; [reflexivity|]. vm_compute. apply NoDup_singleton.
  - intros r Hr. vm_compute in Hr. discriminate Hr.
  - intros r Hr. vm_compute in Hr. discriminate Hr.
  - vm_compute. reflexivity.
Defined.

Lemma create_feature_summary_sleep_KeyError_witness :
  exists missing,
    fst (create_feature_summary (__init__ []) (example_dict 0%nat 2%nat) "oura_data"
           sample_world) = Raised (KeyError missing)
    /\ In "score" missing.
Proof.
  refine (create_feature_summary_sleep_KeyError (__init__ []) (example_dict 0%nat 2%nat)
            "oura_data" sample_world 0%nat 2%nat sample_readiness sample_stress "score"
            _ _ _ _ _ _ _).
  - reflexivity.
  - reflexivity.
  - reflexivity.
  - reflexivity.
  - reflexivity.
  - simpl. tauto.
  - reflexivity.
Defined.

(** ** The entry point with a token *)

Lemma main_run (irregular : json -> outcome DataFrame) (w : World)
    (line : text) (rest : list text) :
  stdin w = line :: rest -> strip line <> [] ->
  main irregular w =
  (data ← collect_all_data irregular (__init__ (strip line)) 300 "oura_data";
   if negb (Nat.eqb (size data) 0) then
     create_feature_summary (__init__ (strip line)) data "oura_data";;
     print Complete;;
     print NextSteps;;
     mret tt
   else mret tt) (after_prompt w).
Proof.
  intros Hin Htoken. unfold main. rewrite bind_run. unfold input. rewrite Hin.
  cbv beta iota zeta.
  destruct (strip line) as [|c token] eqn:E; [congruence|].
  cbn [length Nat.eqb].
  rewrite bind_run. unfold print at 1. cbv beta iota.
  unfold after_prompt. rewrite Hin. cbn [tail network today stdin heap files dirs stdout sent].
  rewrite <- app_assoc. reflexivity.
Qed.

(** X22.  When the service cannot be reached, [main] still ends normally.  It
    asks the six endpoints with the token the operator typed, stripped
    of the blanks around it, shows for each dataset the error and that
    there is no data, and stops there: no file is written, the merger is
    not called and no completion message follows. *)
Theorem main_service_unavailable (irregular : json -> outcome DataFrame) (w : World)
    (line : text) (rest : list text) (failure : Request -> exn) :
  stdin w = line :: rest -> strip line <> [] ->
  valid_ordinal (today w) = true -> 300 < today w ->
  (forall rq, network w rq = Fails (failure rq)) ->
  (forall rq, is_RequestException (failure rq) = true) ->
  let start_date := isoformat (today w - 300) in
  let end_date := isoformat (today w) in
  let request endpoint :=
    mkRequest ("https://api.ouraring.com/v2/usercollection" +:+ "/" +:+ endpoint)
      (text_of_string "Bearer " ++ strip line)
      [("start_date", start_date); ("end_date", end_date)] in
  exists w',
    main irregular w = (Ok tt, w')
    /\ files w' = files w
    /\ sent w' = sent w ++ map request ["daily_sleep"; "daily_readiness"; "daily_activity";
                                        "heartrate"; "daily_stress"; "sleep"]
    /\ stdout w' =
       stdout w ++
       Prompt "Enter your Oura Personal Access Token: " :: Collecting
       :: FetchingRange start_date end_date
       :: flat_map (fun entry =>
                      [FetchingDataset (fst entry);
                       ErrorFetching (snd entry) (failure (request (snd entry)));
                       NoData (fst entry)])
            dataset_endpoints.
Proof.
  intros Hin Htoken Hv Hd Hnet Hexn start_date end_date request.
  rewrite (main_run irregular w line rest Hin Htoken).
  assert (Hstart : date_minus_days (today (after_prompt w)) 300 = Ok (today w - 300)).
  { apply date_minus_days_in_range; [exact Hv | simpl; lia]. }
  destruct (collect_all_data_idle irregular (__init__ (strip line)) 300 "oura_data"
              (after_prompt w) (today w - 300) default_directory_named Hstart)
    as (w' & Hrun & F & O & S).
  { intros name endpoint _. exists DataFrame_empty. split; [|reflexivity].
    cbn [after_prompt network]. rewrite Hnet. unfold fetched_table, client_result.
    rewrite Hexn. reflexivity. }
  exists w'. rewrite bind_run, Hrun. cbv beta iota.
  split; [reflexivity|]. split; [exact F|]. split.
  - rewrite S. reflexivity.
  - rewrite O. cbn [after_prompt stdout today]. rewrite <- app_assoc.
    f_equal. cbn [app]. do 3 f_equal.
    unfold idle_round, dataset_endpoints. cbn [flat_map fst snd network app].
    change (network (after_prompt w)) with (network w).
    rewrite !Hnet. unfold error_notices. rewrite !Hexn. reflexivity.
Qed.

Lemma main_service_unavailable_witness :
  let start_date := isoformat (739924 - 300) in
  let end_date := isoformat 739924 in
  let request endpoint :=
    mkRequest ("https://api.ouraring.com/v2/usercollection" +:+ "/" +:+ endpoint)
      (text_of_string "Bearer " ++ strip sample_token_line)
      [("start_date", start_date); ("end_date", end_date)] in
  exists w',
    main (fun _ => Raised ValueError) sample_offline_session = (Ok tt, w')
    /\ files w' = files sample_offline_session
    /\ sent w' = sent sample_offline_session
                 ++ map request ["daily_sleep"; "daily_readiness"; "daily_activity";
                                 "heartrate"; "daily_stress"; "sleep"]
    /\ stdout w' =
       stdout sample_offline_session ++
       Prompt "Enter your Oura Personal Access Token: " :: Collecting
       :: FetchingRange start_date end_date
       :: flat_map (fun entry =>
                      [FetchingDataset (fst entry);
                       ErrorFetching (snd entry) ((fun _ => Timeout) (request (snd entry)));
                       NoData (fst entry)])
            dataset_endpoints.
Proof.
  refine (main_service_unavailable (fun _ => Raised ValueError) sample_offline_session
            sample_token_line [] (fun _ => Timeout) _ _ _ _ _ _).
  - reflexivity.
  - vm_compute. discriminate.
  - reflexivity.
  - simpl. lia.
  - intros rq. reflexivity.
  - intros rq. reflexivity.
Defined.

Lemma main_without_required_dataset (irregular : json -> outcome DataFrame) (w : World)
    (line : text) (rest : list text)
    (required name endpoint : string) (nothing something : DataFrame) :
  stdin w = line :: rest -> strip line <> [] ->
  valid_ordinal (today w) = true -> 300 < today w ->
  let reply endpoint :=
    network w (request_of (__init__ (strip line)) endpoint
                 (window_params (isoformat (today w - 300)) (isoformat (today w)))) in
  (forall name' endpoint', In (name', endpoint') dataset_endpoints ->
     exists df, fetched_table irregular (reply endpoint') = Ok df) ->
  In required ["daily_sleep"; "daily_readiness"] ->
  fetched_table irregular (reply required) = Ok nothing -> empty nothing = true ->
  In (name, endpoint) dataset_endpoints ->
  fetched_table irregular (reply endpoint) = Ok something -> empty something = false ->
  exists w' shown,
    main irregular w = (Ok tt, w')
    /\ stdout w' = shown ++ [MissingRequired; Complete; NextSteps]
    /\ files w' !! os_path_join "oura_data" "daily_features.csv"
       = files w !! os_path_join "oura_data" "daily_features.csv".
Proof.
  intros Hin Htoken Hv Hd reply Hall Hreq Hnothing Hempty Hname Hsomething Hfull.
  rewrite (main_run irregular w line rest Hin Htoken).
  set (self := __init__ (strip line)) in *.
  assert (Hstart : date_minus_days (today (after_prompt w)) 300 = Ok (today w - 300)).
  { apply date_minus_days_in_range; [exact Hv | simpl; lia]. }
  rewrite bind_run, (collect_all_data_run _ _ _ _ _ _ default_directory_named Hstart).
  change (today (after_prompt w)) with (today w).
  set (w1 := mkWorld _ _ _ _ _ _ _ _).
  destruct (collect_loop_returns irregular self (isoformat (today w - 300))
              (isoformat (today w)) "oura_data" dataset_endpoints ∅ w1
              (dataset_files_writable "oura_data" w1 (made_directory_exists _ _)) Hall)
    as (data & w2 & Hloop).
  rewrite Hloop. cbv beta iota.
  destruct (collect_loop_spec irregular self _ _ "oura_data" dataset_endpoints
              dataset_names_NoDup (dataset_file_inj "oura_data") ∅ data w1 w2 Hloop)
    as (_ & _ & _ & Hfiles & Hrec).
  assert (Hmissing : data !! required = None).
  { assert (Hin' : In (required, required) dataset_endpoints).
    { simpl in Hreq. destruct Hreq as [<-|[<-|[]]]; simpl; tauto. }
    destruct (Hrec required required Hin') as (df & Hdf & Hr).
    change (network w1) with (network w) in Hdf. fold (reply required) in Hdf.
    assert (df = nothing) by congruence. subst df.
    unfold recorded in Hr. rewrite Hempty in Hr. destruct Hr as [Hr _].
    rewrite Hr. apply lookup_empty. }
  assert (Hsome : Nat.eqb (size data) 0 = false).
  { destruct (Hrec name endpoint Hname) as (df & Hdf & Hr).
    change (network w1) with (network w) in Hdf. fold (reply endpoint) in Hdf.
    assert (df = something) by congruence. subst df.
    unfold recorded in Hr. rewrite Hfull in Hr. destruct Hr as (r & Hr & _).
    apply Nat.eqb_neq. intros Hsize. apply map_size_empty_iff in Hsize.
    rewrite Hsize, lookup_empty in Hr. discriminate Hr. }
  rewrite Hsome. cbn [negb].
  assert (Hcfs : create_feature_summary self data "oura_data" w2 =
                 (Ok None,
                  mkWorld (network w2) (today w2) (stdin w2) (heap w2) (files w2) (dirs w2)
                    (stdout w2 ++ [MissingRequired]) (sent w2))).
  { unfold create_feature_summary.
    assert (Hc : negb (dict_contains "daily_sleep" data)
                 || negb (dict_contains "daily_readiness" data) = true).
    { unfold dict_contains. simpl in Hreq.
      destruct Hreq as [<-|[<-|[]]]; rewrite Hmissing; cbn [negb orb];
        [reflexivity | apply orb_true_r]. }
    rewrite Hc. reflexivity. }
  rewrite bind_run, Hcfs. cbv beta iota.
  eexists _, (stdout w2). split; [reflexivity|].
  cbn [stdout files]. rewrite <- !app_assoc. split; [reflexivity|].
  rewrite Hfiles; [reflexivity|].
  intros name' Hname'. apply summary_file_is_no_dataset_file. exact Hname'.
Qed.

Lemma fetched_table_records (irregular : json -> outcome DataFrame) (status : Z)
    (members : list (string * json)) (records : list (list (string * json))) :
  ~ (400 <= status < 600) ->
  assoc "data" members = Some (JArr (map JObj records)) ->
  fetched_table irregular (Responds status (Some (JObj members)))
  = Ok (DataFrame_of_records records).
Proof.
  intros Hstatus Hdata. unfold fetched_table, client_result.
  rewrite (status_passes _ Hstatus). unfold table_of_payload.
  assert (Ht : truthy (JObj members) = true).
  { unfold truthy. rewrite (assoc_Some_nonempty _ _ _ Hdata). reflexivity. }
  rewrite Ht. unfold py_contains, py_getitem. rewrite Hdata, as_records_map. reflexivity.
Qed.

Lemma DataFrame_of_records_not_empty (record : list (string * json))
    (records : list (list (string * json))) :
  record <> [] -> empty (DataFrame_of_records (record :: records)) = false.
Proof.
  destruct record as [|[k v] record]; [congruence|]. intros _. reflexivity.
Qed.

(** X23.  When the service has records for some dataset but nothing for
    [daily_sleep] or nothing for [daily_readiness], [main] tells the
    operator that the required datasets are missing and then, all the
    same, that the collection is complete; the summary file is not
    written. *)
Theorem main_complete_without_summary (irregular : json -> outcome DataFrame) (w : World)
    (line : text) (rest : list text) (required name endpoint : string) (status : Z)
    (members : list (string * json)) (record : list (string * json))
    (records : list (list (string * json))) :
  stdin w = line :: rest -> strip line <> [] ->
  valid_ordinal (today w) = true -> 300 < today w ->
  let reply endpoint :=
    network w (request_of (__init__ (strip line)) endpoint
                 (window_params (isoformat (today w - 300)) (isoformat (today w)))) in
  (forall rq, expected_reply (network w rq)) ->
  In required ["daily_sleep"; "daily_readiness"] ->
  no_data_reply (reply required) ->
  In (name, endpoint) dataset_endpoints ->
  reply endpoint = Responds status (Some (JObj members)) ->
  ~ (400 <= status < 600) ->
  assoc "data" members = Some (JArr (map JObj (record :: records))) ->
  record <> [] ->
  exists w' shown,
    main irregular w = (Ok tt, w')
    /\ stdout w' = shown ++ [MissingRequired; Complete; NextSteps]
    /\ files w' !! os_path_join "oura_data" "daily_features.csv"
       = files w !! os_path_join "oura_data" "daily_features.csv".
Proof.
  intros Hin Htoken Hv Hd reply Hall Hreq Hnothing Hname Hreply Hstatus Hdata Hrecord.
  destruct (fetched_table_no_data irregular _ Hnothing) as (nothing & Hn & Hempty).
  eapply (main_without_required_dataset irregular w line rest required name endpoint
            nothing (DataFrame_of_records (record :: records)));
    try eassumption.
  - intros name' endpoint' _. apply fetched_table_expected, Hall.
  - fold (reply endpoint). rewrite Hreply. apply fetched_table_records; assumption.
  - apply DataFrame_of_records_not_empty. exact Hrecord.
Qed.

Lemma main_complete_without_summary_witness :
  exists w' shown,
    main (fun _ => Raised ValueError) sample_session = (Ok tt, w')
    /\ stdout w' = shown ++ [MissingRequired; Complete; NextSteps]
    /\ files w' !! os_path_join "oura_data" "daily_features.csv"
       = files sample_session !! os_path_join "oura_data" "daily_features.csv".
Proof.
  refine (main_complete_without_summary (fun _ => Raised ValueError) sample_session
            sample_token_line [] "daily_readiness" "daily_sleep" "daily_sleep" 200
            [("data",
              JArr [JObj [("day", sample_day); ("score", JInt 70);
                          ("contributors", JObj [("deep_sleep", JInt 65)])]])]
            [("day", sample_day); ("score", JInt 70);
             ("contributors", JObj [("deep_sleep", JInt 65)])] []
            _ _ _ _ _ _ _ _ _ _ _ _).
  - reflexivity.
  - vm_compute. discriminate.
  - reflexivity.
  - simpl. lia.
  - intros rq. unfold sample_session, sample_service. cbn [network].
    destruct (String.eqb (url rq) _); cbn.
    + right. right. eexists [_]. reflexivity.
    + left. lia.
  - simpl. tauto.
  - unfold no_data_reply.
    match goal with
    | |- match ?x with _ => _ end =>
        replace x with (Responds 404 None) by (vm_compute; reflexivity)
    end.
    left. lia.
  - simpl. tauto.
  - vm_compute. reflexivity.
  - lia.
  - reflexivity.
  - discriminate.
Defined.
